(** * graphenebot: the moderation pipeline of [graphenebot.py]

    A shallow embedding of the settings store, the username type resolver,
    the message classifier, the notification throttle and the audit
    dispatcher of [src/graphenebot.py], followed by the properties of the
    specification that concern them.

    Conventions of the embedding:
    - Python [int] is [Z]; [str] is [string] (characters are bytes, so the
      case mapping and the character classes are the ASCII ones);
      [None] is [option]'s [None]; [dict] is stdpp's [gmap].
    - [datetime] values are [Z] microseconds (the resolution of Python's
      [datetime]); [timedelta(hours=1)] is [3600 * 10^6].
    - The handler runs in a state-and-exception monad.  The state carries
      the two process-local dictionaries ([group_config], [delete_events]),
      the three Mongo collections, and the trace of every call that leaves
      the process (database, Telegram API, [logging.error]).
    - Whether an outgoing call raises is decided by the environment
      ([fails]), which sees the trace so far and the call. *)

From Stdlib Require Import ZArith Lia Ascii String.
From stdpp Require Import gmap strings list pretty.

Local Open Scope string_scope.
Local Open Scope list_scope.
Local Open Scope Z_scope.

(** ** Python strings *)

Module Py.

Definition chr (n : nat) : string := String (ascii_of_nat n) EmptyString.
Definition NL : string := chr 10.

Definition is_upper (c : ascii) : bool :=
  let n := nat_of_ascii c in (65 <=? n)%nat && (n <=? 90)%nat.
Definition is_lower (c : ascii) : bool :=
  let n := nat_of_ascii c in (97 <=? n)%nat && (n <=? 122)%nat.
Definition is_digit (c : ascii) : bool :=
  let n := nat_of_ascii c in (48 <=? n)%nat && (n <=? 57)%nat.
(** [[a-zA-Z]] *)
Definition is_letter (c : ascii) : bool := is_upper c || is_lower c.
(** [\w] and [\W] *)
Definition is_word (c : ascii) : bool :=
  is_letter c || is_digit c || (nat_of_ascii c =? 95)%nat.
Definition is_nonword (c : ascii) : bool := negb (is_word c).
(** [\s]: tab, newline, vertical tab, form feed, carriage return, the
    four separators 28..31 and the space. *)
Definition is_space (c : ascii) : bool :=
  let n := nat_of_ascii c in
  ((9 <=? n)%nat && (n <=? 13)%nat) || ((28 <=? n)%nat && (n <=? 32)%nat).

Definition lower_char (c : ascii) : ascii :=
  if is_upper c then ascii_of_nat (nat_of_ascii c + 32) else c.

(** [s.lower()] *)
Fixpoint lower (s : string) : string :=
  match s with
  | EmptyString => EmptyString
  | String c r => String (lower_char c) (lower r)
  end.

(** [s.startswith(p)] *)
Definition startswith (s p : string) : bool := String.prefix p s.

(** [s.lstrip(c)] for a single character [c] *)
Fixpoint lstrip (c : ascii) (s : string) : string :=
  match s with
  | String d r => if Ascii.eqb c d then lstrip c r else s
  | EmptyString => EmptyString
  end.

Definition len (s : string) : Z := Z.of_nat (String.length s).

(** A slice bound as [slice.indices] normalises it: a negative bound
    counts from the end, and the result is clamped to [0, len]. *)
Definition clamp (n i : Z) : Z :=
  let j := if i <? 0 then i + n else i in
  Z.max 0 (Z.min n j).

(** [s[a:b]] *)
Definition slice (s : string) (a b : Z) : string :=
  let lo := clamp (len s) a in
  let hi := clamp (len s) b in
  String.substring (Z.to_nat lo) (Z.to_nat (hi - lo)) s.

(** [x in l] for a list (or tuple) of strings *)
Definition str_in (x : string) (l : list string) : bool :=
  existsb (String.eqb x) l.

(** [z in l] for a list of integers *)
Definition int_in (z : Z) (l : list Z) : bool := existsb (Z.eqb z) l.

(** ['%d' % z] *)
Definition fmt_d (z : Z) : string := pretty z.

(** [html.escape(s)] with its default [quote=True] *)
Fixpoint html_escape (s : string) : string :=
  match s with
  | EmptyString => EmptyString
  | String c r =>
      let n := nat_of_ascii c in
      (if (n =? 38)%nat then "&amp;"
       else if (n =? 60)%nat then "&lt;"
       else if (n =? 62)%nat then "&gt;"
       else if (n =? 34)%nat then "&quot;"
       else if (n =? 39)%nat then "&#x27;"
       else String c EmptyString) +:+ html_escape r
  end.

(** Truthiness of an optional string: [None] and [''] are false. *)
Definition truthy_str (o : option string) : bool :=
  match o with
  | Some (String _ _) => true
  | _ => false
  end.

End Py.

(** ** Telegram objects (the attributes the handler reads) *)

Record User := mkUser {
  user_id : Z;
  username : option string;
  first_name : option string;
  last_name : option string
}.

Record Chat := mkChat {
  chat_id : Z;
  chat_type : string;
  chat_username : option string
}.

Record MessageEntity := mkEntity {
  ent_type : string;
  ent_offset : Z;
  ent_length : Z
}.

Record Message := mkMessage {
  message_id : Z;
  chat : Chat;
  from_user : User;
  text : option string;
  caption : option string;
  entities : option (list MessageEntity);
  forward_from : option User;
  forward_from_chat : option Chat
}.

(** ** Values of the settings dictionary *)

(** What [set_setting] is called with: a bool ([/graphene_set]), a channel
    id or [None] ([/setlog], [/unsetlog]), a list of format names
    ([/setlogformat]). *)
Inductive value :=
| VNone
| VBool (b : bool)
| VInt (z : Z)
| VList (l : list string).

(** [o is not None]: the truth value of an optional Telegram object *)
Definition not_none {A : Type} (o : option A) : bool :=
  match o with
  | Some _ => true
  | None => false
  end.

(** Python truth value *)
Definition truthy (v : value) : bool :=
  match v with
  | VNone => false
  | VBool b => b
  | VInt z => negb (z =? 0)
  | VList l => match l with [] => false | _ => true end
  end.

(** ** Events, outgoing calls, exceptions, state *)

(** The document [save_event] stores: the dump of the message, ['date'],
    ['type'] and the keyword arguments (here always [reason]). *)
Record event := mkEvent {
  ev_msg : Message;
  ev_date : Z;
  ev_type : string;
  ev_reason : string
}.

(** The text argument of [bot.send_message]: a [str], or the one-element
    tuple the json format builds (the trailing comma of line 468). *)
Inductive content :=
| Str (s : string)
| Tuple1 (s : string).

Inductive call :=
| ConfigUpsert (group_id : Z) (key : string) (val : value)
| UserFind (name : string)
| FetchUserType (name : string)
| UserUpsert (name type : string) (added : Z)
| EventSave (ev : event)
| GetChatAdministrators (cid : Z)
| SendMessage (cid : Z) (body : content)
| ForwardMessage (cid from_cid mid : Z)
| DeleteMessage (cid mid : Z)
| LoggingError (chid : Z).

Inductive exn :=
| AssertionError
| TypeError
| ValueError
| AttributeError
| UnboundLocalError
| CallFailed (c : call).

Record state := mkState {
  group_config : gmap (Z * string) value;
  delete_events : gmap (Z * Z) Z;
  db_config : gmap (Z * string) value;
  db_user : gmap string string;
  db_event : list event;
  trace : list call;
  ticks : nat
}.

Definition set_group_config (f : gmap (Z * string) value -> gmap (Z * string) value)
    (s : state) : state :=
  mkState (f (group_config s)) (delete_events s) (db_config s) (db_user s)
          (db_event s) (trace s) (ticks s).
Definition set_delete_events (f : gmap (Z * Z) Z -> gmap (Z * Z) Z) (s : state) : state :=
  mkState (group_config s) (f (delete_events s)) (db_config s) (db_user s)
          (db_event s) (trace s) (ticks s).
Definition set_db_config (f : gmap (Z * string) value -> gmap (Z * string) value)
    (s : state) : state :=
  mkState (group_config s) (delete_events s) (f (db_config s)) (db_user s)
          (db_event s) (trace s) (ticks s).
Definition set_db_user (f : gmap string string -> gmap string string) (s : state) : state :=
  mkState (group_config s) (delete_events s) (db_config s) (f (db_user s))
          (db_event s) (trace s) (ticks s).
Definition set_db_event (f : list event -> list event) (s : state) : state :=
  mkState (group_config s) (delete_events s) (db_config s) (db_user s)
          (f (db_event s)) (trace s) (ticks s).
Definition set_trace (f : list call -> list call) (s : state) : state :=
  mkState (group_config s) (delete_events s) (db_config s) (db_user s)
          (db_event s) (f (trace s)) (ticks s).
Definition set_ticks (f : nat -> nat) (s : state) : state :=
  mkState (group_config s) (delete_events s) (db_config s) (db_user s)
          (db_event s) (trace s) (f (ticks s)).

Definition empty_state : state := mkState ∅ ∅ ∅ ∅ [] [] 0.

(** ** The monad *)

Inductive result (A : Type) :=
| Ok (a : A) (s : state)
| Raise (e : exn) (s : state).
Arguments Ok {A} a s.
Arguments Raise {A} e s.

Definition final {A : Type} (r : result A) : state :=
  match r with
  | Ok _ s => s
  | Raise _ s => s
  end.

Definition M (A : Type) : Type := state -> result A.

Definition ret {A : Type} (a : A) : M A := fun s => Ok a s.
Definition raise {A : Type} (e : exn) : M A := fun s => Raise e s.
Definition bind {A B : Type} (m : M A) (k : A -> M B) : M B :=
  fun s =>
    match m s with
    | Ok a s' => k a s'
    | Raise e s' => Raise e s'
    end.

Notation "'let!' x ':=' m 'in' k" := (bind m (fun x => k))
  (at level 10, x name, m at level 100, k at level 200).
Notation "m '>>' k" := (bind m (fun _ => k))
  (at level 65, right associativity).

(** [try: m / except Exception as ex: h ex] *)
Definition try_except {A : Type} (m : M A) (h : exn -> M A) : M A :=
  fun s =>
    match m s with
    | Ok a s' => Ok a s'
    | Raise e s' => h e s'
    end.

(** [try: m / finally: f]: [f] runs on both exits; an exception of [f]
    replaces the pending outcome. *)
Definition try_finally {A : Type} (m : M A) (f : M unit) : M A :=
  fun s =>
    match m s with
    | Ok a s' =>
        match f s' with
        | Ok _ s'' => Ok a s''
        | Raise e s'' => Raise e s''
        end
    | Raise e s' =>
        match f s' with
        | Ok _ s'' => Raise e s''
        | Raise e' s'' => Raise e' s''
        end
    end.

Definition gets {A : Type} (f : state -> A) : M A := fun s => Ok (f s) s.
Definition modify (f : state -> state) : M unit := fun s => Ok tt (f s).

(** ** The free-text mention pattern, line 375

    [re.search(r'(?:^|\W)\@\s([a-zA-Z]+)(?:$|\W)', text)], returning
    [mention.group(1)].  [mention_here] matches the part after the first
    group at the head of its argument: an [@], one whitespace character,
    a run of letters, then the end of the text or a non-word character.
    The run is greedy, and giving back letters cannot help (the next
    character would be a letter), so only the maximal run is tried. *)

Fixpoint letters_run (s : string) : string * string :=
  match s with
  | String c r =>
      if Py.is_letter c then let (run, rest) := letters_run r in (String c run, rest)
      else (EmptyString, s)
  | EmptyString => (EmptyString, EmptyString)
  end.

Definition mention_here (s : string) : option string :=
  match s with
  | String a (String w r) =>
      if Ascii.eqb a "@"%char && Py.is_space w then
        match letters_run r with
        | (String c run, EmptyString) => Some (String c run)
        | (String c run, String d _) =>
            if Py.is_nonword d then Some (String c run) else None
        | (EmptyString, _) => None
        end
      else None
  | _ => None
  end.

(** Start positions after the first: the first group must consume one
    non-word character. *)
Fixpoint mention_after (s : string) : option string :=
  match s with
  | String c r =>
      if Py.is_nonword c then
        match mention_here r with
        | Some u => Some u
        | None => mention_after r
        end
      else mention_after r
  | EmptyString => None
  end.

(** At position 0 the alternative [^] is tried before [\W]. *)
Definition re_search_mention (s : string) : option string :=
  match mention_here s with
  | Some u => Some u
  | None => mention_after s
  end.

(** ** [urlparse(url).netloc]

    The handler only compares the result, so the embedding takes the
    function from the environment.  [netloc_model] is [urlsplit] as far
    as the netloc goes (scheme detection, then the text between [//] and
    the first of [/?#], and the [ValueError] for unbalanced brackets); the
    concrete examples run with it. *)

Fixpoint split_colon (s : string) : option (string * string) :=
  match s with
  | EmptyString => None
  | String c r =>
      if Ascii.eqb c ":"%char then Some (EmptyString, r)
      else match split_colon r with
           | Some (a, b) => Some (String c a, b)
           | None => None
           end
  end.

Fixpoint all_chars (p : ascii -> bool) (s : string) : bool :=
  match s with
  | EmptyString => true
  | String c r => p c && all_chars p r
  end.

Fixpoint has_char (c : ascii) (s : string) : bool :=
  match s with
  | EmptyString => false
  | String d r => Ascii.eqb c d || has_char c r
  end.

Definition scheme_char (c : ascii) : bool :=
  Py.is_letter c || Py.is_digit c || has_char c "+-.".

(** [_splitnetloc(url, 0)] on the text after [//] *)
Fixpoint until_delim (s : string) : string :=
  match s with
  | EmptyString => EmptyString
  | String c r => if has_char c "/?#" then EmptyString else String c (until_delim r)
  end.

Definition netloc_after_scheme (url : string) : option string :=
  match url with
  | String a (String b r) =>
      if Ascii.eqb a "/"%char && Ascii.eqb b "/"%char then
        let netloc := until_delim r in
        if xorb (has_char "["%char netloc) (has_char "]"%char netloc) then None
        else Some netloc
      else Some EmptyString
  | _ => Some EmptyString
  end.

Definition netloc_model (url : string) : option string :=
  match split_colon url with
  | Some (String c pre, rest) =>
      let scheme := String c pre in
      if String.eqb scheme "http" then netloc_after_scheme rest
      else if all_chars scheme_char scheme
              && (match rest with
                  | EmptyString => true
                  | _ => negb (all_chars Py.is_digit rest)
                  end)
      then netloc_after_scheme rest
      else netloc_after_scheme url
  | _ => netloc_after_scheme url
  end.

(** ** The environment

    Everything the handler obtains from outside [graphenebot.py]: the
    outcome of outgoing calls, the clock, the Telegram administrators, the
    three helpers imported from [util], the exception files read at import
    time, and the two library functions whose result the handler only
    compares or forwards ([urlparse(..).netloc], [None] standing for its
    [ValueError]; [jsondate.dumps], [None] standing for its [TypeError]). *)

Record env := mkEnv {
  fails : list call -> call -> bool;
  clock : nat -> Z;
  chat_administrators : Z -> list Z;
  fetch_user_type : string -> option string;
  find_username_links : string -> list string;
  find_external_links : string -> list string;
  LINKS_EXCEPTIONS : list string;
  urlparse_netloc : string -> option string;
  jsondate_dumps : Message -> string -> Z -> option string
}.

(** Line 21 *)
Definition USERNAME_EXCEPTIONS : list string :=
  ["blockchainschool"; "preico"; "tnam0rken_chanel"].

(** Line 70 *)
Definition GROUP_SETTING_KEYS : list string :=
  ["publog"; "log_channel_id"; "logformat"; "channels"; "groups"; "links";
   "forwarded"; "emails"; "kick"].

(** [timedelta(hours=1)] in microseconds *)
Definition HOUR : Z := 3600 * 1000000.

(** [user_type == t] *)
Definition type_is (user_type : option string) (t : string) : bool :=
  match user_type with
  | Some x => String.eqb x t
  | None => false
  end.

(** Lines 349-351: the text under the span, with [//] put in front when it
    starts with neither [//] nor [http] *)
Definition entity_url (t : string) (ent : MessageEntity) : string :=
  let url := Py.slice t (ent_offset ent) (ent_offset ent + ent_length ent) in
  if negb (Py.startswith url "//") && negb (Py.startswith url "http")
  then "//" +:+ url else url.

(** The outcome of one iteration of a [for] loop: fall through (or
    [continue]) to the next element, or [break] with the reason set. *)
Inductive flow :=
| Next
| Break (reason : string).

(** The pair of locals [(to_delete, reason)]; [reason] is unbound until
    a rule sets it. *)
Definition verdict : Type := bool * option string.

Definition flagged (reason : string) : verdict := (true, Some reason).

(** Line 430: the text of the public notice.  Its two [%s] are never
    filled in: the string is passed to [bot.send_message] as it is. *)
Definition NOTICE : string :=
  "Removed msg from %s. Reason: %s" +:+ Py.NL +:+
  "Messages containing links to these websites will not be deleted: steemit.com, golos.io and whaleshares.io".

(** ['%s' % o]: [str(None)] is ['None'] *)
Definition fmt_s (o : option string) : string :=
  match o with
  | Some s => s
  | None => "None"
  end.

(** Lines 440-443 *)
Definition from_chatname (msg : Message) : string :=
  if Py.truthy_str (chat_username (chat msg))
  then "@" +:+ fmt_s (chat_username (chat msg))
  else "#" +:+ Py.fmt_d (chat_id (chat msg)).

(** Lines 444-450 *)
Definition from_username (msg : Message) : option string :=
  if Py.truthy_str (username (from_user msg))
  then Some ("@" +:+ fmt_s (username (from_user msg)) +:+ " ["
             +:+ fmt_s (first_name (from_user msg)) +:+ "]")
  else first_name (from_user msg).

(** Lines 451-454 *)
Definition from_info (msg : Message) : string :=
  "Chat: " +:+ from_chatname msg +:+ Py.NL +:+ "User: <a href=" +:+ Py.chr 34
  +:+ "tg://user?id=" +:+ Py.fmt_d (user_id (from_user msg)) +:+ Py.chr 34 +:+ ">"
  +:+ fmt_s (from_username msg) +:+ "</a>".

(** [msg.text or msg.caption] *)
Definition text_or_caption (msg : Message) : option string :=
  if Py.truthy_str (text msg) then text msg else caption msg.

Section Bot.

Variable E : env.

(** An outgoing call: logged, and raising when the environment says so. *)
Definition perform (c : call) : M unit :=
  fun s =>
    let s' := set_trace (fun t => t ++ [c]) s in
    if fails E (trace s) c then Raise (CallFailed c) s' else Ok tt s'.

(** [logging.error(..)]: logged, never raising. *)
Definition logging_error (chid : Z) : M unit :=
  modify (set_trace (fun t => t ++ [LoggingError chid])).

(** [datetime.utcnow()] *)
Definition utcnow : M Z :=
  fun s => Ok (clock E (ticks s)) (set_ticks S s).

(** *** Settings store, lines 111-129 *)

Definition set_setting (group_id : Z) (key : string) (val : value) : M unit :=
  if negb (Py.str_in key GROUP_SETTING_KEYS) then raise AssertionError
  else
    perform (ConfigUpsert group_id key val) >>
    modify (set_db_config (fun c => <[(group_id, key) := val]> c)) >>
    modify (set_group_config (fun c => <[(group_id, key) := val]> c)).

Definition get_setting (group_id : Z) (key : string) (default : value) : M value :=
  if negb (Py.str_in key GROUP_SETTING_KEYS) then raise AssertionError
  else
    fun s =>
      match group_config s !! (group_id, key) with
      | Some v => Ok v s
      | None => Ok default s
      end.

(** *** Events, lines 90-97 *)

Definition save_event (event_type : string) (msg : Message) (reason : string) : M unit :=
  let! date := utcnow in
  let ev := mkEvent msg date event_type reason in
  perform (EventSave ev) >>
  modify (set_db_event (fun l => l ++ [ev])).

(** *** Username type resolver, lines 132-153 *)

Definition process_user_type (name : string) : M (option string) :=
  let name := Py.lower name in
  let! user := (perform (UserFind name) >> gets (fun s => db_user s !! name)) in
  match user with
  | Some ty => ret (Some ty)
  | None =>
      let! user_type := (perform (FetchUserType name) >> ret (fetch_user_type E name)) in
      match user_type with
      | Some (String c r) =>
          let! added := utcnow in
          perform (UserUpsert name (String c r) added) >>
          modify (set_db_user (fun u => <[name := String c r]> u)) >>
          ret user_type
      | _ => ret user_type
      end
  end.

(** *** Classifier, lines 346-405 *)

(** [cond and get_setting(group_config, cid, key, True)], as a truth value *)
Definition setting_and (cond : bool) (cid : Z) (key : string) : M bool :=
  if cond then
    let! v := get_setting cid key (VBool true) in ret (truthy v)
  else ret false.

(** [msg.text[..]] and [re.search(.., msg.text)] raise [TypeError] on [None] *)
Definition text_of (msg : Message) : M string :=
  match text msg with
  | Some t => ret t
  | None => raise TypeError
  end.

(** [msg.caption or ''] *)
Definition caption_or_empty (msg : Message) : string :=
  match caption msg with
  | Some c => c
  | None => EmptyString
  end.

(** Lines 348-373, the body of [for ent in (msg.entities or [])] *)
Definition entity_body (msg : Message) (ent : MessageEntity) : M flow :=
  let cid := chat_id (chat msg) in
  let! is_link := setting_and (Py.str_in (ent_type ent) ["url"; "text_link"]) cid "links" in
  if is_link then
    let! t := text_of msg in
    match urlparse_netloc E (entity_url t ent) with
    | None => raise ValueError
    | Some netloc =>
        if Py.str_in (Py.lower netloc) (LINKS_EXCEPTIONS E) then ret Next
        else ret (Break "external link")
    end
  else
    let! is_email := setting_and (Py.str_in (ent_type ent) ["email"]) cid "emails" in
    if is_email then ret (Break "email")
    else if String.eqb (ent_type ent) "mention" then
      let! t := text_of msg in
      let name :=
        Py.lstrip "@" (Py.slice t (ent_offset ent) (ent_offset ent + ent_length ent)) in
      if Py.str_in (Py.lower name) USERNAME_EXCEPTIONS then ret Next
      else
        let! user_type := process_user_type name in
        let! g := setting_and (type_is user_type "group") cid "groups" in
        if g then ret (Break "@-link to group")
        else
          let! c := setting_and (type_is user_type "channel") cid "channels" in
          if c then ret (Break "@-link to channel") else ret Next
    else ret Next.

(** Lines 346-373 *)
Fixpoint entity_loop (msg : Message) (ents : list MessageEntity) : M verdict :=
  match ents with
  | [] => ret (false, None)
  | ent :: rest =>
      let! f := entity_body msg ent in
      match f with
      | Break reason => ret (flagged reason)
      | Next => entity_loop msg rest
      end
  end.

(** Lines 375-385: the free-text mention rule.  The two tests on
    [user_type] are two [if]s, not [if]/[elif]. *)
Definition free_text_mention (msg : Message) (v : verdict) : M verdict :=
  let cid := chat_id (chat msg) in
  let! t := text_of msg in
  match re_search_mention t with
  | Some name =>
      if negb (Py.str_in (Py.lower name) USERNAME_EXCEPTIONS) then
        let! user_type := process_user_type name in
        let! g := setting_and (type_is user_type "group") cid "groups" in
        let v := if g then flagged "@-link to group" else v in
        let! c := setting_and (type_is user_type "channel") cid "channels" in
        let v := if c then flagged "@-link to channel" else v in
        ret v
      else ret v
  | None => ret v
  end.

(** Lines 386-388: the forward rule; it does not test [to_delete]. *)
Definition forward_check (msg : Message) (v : verdict) : M verdict :=
  let! f := setting_and (not_none (forward_from msg) || not_none (forward_from_chat msg))
                        (chat_id (chat msg)) "forwarded" in
  if f then ret (flagged "forwarded") else ret v.

(** Lines 374-388: both rules sit under one [if not to_delete]. *)
Definition free_text_block (msg : Message) (v : verdict) : M verdict :=
  if fst v then ret v
  else
    let! v := free_text_mention msg v in
    forward_check msg v.

(** Lines 391-401 *)
Fixpoint caption_loop (msg : Message) (usernames : list string) (v : verdict) : M verdict :=
  let cid := chat_id (chat msg) in
  match usernames with
  | [] => ret v
  | name :: rest =>
      let name := Py.lstrip "@" name in
      let! user_type := process_user_type name in
      let! g := setting_and (type_is user_type "group") cid "groups" in
      if g then ret (flagged "caption @-link to group")
      else
        let! c := setting_and (type_is user_type "channel") cid "channels" in
        if c then ret (flagged "caption @-link to channel")
        else caption_loop msg rest v
  end.

(** Lines 389-401 *)
Definition caption_mention_block (msg : Message) (v : verdict) : M verdict :=
  if fst v then ret v
  else caption_loop msg (find_username_links E (caption_or_empty msg)) v.

(** Lines 402-405 *)
Definition caption_link_block (msg : Message) (v : verdict) : M verdict :=
  if fst v then ret v
  else
    let found := match find_external_links E (caption_or_empty msg) with
                 | [] => false
                 | _ => true
                 end in
    let! l := setting_and found (chat_id (chat msg)) "links" in
    if l then ret (flagged "caption external link") else ret v.

(** Lines 346-405: the values of [to_delete] and [reason] at line 406 *)
Definition classify (msg : Message) : M verdict :=
  let! v := entity_loop msg (match entities msg with Some l => l | None => [] end) in
  let! v := free_text_block msg v in
  let! v := caption_mention_block msg v in
  caption_link_block msg v.

(** *** Notification throttle, lines 426-429

    [event_key not in delete_events or
     delete_events[event_key] < datetime.utcnow() - timedelta(hours=1)];
    the clock is read only when the key is present. *)
Definition should_notify (event_key : Z * Z) : M bool :=
  let! events := gets delete_events in
  match events !! event_key with
  | None => ret true
  | Some t => let! now := utcnow in ret (t <? now - HOUR)
  end.

(** Line 432 *)
Definition record_notified (event_key : Z * Z) : M unit :=
  let! now := utcnow in
  modify (set_delete_events (fun d => <[event_key := now]> d)).

(** Lines 424-432 *)
Definition notify (msg : Message) : M unit :=
  let cid := chat_id (chat msg) in
  let event_key := (cid, user_id (from_user msg)) in
  let! publog := get_setting cid "publog" (VBool true) in
  (if truthy publog then
     let! open := should_notify event_key in
     if open then perform (SendMessage cid (Str NOTICE)) else ret tt
   else ret tt) >>
  record_notified event_key.

(** *** Audit dispatcher, lines 434-481 *)

(** [x in formats]: a [TypeError] unless [formats] is a list *)
Definition contains (x : string) (formats : value) : M bool :=
  match formats with
  | VList l => ret (Py.str_in x l)
  | _ => raise TypeError
  end.

(** Lines 456-476, the body of the inner [try] *)
Definition send_formats (msg : Message) (reason : string) (chid : Z) (formats : value)
    : M unit :=
  let cid := chat_id (chat msg) in
  (let! f := contains "forward" formats in
   if f then perform (ForwardMessage chid cid (message_id msg)) else ret tt) >>
  (let! j := contains "json" formats in
   if j then
     let! date := utcnow in
     match jsondate_dumps E msg reason date with
     | None => raise TypeError
     | Some dump =>
         let dump := Py.html_escape dump in
         perform (SendMessage chid
                    (Tuple1 (from_info msg +:+ Py.NL +:+ "<pre>" +:+ dump +:+ "</pre>")))
     end
   else ret tt) >>
  (let! p := contains "simple" formats in
   if p then
     match text_or_caption msg with
     | None => raise AttributeError
     | Some t =>
         perform (SendMessage chid
                    (Str (from_info msg +:+ Py.NL +:+ "Reason: " +:+ reason +:+ Py.NL
                          +:+ "Content:" +:+ Py.NL
                          +:+ "<pre>" +:+ Py.html_escape t +:+ "</pre>")))
     end
   else ret tt).

(** Lines 439-481, the body of [for chid in ids] *)
Definition dispatch_channel (msg : Message) (reason : string) (chid : Z) : M unit :=
  let! formats := get_setting chid "logformat" (VList ["simple"]) in
  try_except (send_formats msg reason chid formats) (fun ex => logging_error chid).

(** Lines 438-481 *)
Fixpoint dispatch (msg : Message) (reason : string) (ids : list Z) : M unit :=
  match ids with
  | [] => ret tt
  | chid :: rest => dispatch_channel msg reason chid >> dispatch msg reason rest
  end.

(** Lines 434-437: [ids] holds the log channel when the setting is true.
    A list is not hashable, [True] is the integer 1. *)
Definition log_channel_ids (msg : Message) : M (list Z) :=
  let! channel_id := get_setting (chat_id (chat msg)) "log_channel_id" VNone in
  if truthy channel_id then
    match channel_id with
    | VInt z => ret [z]
    | VBool _ => ret [1]
    | _ => raise TypeError
    end
  else ret [].

(** Lines 411-481, the body of the outer [try].  Lines 412-422 compute a
    local [from_user] that nothing reads; it is left out. *)
Definition moderate (msg : Message) (reason : string) : M unit :=
  save_event "delete_msg" msg reason >>
  notify msg >>
  let! ids := log_channel_ids msg in
  dispatch msg reason ids.

(** Lines 345-483 *)
Definition handle_any_msg (msg : Message) : M unit :=
  let cid := chat_id (chat msg) in
  let! v := classify msg in
  if fst v then
    let! admins := (perform (GetChatAdministrators cid) >> ret (chat_administrators E cid)) in
    if Py.int_in (user_id (from_user msg)) admins then ret tt
    else
      try_finally
        (match snd v with
         | Some reason => moderate msg reason
         | None => raise UnboundLocalError
         end)
        (perform (DeleteMessage cid (message_id msg)))
  else ret tt.

End Bot.

(** ** Start-up, lines 100-108 and 156-159 *)

(** A document of the [config] collection *)
Record config_item := mkItem {
  item_group_id : Z;
  item_key : string;
  item_value : value
}.

(** Lines 100-108: the documents are read in the order [find()] yields
    them, each assignment replacing what the key held. *)
Definition load_group_config (items : list config_item) : gmap (Z * string) value :=
  fold_left (fun ret item => <[(item_group_id item, item_key item) := item_value item]> ret)
            items ∅.

(** The documents of a collection that holds one document per key *)
Definition items_of (c : gmap (Z * string) value) : list config_item :=
  map (fun kv => mkItem (fst (fst kv)) (snd (fst kv)) (snd kv)) (map_to_list c).

(** ** Command patterns, lines 236-237

    [^/graphene_set (publog|channels|groups|links|forwarded|emails|kick)=(.+)$]
    and the same for [/graphene_get] with an empty second group, both used
    with [match].  The key alternatives are tried in order, each followed
    by the rest of the pattern.  [.] is any character but the newline and
    [$] is the end of the text or the position before a final newline, so
    the greedy [.+] succeeds only with the whole run up to the first
    newline. *)

Definition COMMAND_KEYS : list string :=
  ["publog"; "channels"; "groups"; "links"; "forwarded"; "emails"; "kick"].

(** The text after prefix [p], when [s] starts with [p] *)
Fixpoint strip_prefix (p s : string) : option string :=
  match p, s with
  | EmptyString, _ => Some s
  | String a p', String b s' => if Ascii.eqb a b then strip_prefix p' s' else None
  | String _ _, EmptyString => None
  end.

(** The longest newline-free prefix and what follows it *)
Fixpoint line_run (s : string) : string * string :=
  match s with
  | String c r =>
      if Ascii.eqb c (ascii_of_nat 10) then (EmptyString, s)
      else let (run, rest) := line_run r in (String c run, rest)
  | EmptyString => (EmptyString, EmptyString)
  end.

(** [$] at the head of [s] *)
Definition at_end (s : string) : bool :=
  match s with
  | EmptyString => true
  | String c EmptyString => Ascii.eqb c (ascii_of_nat 10)
  | _ => false
  end.

(** [=(.+)$] *)
Definition set_tail (s : string) : option string :=
  match s with
  | String c r =>
      if Ascii.eqb c "="%char then
        match line_run r with
        | (String v vs, rest) => if at_end rest then Some (String v vs) else None
        | (EmptyString, _) => None
        end
      else None
  | EmptyString => None
  end.

(** [()$] *)
Definition get_tail (s : string) : option string :=
  if at_end s then Some EmptyString else None.

(** The first key alternative after which [tail] matches *)
Fixpoint match_keys (keys : list string) (tail : string -> option string) (s : string)
    : option (string * string) :=
  match keys with
  | [] => None
  | k :: rest =>
      match strip_prefix k s with
      | Some r =>
          match tail r with
          | Some v => Some (k, v)
          | None => match_keys rest tail s
          end
      | None => match_keys rest tail s
      end
  end.

(** [re_cmd_set.match(text).groups()] *)
Definition re_cmd_set (t : string) : option (string * string) :=
  match strip_prefix "/graphene_set " t with
  | Some r => match_keys COMMAND_KEYS set_tail r
  | None => None
  end.

(** [re_cmd_get.match(text).groups()] *)
Definition re_cmd_get (t : string) : option (string * string) :=
  match strip_prefix "/graphene_get " t with
  | Some r => match_keys COMMAND_KEYS get_tail r
  | None => None
  end.

(** ** [/setlogformat] arguments, lines 280-282 *)

(** [s.split(sep)] for a one-character separator: every occurrence
    splits, empty pieces are kept, the result is never empty. *)
Fixpoint split_on (sep : ascii) (s : string) : list string :=
  match s with
  | EmptyString => [EmptyString]
  | String c r =>
      if Ascii.eqb c sep then EmptyString :: split_on sep r
      else match split_on sep r with
           | h :: t => String c h :: t
           | [] => [String c EmptyString]
           end
  end.

(** Line 280 *)
Definition VALID_FORMATS : list string := ["json"; "forward"; "simple"].

(** Line 281: [text.split(' ')[-1].split(',')] *)
Definition parse_formats (t : string) : list string :=
  split_on ","%char (List.last (split_on " "%char t) EmptyString).

(** Line 282: [any(x not in valid_formats for x in formats)] *)
Definition any_invalid (formats : list string) : bool :=
  existsb (fun x => negb (Py.str_in x VALID_FORMATS)) formats.

(** A channel post, as [handle_setlogformat] reads it; a post that
    carries no sender has [from_user = None]. *)
Record ChannelPost := mkPost {
  post_message_id : Z;
  post_chat : Chat;
  post_from_user : option User;
  post_text : option string
}.

(** ** Command handlers, lines 231-328 *)

Section Commands.

Variable E : env.

(** [str(l)] for a list of strings, which [/graphene_get] would print for
    a list held in the cache *)
Variable str_of_list : list string -> string.

(** [str(v)] *)
Definition py_str (v : value) : string :=
  match v with
  | VNone => "None"
  | VBool true => "True"
  | VBool false => "False"
  | VInt z => Py.fmt_d z
  | VList l => str_of_list l
  end.

(** [bot.reply_to(msg, text)]: telebot sends [text] to [msg.chat.id] as a
    reply to the message. *)
Definition reply_to (cid : Z) (body : string) : M unit :=
  perform E (SendMessage cid (Str body)).

(** [bot.get_chat_administrators(cid)], as the list of [x.user.id] *)
Definition admin_ids (cid : Z) : M (list Z) :=
  perform E (GetChatAdministrators cid) >> ret (chat_administrators E cid).

(** [msg.text.startswith(..)] and [msg.text.split(..)] raise
    [AttributeError] on [None] *)
Definition text_attr (t : option string) : M string :=
  match t with
  | Some x => ret x
  | None => raise AttributeError
  end.

(** Lines 231-267 *)
Definition handle_set_get (msg : Message) : M unit :=
  let cid := chat_id (chat msg) in
  if negb (Py.str_in (chat_type (chat msg)) ["group"; "supergroup"]) then
    reply_to cid "This command have to be called from the group"
  else
    let! t := text_attr (text msg) in
    let is_set := Py.startswith t "/graphene_set" in
    match (if is_set then re_cmd_set t else re_cmd_get t) with
    | None => reply_to cid "Invalid arguments"
    | Some (key, val) =>
        let! admins := admin_ids cid in
        if negb (Py.int_in (user_id (from_user msg)) admins) then
          reply_to cid "Access denied"
        else if negb is_set then
          let! v := get_setting cid key VNone in
          reply_to cid (py_str v)
        else if Py.str_in val ["yes"; "no"] then
          let val_bool := String.eqb val "yes" in
          set_setting E cid key (VBool val_bool) >>
          reply_to cid ("Set " +:+ key +:+ " to " +:+ py_str (VBool val_bool)
                        +:+ " for group " +:+ from_chatname msg)
        else
          reply_to cid ("Invalid value of " +:+ key +:+ ". Should be: yes or no")
    end.

(** Lines 269-286 *)
Definition handle_setlogformat (msg : ChannelPost) : M unit :=
  let cid := chat_id (post_chat msg) in
  if negb (String.eqb (chat_type (post_chat msg)) "channel") then
    reply_to cid "This command have to be called from the channel"
  else
    let! admins := admin_ids cid in
    match post_from_user msg with
    | None => raise AttributeError
    | Some sender =>
        if negb (Py.int_in (user_id sender) admins) then reply_to cid "Access denied"
        else
          let! t := text_attr (post_text msg) in
          let formats := parse_formats t in
          if any_invalid formats then
            reply_to cid "Invalid arguments. Valid choices: json, forward, simple"
          else
            set_setting E cid "logformat" (VList formats) >>
            reply_to cid "Set logformat for this channel"
    end.

(** Lines 314-328, the handler of [/unsetlog] *)
Definition handle_unsetlog (msg : Message) : M unit :=
  let cid := chat_id (chat msg) in
  if negb (Py.str_in (chat_type (chat msg)) ["group"; "supergroup"]) then
    reply_to cid "This command have to be called from the group"
  else
    let! admins := admin_ids cid in
    if negb (Py.int_in (user_id (from_user msg)) admins) then
      reply_to cid "Access denied"
    else
      set_setting E cid "log_channel_id" VNone >>
      reply_to cid ("Unset log channel for group " +:+ from_chatname msg).

End Commands.

(** ** Handlers that use further API calls, lines 161-168 and 289-312

    [bot.kick_chat_member] and [bot.get_me] are calls of the Telegram API
    that the handlers above do not make; they are taken as given
    computations. *)

(** A member of [msg.new_chat_members], as the join handler reads it *)
Record Member := mkMember {
  member_id : Z;
  member_username : option string;
  is_bot : bool
}.

(** A [new_chat_members] service message *)
Record JoinMessage := mkJoin {
  join_chat : Chat;
  join_from_user : User;
  new_chat_members : list Member
}.

(** Line 167: [user.is_bot and user.username != 'graphenebot'] *)
Definition unwelcome (user : Member) : bool :=
  is_bot user
  && negb (match member_username user with
           | Some name => String.eqb name "graphenebot"
           | None => false
           end).

Section ApiHandlers.

Variable E : env.

(** [bot.kick_chat_member(chat_id=.., user_id=..)] *)
Variable kick_chat_member : Z -> Z -> M unit.

(** [bot.get_me().id] *)
Variable get_me_id : M Z.

(** Lines 166-168 *)
Fixpoint kick_bots (cid : Z) (members : list Member) : M unit :=
  match members with
  | [] => ret tt
  | user :: rest =>
      (if unwelcome user then kick_chat_member cid (member_id user) else ret tt) >>
      kick_bots cid rest
  end.

(** Lines 161-168 *)
Definition handle_new_chat_member (msg : JoinMessage) : M unit :=
  let cid := chat_id (join_chat msg) in
  let! admins := admin_ids E cid in
  if Py.int_in (user_id (join_from_user msg)) admins then ret tt
  else kick_bots cid (new_chat_members msg).

(** Lines 289-312, the handler of [/setlog] *)
Definition handle_setlog (msg : Message) : M unit :=
  let cid := chat_id (chat msg) in
  if negb (Py.str_in (chat_type (chat msg)) ["group"; "supergroup"]) then
    reply_to E cid "This command have to be called from the group"
  else
    match forward_from_chat msg with
    | None => raise AttributeError
    | Some channel =>
        if negb (String.eqb (chat_type channel) "channel") then
          reply_to E cid "Command /setlog must be forwarded from channel"
        else
          let! channel_admin_ids := admin_ids E (chat_id channel) in
          let! me := get_me_id in
          if negb (Py.int_in me channel_admin_ids) then
            reply_to E cid "I need to be an admin in log channel"
          else
            let! admins := admin_ids E cid in
            if negb (Py.int_in (user_id (from_user msg)) admins) then
              reply_to E cid "Access denied"
            else
              set_setting E cid "log_channel_id" (VInt (chat_id channel)) >>
              reply_to E cid ("Set log channel for group " +:+ from_chatname msg)
    end.

End ApiHandlers.

(** ** Vocabulary of the properties *)

(** Calls made by the username type resolver *)
Definition resolver_call (c : call) : bool :=
  match c with
  | UserFind _ | FetchUserType _ | UserUpsert _ _ _ => true
  | _ => false
  end.

(** Calls made for the public notice and the audit channels *)
Definition audit_call (c : call) : bool :=
  match c with
  | SendMessage _ _ | ForwardMessage _ _ _ | LoggingError _ => true
  | _ => false
  end.

(** [s'] extends the trace of [s] by calls that all satisfy [ok]. *)
Definition trace_grows (ok : call -> bool) (s s' : state) : Prop :=
  exists t, trace s' = trace s ++ t /\ Forall (fun c => ok c = true) t.

(** What classification may change: the username cache, the clock, and
    the trace, by resolver calls only. *)
Definition resolver_frame (s s' : state) : Prop :=
  group_config s' = group_config s /\
  delete_events s' = delete_events s /\
  db_config s' = db_config s /\
  db_event s' = db_event s /\
  trace_grows resolver_call s s'.

(** What notice and audit dispatch may change: the throttle map, the
    clock, and the trace, by sends, forwards and log lines only. *)
Definition audit_frame (s s' : state) : Prop :=
  group_config s' = group_config s /\
  db_config s' = db_config s /\
  db_user s' = db_user s /\
  db_event s' = db_event s /\
  trace_grows audit_call s s'.

(** [m] relates every start state to its final state by [R], whether it
    returns or raises. *)
Definition keeps {A : Type} (R : state -> state -> Prop) (m : M A) : Prop :=
  forall s, R s (final (m s)).

(** Partial correctness on the returning runs of [m]. *)
Definition hoare {A : Type} (P : state -> Prop) (m : M A) (Q : A -> state -> Prop) : Prop :=
  forall s, P s ->
    match m s with
    | Ok a s' => Q a s'
    | Raise _ _ => True
    end.

(** The [links] setting of chat [cid] is stored and false. *)
Definition links_off (cid : Z) (s : state) : Prop :=
  exists v, group_config s !! (cid, "links") = Some v /\ truthy v = false.

(** The verdict carries neither of the two link reasons. *)
Definition no_link_reason (v : verdict) : Prop :=
  snd v <> Some "external link" /\ snd v <> Some "caption external link".

(** The host of a netloc, in the words of the specification: what is left
    once the user information before the last [@] and the port after the
    [:] are removed (the [hostname] of [urlparse], brackets aside). *)
Fixpoint after_last_at (s : string) : string :=
  match s with
  | EmptyString => EmptyString
  | String c r => if has_char "@"%char r then after_last_at r
                  else if Ascii.eqb c "@"%char then r else s
  end.

Fixpoint before_colon (s : string) : string :=
  match s with
  | EmptyString => EmptyString
  | String c r => if Ascii.eqb c ":"%char then EmptyString else String c (before_colon r)
  end.

Definition spec_host (netloc : string) : string :=
  Py.lower (before_colon (after_last_at netloc)).

(** An environment that differs from [E] in the exception list only *)
Definition with_exceptions (E : env) (l : list string) : env :=
  mkEnv (fails E) (clock E) (chat_administrators E) (fetch_user_type E)
        (find_username_links E) (find_external_links E) l
        (urlparse_netloc E) (jsondate_dumps E).

(** The state in which the outer [try] of the handler starts: after the
    administrator query. *)
Definition after_admins (msg : Message) (s1 : state) : state :=
  set_trace (fun t => t ++ [GetChatAdministrators (chat_id (chat msg))]) s1.

(** The state after [save_event] has read the clock and logged its call. *)
Definition after_save_call (ev : event) (s2 : state) : state :=
  set_trace (fun t => t ++ [EventSave ev]) (set_ticks S s2).

(** The value a run returns, if it returns *)
Definition value_of {A : Type} (r : result A) : option A :=
  match r with
  | Ok a _ => Some a
  | Raise _ _ => None
  end.

(** The key of a document of the [config] collection *)
Definition item_key_pair (item : config_item) : Z * string :=
  (item_group_id item, item_key item).


(** The text of the json record, line 467, for the escaped dump *)
Definition json_record (msg : Message) (dump : string) : content :=
  Tuple1 (from_info msg +:+ Py.NL +:+ "<pre>" +:+ Py.html_escape dump +:+ "</pre>").

(** The text of the simple record, lines 472-475 *)
Definition simple_record (msg : Message) (reason t : string) : content :=
  Str (from_info msg +:+ Py.NL +:+ "Reason: " +:+ reason +:+ Py.NL
       +:+ "Content:" +:+ Py.NL +:+ "<pre>" +:+ Py.html_escape t +:+ "</pre>").

(** Writes to the [config] collection *)
Definition config_write (c : call) : bool :=
  match c with
  | ConfigUpsert _ _ _ => true
  | _ => false
  end.

(** The settings are as they were and no write to the collection was
    attempted. *)
Definition settings_untouched (s s' : state) : Prop :=
  group_config s' = group_config s /\
  db_config s' = db_config s /\
  trace_grows (fun c => negb (config_write c)) s s'.

(** ** Sample inputs

    A concrete environment, chat, users and messages on which the
    properties below are exercised.  [spamgroup] resolves to a group,
    every other name to an ordinary user; the clock advances one second
    per reading; no call fails unless [failing] says so. *)

Definition sample_env (failing : list call -> call -> bool) : env :=
  mkEnv failing
        (fun n => Z.of_nat n * 1000000)
        (fun _ => [100])
        (fun name => if String.eqb name "spamgroup" then Some "group" else Some "user")
        (fun _ => [])
        (fun _ => [])
        ["steemit.com"; "golos.io"; "whaleshares.io"]
        netloc_model
        (fun _ _ _ => Some "{}").

Definition never : list call -> call -> bool := fun _ _ => false.

Definition bob : User := mkUser 7 (Some "bob") (Some "Bob") None.
Definition admin : User := mkUser 100 (Some "root") (Some "Root") None.
Definition group : Chat := mkChat (-1001) "supergroup" None.

(** Oracles under which one kind of call always fails *)
Definition save_fails : list call -> call -> bool :=
  fun _ c => match c with EventSave _ => true | _ => false end.
Definition forward_fails : list call -> call -> bool :=
  fun _ c => match c with ForwardMessage _ _ _ => true | _ => false end.

(** A link to a site that is not excepted, under a url span *)
Definition evil_link_msg : Message :=
  mkMessage 42 group bob (Some "check out http://evil.example/x") None
            (Some [mkEntity "url" 10 21]) None None.

(** The same link, sent by the administrator *)
Definition admin_link_msg : Message :=
  mkMessage 45 group admin (Some "check out http://evil.example/x") None
            (Some [mkEntity "url" 10 21]) None None.

(** A forwarded message whose text mentions a group with a space after
    the [@], so that Telegram marks no mention span *)
Definition forwarded_mention_msg : Message :=
  mkMessage 43 group bob (Some "hey @ spamgroup now") None None (Some admin) None.

(** A mention of an ordinary user under a mention span *)
Definition user_mention_msg : Message :=
  mkMessage 44 group bob (Some "thanks @alice") None
            (Some [mkEntity "mention" 7 6]) None None.

(** The chat has switched [links] off. *)
Definition links_off_state : state :=
  set_group_config (fun c => <[(-1001, "links") := VBool false]> c) empty_state.

(** The chat logs to channel -2002, which asked for two formats. *)
Definition audit_state : state :=
  set_group_config
    (fun c => <[(-1001, "log_channel_id") := VInt (-2002)]>
                (<[(-2002, "logformat") := VList ["forward"; "simple"]]> c))
    empty_state.

(** Bob's last deletion in the chat was recorded at time 0; the clock
    now reads 3600 seconds. *)
Definition throttled_state : state :=
  mkState ∅ {[ (-1001, 7) := 0 ]} ∅ ∅ [] [] 3600.

(** Whether the trace holds a [send_message] to chat [cid] *)
Definition sent_to (cid : Z) (t : list call) : bool :=
  existsb (fun c => match c with SendMessage c' _ => c' =? cid | _ => false end) t.

(** Whether the trace holds a [delete_message] *)
Definition deleted (t : list call) : bool :=
  existsb (fun c => match c with DeleteMessage _ _ => true | _ => false end) t.

(** A link to an excepted site *)
Definition excepted_link_msg : Message :=
  mkMessage 46 group bob (Some "read https://golos.io/post") None
            (Some [mkEntity "url" 5 21]) None None.

(** A link to an excepted site, written with its port *)
Definition port_link_msg : Message :=
  mkMessage 41 group bob (Some "see http://steemit.com:80/faq") None
            (Some [mkEntity "url" 4 25]) None None.

(** An environment in which no name resolves *)
Definition unresolving_env : env :=
  mkEnv never (fun n => Z.of_nat n * 1000000) (fun _ => [100]) (fun _ => None)
        (fun _ => []) (fun _ => []) ["steemit.com"; "golos.io"; "whaleshares.io"]
        netloc_model (fun _ _ _ => Some "{}").

(** Oracles under which the public notice, or the administrator query,
    always fails *)
Definition notice_fails : list call -> call -> bool :=
  fun _ c => match c with SendMessage _ (Str _) => true | _ => false end.
Definition admins_fail : list call -> call -> bool :=
  fun _ c => match c with GetChatAdministrators _ => true | _ => false end.

(** [str] of a list of strings that need no escaping *)
Fixpoint quoted_items (l : list string) : string :=
  match l with
  | [] => EmptyString
  | [x] => "'" +:+ x +:+ "'"
  | x :: rest => "'" +:+ x +:+ "', " +:+ quoted_items rest
  end.
Definition sample_str_of_list (l : list string) : string := "[" +:+ quoted_items l +:+ "]".

(** A photo with a caption: no text, no entities *)
Definition photo_msg : Message :=
  mkMessage 47 group bob None (Some "join @spamgroup now") None None None.

(** A plain message *)
Definition clean_msg : Message :=
  mkMessage 48 group bob (Some "hello there") None None None None.

(** An email address under an email span *)
Definition email_msg : Message :=
  mkMessage 49 group bob (Some "mail me: bob@example.org") None
            (Some [mkEntity "email" 9 15]) None None.

(** A mention of an excepted name under a mention span *)
Definition excepted_mention_msg : Message :=
  mkMessage 50 group bob (Some "ask @preico") None
            (Some [mkEntity "mention" 4 7]) None None.

(** Commands sent in the group by the administrator and by Bob *)
Definition set_links_no_msg : Message :=
  mkMessage 60 group admin (Some "/graphene_set links=no") None None None None.
Definition get_links_msg : Message :=
  mkMessage 61 group admin (Some "/graphene_get links") None None None None.
Definition bob_set_msg : Message :=
  mkMessage 62 group bob (Some "/graphene_set links=no") None None None None.
Definition unsetlog_msg : Message :=
  mkMessage 63 group admin (Some "/unsetlog") None None None None.

(** A post in the log channel that carries no sender *)
Definition log_channel : Chat := mkChat (-2002) "channel" None.
Definition unsigned_post : ChannelPost :=
  mkPost 70 log_channel None (Some "/setlogformat json,forward").

(** The kicks of a list of user ids, in order *)
Fixpoint kick_each (kick : Z -> Z -> M unit) (cid : Z) (ids : list Z) : M unit :=
  match ids with
  | [] => ret tt
  | uid :: rest => kick cid uid >> kick_each kick cid rest
  end.

(** A [/setlog] forwarded from the log channel by the administrator *)
Definition setlog_msg : Message :=
  mkMessage 64 group admin (Some "/setlog") None None None (Some log_channel).

(** Bob adds two bots, one of them the moderation bot itself, and a person *)
Definition join_msg : JoinMessage :=
  mkJoin group bob
         [mkMember 501 (Some "spam_bot") true;
          mkMember 502 (Some "graphenebot") true;
          mkMember 503 (Some "carol") false].

(** A kick that succeeds and a [get_me] that answers with the
    administrator's id, both without touching the state *)
Definition sample_kick (cid uid : Z) : M unit := ret tt.
Definition sample_get_me : M Z := ret 100.

(** ** Properties *)

Lemma str_in_In (x : string) (l : list string) : Py.str_in x l = true <-> In x l.
Proof.
  unfold Py.str_in. rewrite existsb_exists. split.
  - intros [y [Hy He]]. apply String.eqb_eq in He. now subst.
  - intros H. exists x. split; [assumption | apply String.eqb_refl].
Qed.

Lemma str_in_not_In (x : string) (l : list string) : Py.str_in x l = false <-> ~ In x l.
Proof.
  rewrite <- str_in_In. destruct (Py.str_in x l); split; intros H; congruence.
Qed.

Lemma int_in_In (z : Z) (l : list Z) : Py.int_in z l = true <-> In z l.
Proof.
  unfold Py.int_in. rewrite existsb_exists. split.
  - intros [y [Hy He]]. apply Z.eqb_eq in He. now subst.
  - intros H. exists z. split; [assumption | apply Z.eqb_refl].
Qed.

Section Settings.

Variable E : env.

Lemma get_setting_valid (group_id : Z) (key : string) (default : value) (s : state) :
  In key GROUP_SETTING_KEYS ->
  get_setting group_id key default s =
    Ok (match group_config s !! (group_id, key) with Some v => v | None => default end) s.
Proof.
  intros Hk. apply str_in_In in Hk. unfold get_setting. rewrite Hk. simpl.
  destruct (group_config s !! (group_id, key)); reflexivity.
Qed.

(** C8. [set_setting] raises its key error ([AssertionError]) on every key
    outside [GROUP_SETTING_KEYS] and leaves the whole state as it was.  On
    a valid key, a failing upsert propagates, the cache is unchanged and a
    later [get_setting] answers as before; a successful upsert leaves the
    new value in the cache, which a later [get_setting] returns. *)
Theorem set_setting_atomic (group_id : Z) (key : string) (val : value) (s : state) :
  (~ In key GROUP_SETTING_KEYS ->
     set_setting E group_id key val s = Raise AssertionError s) /\
  (In key GROUP_SETTING_KEYS ->
   fails E (trace s) (ConfigUpsert group_id key val) = true ->
     exists s',
       set_setting E group_id key val s = Raise (CallFailed (ConfigUpsert group_id key val)) s' /\
       group_config s' = group_config s /\
       forall default v,
         get_setting group_id key default s = Ok v s ->
         get_setting group_id key default s' = Ok v s') /\
  (In key GROUP_SETTING_KEYS ->
   fails E (trace s) (ConfigUpsert group_id key val) = false ->
     exists s',
       set_setting E group_id key val s = Ok tt s' /\
       group_config s' = <[(group_id, key) := val]> (group_config s) /\
       forall default, get_setting group_id key default s' = Ok val s').
Proof.
  split; [| split].
  - intros Hk. apply str_in_not_In in Hk. unfold set_setting. rewrite Hk. reflexivity.
  - intros Hk Hf. pose proof Hk as Hb. apply str_in_In in Hb.
    unfold set_setting. rewrite Hb. cbn [negb]. unfold bind, perform. rewrite Hf. simpl.
    eexists. split; [reflexivity |]. split; [reflexivity |].
    intros default v. rewrite !get_setting_valid by assumption. simpl.
    intros H. inversion H. reflexivity.
  - intros Hk Hf. pose proof Hk as Hb. apply str_in_In in Hb.
    unfold set_setting. rewrite Hb. cbn [negb]. unfold bind, perform, modify. rewrite Hf. simpl.
    eexists. split; [reflexivity |]. split; [reflexivity |].
    intros default. rewrite get_setting_valid by assumption. simpl.
    rewrite lookup_insert_eq. reflexivity.
Qed.

End Settings.

Section Throttle.

Variable E : env.

(** C1 (amended). The throttle check is true when the pair has no
    recorded deletion; with a record [t] it is false as long as at most
    3600 seconds have passed since [t], the 3600th second included, and
    true once strictly more than 3600 seconds have passed. *)
Theorem should_notify_window (event_key : Z * Z) (s : state) :
  (delete_events s !! event_key = None ->
     should_notify E event_key s = Ok true s) /\
  (forall t, delete_events s !! event_key = Some t ->
     clock E (ticks s) - t <= HOUR ->
     should_notify E event_key s = Ok false (set_ticks S s)) /\
  (forall t, delete_events s !! event_key = Some t ->
     HOUR < clock E (ticks s) - t ->
     should_notify E event_key s = Ok true (set_ticks S s)).
Proof.
  unfold should_notify, bind, gets, utcnow, ret.
  split; [| split].
  - intros H. rewrite H. reflexivity.
  - intros t H Hle. rewrite H. f_equal. apply Z.ltb_ge. lia.
  - intros t H Hlt. rewrite H. f_equal. apply Z.ltb_lt. lia.
Qed.

End Throttle.

(** *** The monad's reasoning rules *)

Lemma trace_grows_refl (ok : call -> bool) (s : state) : trace_grows ok s s.
Proof. exists []. split; [symmetry; apply app_nil_r | constructor]. Qed.

Lemma trace_grows_trans (ok : call -> bool) (s1 s2 s3 : state) :
  trace_grows ok s1 s2 -> trace_grows ok s2 s3 -> trace_grows ok s1 s3.
Proof.
  intros [t1 [H1 F1]] [t2 [H2 F2]]. exists (t1 ++ t2). split.
  - rewrite H2, H1. symmetry. apply app_assoc.
  - apply Forall_app; split; assumption.
Qed.

Lemma trace_grows_one (ok : call -> bool) (s s' : state) (c : call) :
  trace s' = trace s ++ [c] -> ok c = true -> trace_grows ok s s'.
Proof. intros H Hc. exists [c]. split; [assumption | repeat constructor; assumption]. Qed.

Lemma trace_grows_same (ok : call -> bool) (s s' : state) :
  trace s' = trace s -> trace_grows ok s s'.
Proof. intros H. exists []. split; [rewrite H; symmetry; apply app_nil_r | constructor]. Qed.

#[local] Instance resolver_frame_preorder : PreOrder resolver_frame.
Proof.
  split.
  - intros s. repeat split. apply trace_grows_refl.
  - intros s1 s2 s3 (A1 & B1 & C1 & D1 & T1) (A2 & B2 & C2 & D2 & T2).
    repeat split; try congruence. eapply trace_grows_trans; eassumption.
Qed.

#[local] Instance audit_frame_preorder : PreOrder audit_frame.
Proof.
  split.
  - intros s. repeat split. apply trace_grows_refl.
  - intros s1 s2 s3 (A1 & B1 & C1 & D1 & T1) (A2 & B2 & C2 & D2 & T2).
    repeat split; try congruence. eapply trace_grows_trans; eassumption.
Qed.

Section Rules.

Context {A B : Type} (R : state -> state -> Prop) `{!PreOrder R}.

Lemma keeps_ret (a : A) : keeps R (ret a).
Proof. intros s. simpl. reflexivity. Qed.

Lemma keeps_raise (e : exn) : keeps R (raise (A := A) e).
Proof. intros s. simpl. reflexivity. Qed.

Lemma keeps_bind (m : M A) (k : A -> M B) :
  keeps R m -> (forall a, keeps R (k a)) -> keeps R (bind m k).
Proof.
  intros Hm Hk s. unfold bind. specialize (Hm s).
  destruct (m s) as [a s' | e s']; simpl in *.
  - etransitivity; [exact Hm | apply Hk].
  - exact Hm.
Qed.

Lemma keeps_try_except (m : M A) (h : exn -> M A) :
  keeps R m -> (forall e, keeps R (h e)) -> keeps R (try_except m h).
Proof.
  intros Hm Hh s. unfold try_except. specialize (Hm s).
  destruct (m s) as [a s' | e s']; simpl in *.
  - exact Hm.
  - etransitivity; [exact Hm | apply Hh].
Qed.

Lemma keeps_try_finally (m : M A) (f : M unit) :
  keeps R m -> keeps R f -> keeps R (try_finally m f).
Proof.
  intros Hm Hf s. unfold try_finally. specialize (Hm s).
  destruct (m s) as [a s' | e s']; simpl in *;
    specialize (Hf s'); destruct (f s') as [u s'' | e' s'']; simpl in *;
    etransitivity; eassumption.
Qed.

End Rules.

Section HoareRules.

Context {A B : Type}.

Lemma hoare_ret (P : state -> Prop) (Q : A -> state -> Prop) (a : A) :
  (forall s, P s -> Q a s) -> hoare P (ret a) Q.
Proof. intros H s HP. simpl. auto. Qed.

Lemma hoare_raise (P : state -> Prop) (Q : A -> state -> Prop) (e : exn) :
  hoare P (raise e) Q.
Proof. intros s HP. exact I. Qed.

Lemma hoare_bind (P : state -> Prop) (Q' : A -> state -> Prop) (Q : B -> state -> Prop)
    (m : M A) (k : A -> M B) :
  hoare P m Q' -> (forall a, hoare (Q' a) (k a) Q) -> hoare P (bind m k) Q.
Proof.
  intros Hm Hk s HP. unfold bind. specialize (Hm s HP).
  destruct (m s) as [a s' | e s']; [apply Hk; exact Hm | exact I].
Qed.

Lemma hoare_weaken (P : state -> Prop) (Q Q' : A -> state -> Prop) (m : M A) :
  hoare P m Q' -> (forall a s, Q' a s -> Q a s) -> hoare P m Q.
Proof.
  intros Hm HQ s HP. specialize (Hm s HP).
  destruct (m s); [apply HQ; exact Hm | exact I].
Qed.

Lemma hoare_of_keeps (R : state -> state -> Prop) (P : state -> Prop) (m : M A) :
  keeps R m -> (forall s s', P s -> R s s' -> P s') -> hoare P m (fun _ s' => P s').
Proof.
  intros Hm HP s Hs. specialize (Hm s).
  destruct (m s) as [a s' | e s']; simpl in *; [eapply HP; eassumption | exact I].
Qed.

End HoareRules.

(** *** What each operation may change *)

Ltac grows :=
  unfold trace_grows; simpl;
  eexists; split; [rewrite <- ?app_assoc; try reflexivity; symmetry; apply app_nil_r
                  | repeat constructor].

Ltac frame := repeat split; simpl; try reflexivity; try grows.

Section Frames.

Variable E : env.

Lemma get_setting_final (group_id : Z) (key : string) (default : value) (s : state) :
  final (get_setting group_id key default s) = s.
Proof.
  unfold get_setting. destruct (negb _); [reflexivity |].
  destruct (group_config s !! (group_id, key)); reflexivity.
Qed.

Lemma setting_and_final (cond : bool) (cid : Z) (key : string) (s : state) :
  final (setting_and cond cid key s) = s.
Proof.
  unfold setting_and, bind. destruct cond; [| reflexivity].
  pose proof (get_setting_final cid key (VBool true) s) as H.
  destruct (get_setting cid key (VBool true) s); simpl in *; exact H.
Qed.

Lemma setting_and_valid (cond : bool) (cid : Z) (key : string) (s : state) :
  In key GROUP_SETTING_KEYS ->
  setting_and cond cid key s =
    Ok (cond && truthy (match group_config s !! (cid, key) with
                        | Some v => v
                        | None => VBool true
                        end)) s.
Proof.
  intros Hk. unfold setting_and, bind. destruct cond; [| reflexivity].
  rewrite get_setting_valid by assumption. reflexivity.
Qed.

Lemma keeps_of_final {A : Type} (R : state -> state -> Prop) `{!PreOrder R} (m : M A) :
  (forall s, final (m s) = s) -> keeps R m.
Proof. intros H s. rewrite H. reflexivity. Qed.

Lemma keeps_get_setting (R : state -> state -> Prop) `{!PreOrder R}
    (group_id : Z) (key : string) (default : value) :
  keeps R (get_setting group_id key default).
Proof. apply keeps_of_final; [assumption |]. intros s. apply get_setting_final. Qed.

Lemma keeps_setting_and (R : state -> state -> Prop) `{!PreOrder R}
    (cond : bool) (cid : Z) (key : string) :
  keeps R (setting_and cond cid key).
Proof. apply keeps_of_final; [assumption |]. intros s. apply setting_and_final. Qed.

Lemma keeps_text_of (R : state -> state -> Prop) `{!PreOrder R} (msg : Message) :
  keeps R (text_of msg).
Proof.
  apply keeps_of_final; [assumption |]. intros s. unfold text_of.
  destruct (text msg); reflexivity.
Qed.

Lemma keeps_process_user_type (name : string) :
  keeps resolver_frame (process_user_type E name).
Proof.
  intros s. unfold process_user_type, bind, perform, gets, utcnow, modify, ret.
  destruct (fails E (trace s) (UserFind (Py.lower name))); simpl; [frame |].
  destruct (db_user s !! Py.lower name); simpl; [frame |].
  destruct (fails E _ (FetchUserType (Py.lower name))); simpl; [frame |].
  destruct (fetch_user_type E (Py.lower name)) as [[| c r] |]; simpl; [frame | | frame].
  destruct (fails E _ (UserUpsert _ _ _)); simpl; frame.
Qed.

End Frames.

Ltac keeps_step :=
  lazymatch goal with
  | |- keeps _ (bind _ _) => apply keeps_bind; [typeclasses eauto | | intros ?]
  | |- keeps _ (ret _) => apply keeps_ret; typeclasses eauto
  | |- keeps _ (raise _) => apply keeps_raise; typeclasses eauto
  | |- keeps _ (setting_and _ _ _) => apply keeps_setting_and; typeclasses eauto
  | |- keeps _ (get_setting _ _ _) => apply keeps_get_setting; typeclasses eauto
  | |- keeps _ (text_of _) => apply keeps_text_of; typeclasses eauto
  | |- keeps _ (if ?b then _ else _) => destruct b
  | |- keeps _ (match ?x with _ => _ end) => destruct x
  end.

Section ClassifierFrame.

Variable E : env.

Ltac step := first [apply keeps_process_user_type | keeps_step].

Lemma keeps_entity_body (msg : Message) (ent : MessageEntity) :
  keeps resolver_frame (entity_body E msg ent).
Proof. unfold entity_body. cbv zeta. repeat step. Qed.

Lemma keeps_entity_loop (msg : Message) (ents : list MessageEntity) :
  keeps resolver_frame (entity_loop E msg ents).
Proof.
  induction ents as [| ent rest IH]; simpl.
  - step.
  - step; [apply keeps_entity_body |]. destruct a; [exact IH | step].
Qed.

Lemma keeps_free_text_mention (msg : Message) (v : verdict) :
  keeps resolver_frame (free_text_mention E msg v).
Proof. unfold free_text_mention. cbv zeta. repeat step. Qed.

Lemma keeps_forward_check (msg : Message) (v : verdict) :
  keeps resolver_frame (forward_check msg v).
Proof. unfold forward_check. repeat step. Qed.

Lemma keeps_free_text_block (msg : Message) (v : verdict) :
  keeps resolver_frame (free_text_block E msg v).
Proof.
  unfold free_text_block. step; [step |].
  step; [apply keeps_free_text_mention | apply keeps_forward_check].
Qed.

Lemma keeps_caption_loop (msg : Message) (usernames : list string) (v : verdict) :
  keeps resolver_frame (caption_loop E msg usernames v).
Proof.
  induction usernames as [| name rest IH]; simpl.
  - step.
  - step; [step |]. step; [step |]. step; [step |]. step; [step |].
    step; [step | exact IH].
Qed.

Lemma keeps_caption_mention_block (msg : Message) (v : verdict) :
  keeps resolver_frame (caption_mention_block E msg v).
Proof. unfold caption_mention_block. step; [step | apply keeps_caption_loop]. Qed.

Lemma keeps_caption_link_block (msg : Message) (v : verdict) :
  keeps resolver_frame (caption_link_block E msg v).
Proof. unfold caption_link_block. cbv zeta. repeat step. Qed.

Lemma keeps_classify (msg : Message) : keeps resolver_frame (classify E msg).
Proof.
  unfold classify.
  step; [apply keeps_entity_loop |].
  step; [apply keeps_free_text_block |].
  step; [apply keeps_caption_mention_block | apply keeps_caption_link_block].
Qed.

End ClassifierFrame.

(** *** The [links] setting *)

Section LinksOff.

Variable E : env.
Variable msg : Message.

Let cid : Z := chat_id (chat msg).

Lemma links_off_frame (s s' : state) :
  links_off cid s -> resolver_frame s s' -> links_off cid s'.
Proof. intros [v [Hv Ht]] (Hg & _). exists v. rewrite Hg. split; assumption. Qed.

Lemma setting_and_links_off (cond : bool) (s : state) :
  links_off cid s -> setting_and cond cid "links" s = Ok false s.
Proof.
  intros [v [Hv Ht]]. rewrite setting_and_valid by (simpl; tauto).
  rewrite Hv, Ht. rewrite andb_false_r. reflexivity.
Qed.

Lemma hoare_links_off_keeps {A : Type} (m : M A) (Q : A -> Prop) :
  keeps resolver_frame m ->
  (forall s a s', links_off cid s -> m s = Ok a s' -> Q a) ->
  hoare (links_off cid) m (fun a s' => Q a /\ links_off cid s').
Proof.
  intros Hk HQ s Hs. specialize (Hk s). specialize (HQ s).
  destruct (m s) as [a s' | e s']; simpl in *; [| exact I].
  split; [eapply HQ; eauto | eapply links_off_frame; eassumption].
Qed.

Lemma entity_body_links_off (ent : MessageEntity) :
  hoare (links_off cid) (entity_body E msg ent)
        (fun f s' => match f with
                     | Next => True
                     | Break reason => no_link_reason (flagged reason)
                     end /\ links_off cid s').
Proof.
  assert (Hret : forall (f f' : flow) (s s' : state),
             match f with Next => True | Break r => no_link_reason (flagged r) end ->
             ret f s = Ok f' s' ->
             match f' with Next => True | Break r => no_link_reason (flagged r) end).
  { intros f f' s s' Hf H. inversion H. subst. exact Hf. }
  assert (Hgood : forall r, r <> "external link" -> r <> "caption external link" ->
                            no_link_reason (flagged r)).
  { intros r H1 H2. split; simpl; congruence. }
  apply hoare_links_off_keeps; [apply keeps_entity_body |].
  intros s f s' Hs. unfold entity_body. cbv zeta. fold cid.
  unfold bind at 1. rewrite setting_and_links_off by assumption.
  unfold bind at 1. rewrite setting_and_valid by (simpl; tauto).
  destruct (_ && _); [apply Hret, Hgood; discriminate |].
  destruct (String.eqb (ent_type ent) "mention"); [| apply Hret; exact I].
  unfold bind at 1. unfold text_of. destruct (text msg) as [t |]; [| discriminate].
  unfold ret at 1.
  destruct (Py.str_in _ USERNAME_EXCEPTIONS); [apply Hret; exact I |].
  unfold bind at 1. destruct (process_user_type E _ s) as [ut s1 | e s1]; [| discriminate].
  unfold bind at 1. rewrite setting_and_valid by (simpl; tauto).
  destruct (_ && _); [apply Hret, Hgood; discriminate |].
  unfold bind at 1. rewrite setting_and_valid by (simpl; tauto).
  destruct (_ && _); [apply Hret, Hgood; discriminate | apply Hret; exact I].
Qed.

Lemma entity_loop_links_off (ents : list MessageEntity) :
  hoare (links_off cid) (entity_loop E msg ents)
        (fun v s' => no_link_reason v /\ links_off cid s').
Proof.
  induction ents as [| ent rest IH]; simpl.
  - apply hoare_ret. intros s Hs. split; [split; discriminate | assumption].
  - eapply hoare_bind; [apply entity_body_links_off |].
    intros [| reason]; simpl.
    + intros s [_ Hs]. apply IH. exact Hs.
    + intros s [Hr Hs]. simpl. split; assumption.
Qed.

End LinksOff.

Ltac ret_inv :=
  let H := fresh "H" in
  unfold ret; intros H; inversion H; subst; clear H.

Ltac key_ok := simpl; tauto.

Section Reasons.

Variable E : env.
Variable msg : Message.

Lemma no_link_reason_flagged (reason : string) :
  reason <> "external link" -> reason <> "caption external link" ->
  no_link_reason (flagged reason).
Proof. intros H1 H2. split; simpl; congruence. Qed.

Lemma free_text_mention_reason (v v' : verdict) (s s' : state) :
  no_link_reason v -> free_text_mention E msg v s = Ok v' s' -> no_link_reason v'.
Proof.
  intros Hv. unfold free_text_mention. cbv zeta.
  unfold bind at 1, text_of. destruct (text msg) as [t |]; [| discriminate].
  unfold ret at 1.
  destruct (re_search_mention t) as [name |]; [| ret_inv; assumption].
  destruct (negb _); [| ret_inv; assumption].
  unfold bind at 1. destruct (process_user_type E name s) as [ut s1 | e s1]; [| discriminate].
  unfold bind at 1. rewrite setting_and_valid by key_ok.
  unfold bind at 1. rewrite setting_and_valid by key_ok.
  destruct (type_is ut "group" && _); destruct (type_is ut "channel" && _); ret_inv;
    solve [assumption | apply no_link_reason_flagged; discriminate].
Qed.

Lemma forward_check_reason (v v' : verdict) (s s' : state) :
  no_link_reason v -> forward_check msg v s = Ok v' s' -> no_link_reason v'.
Proof.
  intros Hv. unfold forward_check.
  unfold bind at 1. rewrite setting_and_valid by key_ok.
  destruct (_ && _); ret_inv;
    solve [assumption | apply no_link_reason_flagged; discriminate].
Qed.

Lemma free_text_block_reason (v v' : verdict) (s s' : state) :
  no_link_reason v -> free_text_block E msg v s = Ok v' s' -> no_link_reason v'.
Proof.
  intros Hv. unfold free_text_block. destruct (fst v); [ret_inv; assumption |].
  unfold bind. destruct (free_text_mention E msg v s) as [v1 s1 | e s1] eqn:H1;
    [| discriminate].
  apply forward_check_reason. eapply free_text_mention_reason; eassumption.
Qed.

Lemma caption_loop_reason (usernames : list string) (v v' : verdict) (s s' : state) :
  no_link_reason v -> caption_loop E msg usernames v s = Ok v' s' -> no_link_reason v'.
Proof.
  intros Hv. revert s. induction usernames as [| name rest IH]; intros s; simpl.
  - ret_inv. assumption.
  - unfold bind at 1.
    destruct (process_user_type E _ s) as [ut s1 | e s1]; [| discriminate].
    unfold bind at 1. rewrite setting_and_valid by key_ok.
    destruct (_ && _); [ret_inv; apply no_link_reason_flagged; discriminate |].
    unfold bind at 1. rewrite setting_and_valid by key_ok.
    destruct (_ && _); [ret_inv; apply no_link_reason_flagged; discriminate |].
    apply IH.
Qed.

Lemma caption_mention_block_reason (v v' : verdict) (s s' : state) :
  no_link_reason v -> caption_mention_block E msg v s = Ok v' s' -> no_link_reason v'.
Proof.
  intros Hv. unfold caption_mention_block. destruct (fst v); [ret_inv; assumption |].
  apply caption_loop_reason. assumption.
Qed.

Lemma caption_link_block_reason (v v' : verdict) (s s' : state) :
  links_off (chat_id (chat msg)) s -> no_link_reason v ->
  caption_link_block E msg v s = Ok v' s' -> no_link_reason v'.
Proof.
  intros Hs Hv. unfold caption_link_block. destruct (fst v); [ret_inv; assumption |].
  cbv zeta. unfold bind. rewrite setting_and_links_off by assumption.
  ret_inv. assumption.
Qed.

(** C5. In a chat whose [links] setting is stored and false, whatever the
    message carries, the classifier's reason is neither "external link"
    nor "caption external link". *)
Theorem links_false_never_link_reason
    (s s' : state) (setting : value) (to_delete : bool) (reason : option string) :
  group_config s !! (chat_id (chat msg), "links") = Some setting ->
  truthy setting = false ->
  classify E msg s = Ok (to_delete, reason) s' ->
  reason <> Some "external link" /\ reason <> Some "caption external link".
Proof.
  intros Hl Ht Hc.
  assert (Hs : links_off (chat_id (chat msg)) s) by (exists setting; split; assumption).
  change (no_link_reason (to_delete, reason)).
  revert Hc. unfold classify. unfold bind at 1.
  pose proof (entity_loop_links_off E msg (match entities msg with Some l => l | None => [] end) s Hs)
    as H1.
  destruct (entity_loop E msg _ s) as [v1 s1 | e s1]; [| discriminate].
  destruct H1 as [Hv1 Hs1].
  unfold bind at 1.
  pose proof (keeps_free_text_block E msg v1 s1) as K2.
  destruct (free_text_block E msg v1 s1) as [v2 s2 | e s2] eqn:H2; [| discriminate].
  simpl in K2.
  unfold bind at 1.
  pose proof (keeps_caption_mention_block E msg v2 s2) as K3.
  destruct (caption_mention_block E msg v2 s2) as [v3 s3 | e s3] eqn:H3; [| discriminate].
  simpl in K3.
  apply caption_link_block_reason.
  - eapply links_off_frame; [| exact K3]. eapply links_off_frame; [| exact K2]. exact Hs1.
  - eapply caption_mention_block_reason; [| exact H3].
    eapply free_text_block_reason; [| exact H2]. exact Hv1.
Qed.

End Reasons.

(** *** Mentions of ordinary users *)

Section UserMentions.

Variable E : env.
Variable msg : Message.

(** C7. Whatever the settings, a mention that the resolver answers with
    ["user"] flags nothing on any of the three paths: the entity loop goes
    on to the next entity, the free-text rule leaves the verdict as it
    was, and the caption loop goes on to the next name. *)
Theorem user_mention_never_flags (name : string) (s s' : state) :
  process_user_type E name s = Ok (Some "user") s' ->
  (forall ent rest t,
     ent_type ent = "mention" ->
     text msg = Some t ->
     Py.lstrip "@" (Py.slice t (ent_offset ent) (ent_offset ent + ent_length ent)) = name ->
     ~ In (Py.lower name) USERNAME_EXCEPTIONS ->
     entity_loop E msg (ent :: rest) s = entity_loop E msg rest s') /\
  (forall t v,
     text msg = Some t ->
     re_search_mention t = Some name ->
     ~ In (Py.lower name) USERNAME_EXCEPTIONS ->
     free_text_mention E msg v s = Ok v s') /\
  (forall raw rest v,
     Py.lstrip "@" raw = name ->
     caption_loop E msg (raw :: rest) v s = caption_loop E msg rest v s').
Proof.
  intros Hp. split; [| split].
  - intros ent rest t Hty Ht Hn Hex. apply str_in_not_In in Hex.
    simpl. unfold bind at 1. unfold entity_body. cbv zeta. rewrite Hty.
    change (Py.str_in "mention" ["url"; "text_link"]) with false.
    change (Py.str_in "mention" ["email"]) with false.
    change ("mention" =? "mention")%string with true.
    unfold setting_and at 1 2. unfold bind at 1. unfold ret at 1.
    unfold bind at 1. unfold ret at 1. cbv iota.
    unfold bind at 1. unfold text_of. rewrite Ht. unfold ret at 1.
    rewrite Hn, Hex. unfold bind at 1. rewrite Hp.
    change (type_is (Some "user") "group") with false.
    change (type_is (Some "user") "channel") with false.
    reflexivity.
  - intros t v Ht Hm Hex. apply str_in_not_In in Hex.
    unfold free_text_mention. cbv zeta.
    unfold bind at 1. unfold text_of. rewrite Ht. unfold ret at 1.
    rewrite Hm, Hex. cbn [negb]. unfold bind at 1. rewrite Hp.
    change (type_is (Some "user") "group") with false.
    change (type_is (Some "user") "channel") with false.
    reflexivity.
  - intros raw rest v Hn. simpl. rewrite Hn. unfold bind at 1. rewrite Hp.
    change (type_is (Some "user") "group") with false.
    change (type_is (Some "user") "channel") with false.
    reflexivity.
Qed.

End UserMentions.

(** *** The link exception list *)

Section LinkExceptions.

Variable E : env.
Variable msg : Message.

(** C6 (amended). For every value of the [links] setting, a url or
    text_link entity whose span text has a netloc that, lowercased, is
    literally an entry of the exception list flags nothing: the entity
    loop goes on to the next entity in the same state. *)
Theorem excepted_link_entity_skipped
    (ent : MessageEntity) (rest : list MessageEntity) (t netloc : string) (s : state) :
  In (ent_type ent) ["url"; "text_link"] ->
  text msg = Some t ->
  urlparse_netloc E (entity_url t ent) = Some netloc ->
  In (Py.lower netloc) (LINKS_EXCEPTIONS E) ->
  entity_loop E msg (ent :: rest) s = entity_loop E msg rest s.
Proof.
  intros Hty Ht Hn Hex. apply str_in_In in Hex.
  assert (Hem : Py.str_in (ent_type ent) ["email"] = false
                /\ String.eqb (ent_type ent) "mention" = false).
  { destruct Hty as [<- | [<- | []]]; split; reflexivity. }
  destruct Hem as [Hem Hme].
  apply str_in_In in Hty.
  simpl. unfold bind at 1. unfold entity_body. cbv zeta.
  rewrite Hty, Hem, Hme.
  unfold bind at 1. rewrite setting_and_valid by key_ok. rewrite andb_true_l.
  destruct (truthy _).
  - unfold bind at 1. unfold text_of. rewrite Ht. unfold ret at 1.
    rewrite Hn, Hex. reflexivity.
  - reflexivity.
Qed.

(** The caption rule never reads the exception list. *)
Remark caption_link_block_ignores_exceptions (l : list string) (v : verdict) (s : state) :
  caption_link_block (with_exceptions E l) msg v s = caption_link_block E msg v s.
Proof. reflexivity. Qed.

End LinkExceptions.

(** *** Notice and audit dispatch: what they may change *)

Section AuditFrame.

Variable E : env.

Lemma perform_final (c : call) (s : state) :
  final (perform E c s) = set_trace (fun t => t ++ [c]) s.
Proof. unfold perform. destruct (fails E (trace s) c); reflexivity. Qed.

Lemma try_finally_final {A : Type} (m : M A) (f : M unit) (s : state) :
  final (try_finally m f s) = final (f (final (m s))).
Proof.
  unfold try_finally. destruct (m s) as [a s1 | e s1]; simpl;
    destruct (f s1) as [u s2 | e' s2]; reflexivity.
Qed.

Lemma keeps_perform_audit (c : call) :
  audit_call c = true -> keeps audit_frame (perform E c).
Proof.
  intros Hc s. rewrite perform_final. repeat split.
  eapply trace_grows_one; [reflexivity | exact Hc].
Qed.

Lemma keeps_utcnow_audit : keeps audit_frame (utcnow E).
Proof. intros s. unfold utcnow. frame. Qed.

Lemma keeps_logging_error (chid : Z) : keeps audit_frame (logging_error chid).
Proof. intros s. unfold logging_error, modify. frame. Qed.

Ltac step :=
  first [ keeps_step
        | apply keeps_utcnow_audit
        | apply keeps_logging_error
        | apply keeps_perform_audit; reflexivity ].

Lemma keeps_should_notify (event_key : Z * Z) : keeps audit_frame (should_notify E event_key).
Proof.
  unfold should_notify. step; [| repeat step].
  apply keeps_of_final; [typeclasses eauto | reflexivity].
Qed.

Lemma keeps_record_notified (event_key : Z * Z) :
  keeps audit_frame (record_notified E event_key).
Proof.
  unfold record_notified. step; [step |].
  intros s. unfold modify. frame.
Qed.

Lemma keeps_notify (msg : Message) : keeps audit_frame (notify E msg).
Proof.
  unfold notify. cbv zeta. step; [step |].
  step; [| apply keeps_record_notified].
  step; [| step]. step; [apply keeps_should_notify |]. repeat step.
Qed.

Lemma keeps_contains (x : string) (formats : value) : keeps audit_frame (contains x formats).
Proof. unfold contains. repeat step. Qed.

Lemma keeps_send_formats (msg : Message) (reason : string) (chid : Z) (formats : value) :
  keeps audit_frame (send_formats E msg reason chid formats).
Proof.
  unfold send_formats. cbv zeta.
  repeat first [apply keeps_contains | step].
Qed.

Lemma keeps_dispatch_channel (msg : Message) (reason : string) (chid : Z) :
  keeps audit_frame (dispatch_channel E msg reason chid).
Proof.
  unfold dispatch_channel. step; [step |].
  apply keeps_try_except; [typeclasses eauto | apply keeps_send_formats |].
  intros e. step.
Qed.

Lemma keeps_dispatch (msg : Message) (reason : string) (ids : list Z) :
  keeps audit_frame (dispatch E msg reason ids).
Proof.
  induction ids as [| chid rest IH]; simpl.
  - step.
  - step; [apply keeps_dispatch_channel | exact IH].
Qed.

Lemma keeps_log_channel_ids (msg : Message) : keeps audit_frame (log_channel_ids msg).
Proof. unfold log_channel_ids. repeat step. Qed.

End AuditFrame.

(** *** The handler *)

Section Handler.

Variable E : env.
Variable msg : Message.

Let cid : Z := chat_id (chat msg).
Let uid : Z := user_id (from_user msg).

Lemma int_in_not_In (z : Z) (l : list Z) : Py.int_in z l = false <-> ~ In z l.
Proof.
  rewrite <- int_in_In. destruct (Py.int_in z l); split; intros H; congruence.
Qed.

(** What follows the event write inside the outer [try] *)
Lemma keeps_after_save (reason : string) :
  keeps audit_frame
    (notify E msg >> (let! ids := log_channel_ids msg in dispatch E msg reason ids)).
Proof.
  apply keeps_bind; [typeclasses eauto | apply keeps_notify |]. intros _.
  apply keeps_bind; [typeclasses eauto | apply keeps_log_channel_ids |]. intros ids.
  apply keeps_dispatch.
Qed.

(** C9. When the classifier flags a message whose sender is an
    administrator of the chat, the handler does nothing after the
    administrator query: it returns, the throttle map and the event
    collection are as before the message, and the only calls made are those
    of the resolver during classification and the administrator query
    itself (no delete, no event write, no send, no forward). *)
Theorem admin_exempt (s s1 : state) (reason : option string) :
  classify E msg s = Ok (true, reason) s1 ->
  In uid (chat_administrators E cid) ->
  let s' := final (handle_any_msg E msg s) in
  (fails E (trace s1) (GetChatAdministrators cid) = false ->
     handle_any_msg E msg s = Ok tt s') /\
  delete_events s' = delete_events s /\
  db_event s' = db_event s /\
  exists t, trace s' = trace s ++ t ++ [GetChatAdministrators cid]
            /\ Forall (fun c => resolver_call c = true) t.
Proof.
  intros Hc Hin. apply int_in_In in Hin.
  pose proof (keeps_classify E msg s) as K. rewrite Hc in K. simpl in K.
  destruct K as (_ & Hde & _ & Hev & t & Ht & Hall).
  assert (Hrun : handle_any_msg E msg s = perform E (GetChatAdministrators cid) s1).
  { unfold handle_any_msg. cbv zeta. fold cid uid.
    unfold bind at 1. rewrite Hc. cbn [fst].
    unfold bind at 1. unfold bind at 1. unfold perform.
    destruct (fails E (trace s1) (GetChatAdministrators cid)); [reflexivity |].
    unfold ret at 1. rewrite Hin. reflexivity. }
  rewrite Hrun. rewrite perform_final. cbv zeta. simpl.
  split; [| split; [| split]].
  - intros Hf. unfold perform. rewrite Hf. reflexivity.
  - exact Hde.
  - exact Hev.
  - exists t. split; [| exact Hall]. rewrite Ht. symmetry. apply app_assoc.
Qed.

Lemma handle_flagged (s s1 : state) (reason : string) :
  classify E msg s = Ok (true, Some reason) s1 ->
  fails E (trace s1) (GetChatAdministrators cid) = false ->
  ~ In uid (chat_administrators E cid) ->
  handle_any_msg E msg s =
    try_finally (moderate E msg reason) (perform E (DeleteMessage cid (message_id msg)))
                (after_admins msg s1).
Proof.
  intros Hc Hf Hin. apply int_in_not_In in Hin.
  unfold handle_any_msg. cbv zeta. fold cid uid.
  unfold bind at 1. rewrite Hc. cbn [fst snd].
  unfold bind at 1. unfold bind at 1. unfold perform at 1. rewrite Hf.
  unfold ret at 1. rewrite Hin. reflexivity.
Qed.

Lemma handle_flagged_final (s s1 : state) (reason : string) :
  classify E msg s = Ok (true, Some reason) s1 ->
  fails E (trace s1) (GetChatAdministrators cid) = false ->
  ~ In uid (chat_administrators E cid) ->
  final (handle_any_msg E msg s) =
    set_trace (fun t => t ++ [DeleteMessage cid (message_id msg)])
              (final (moderate E msg reason (after_admins msg s1))).
Proof.
  intros Hc Hf Hin. rewrite (handle_flagged s s1 reason) by assumption.
  rewrite try_finally_final, perform_final. reflexivity.
Qed.

Lemma moderate_save_fails (reason : string) (s2 : state) :
  let ev := mkEvent msg (clock E (ticks s2)) "delete_msg" reason in
  fails E (trace s2) (EventSave ev) = true ->
  moderate E msg reason s2 = Raise (CallFailed (EventSave ev)) (after_save_call ev s2).
Proof.
  cbv zeta. intros Hf. unfold moderate. unfold bind at 1. unfold save_event.
  unfold bind at 1. unfold utcnow at 1. unfold bind at 1. unfold perform at 1.
  cbn [trace ticks set_trace set_ticks]. rewrite Hf. reflexivity.
Qed.

Lemma moderate_save_ok (reason : string) (s2 : state) :
  let ev := mkEvent msg (clock E (ticks s2)) "delete_msg" reason in
  fails E (trace s2) (EventSave ev) = false ->
  moderate E msg reason s2 =
    (notify E msg >> (let! ids := log_channel_ids msg in dispatch E msg reason ids))
      (set_db_event (fun l => l ++ [ev]) (after_save_call ev s2)).
Proof.
  cbv zeta. intros Hf. unfold moderate. unfold bind at 1. unfold save_event.
  unfold bind at 1. unfold utcnow at 1. unfold bind at 1. unfold perform at 1.
  cbn [trace ticks set_trace set_ticks]. rewrite Hf. reflexivity.
Qed.

(** C3 (amended). For a flagged message from a non-administrator the
    event write is attempted first and the delete is issued last, whether
    or not the write succeeded: when it succeeds the event is in the
    collection and only sends, forwards and log lines come between the two;
    when it fails the collection is unchanged and the delete follows at
    once. *)
Theorem event_write_then_delete (s s1 : state) (reason : string) :
  classify E msg s = Ok (true, Some reason) s1 ->
  fails E (trace s1) (GetChatAdministrators cid) = false ->
  ~ In uid (chat_administrators E cid) ->
  let s' := final (handle_any_msg E msg s) in
  let ev := mkEvent msg (clock E (ticks s1)) "delete_msg" reason in
  let before := trace s1 ++ [GetChatAdministrators cid] in
  exists mid,
    trace s' = before ++ [EventSave ev] ++ mid ++ [DeleteMessage cid (message_id msg)] /\
    Forall (fun c => audit_call c = true) mid /\
    (fails E before (EventSave ev) = false -> db_event s' = db_event s1 ++ [ev]) /\
    (fails E before (EventSave ev) = true -> db_event s' = db_event s1 /\ mid = []).
Proof.
  intros Hc Hf Hin. cbv zeta.
  rewrite (handle_flagged_final s s1 reason) by assumption.
  destruct (fails E (trace s1 ++ [GetChatAdministrators cid]) (EventSave _)) eqn:Hs.
  - rewrite moderate_save_fails by exact Hs.
    exists []. simpl. rewrite <- !app_assoc. simpl.
    split; [reflexivity |]. split; [constructor |].
    split; [intros H; discriminate H | intros _; split; reflexivity].
  - rewrite moderate_save_ok by exact Hs.
    match goal with
    | |- context [final (?m ?st)] => pose proof (keeps_after_save reason st) as K
    end.
    destruct K as (_ & _ & _ & Hev & mid & Ht & Hall).
    exists mid. simpl in *. rewrite Ht, Hev. rewrite <- !app_assoc. simpl.
    split; [reflexivity |]. split; [exact Hall |].
    split; [intros _; reflexivity | intros H; discriminate H].
Qed.

Lemma bind_run_eq {A B : Type} (m m' : M A) (k : A -> M B) (s s' : state) :
  m s = m' s' -> bind m k s = bind m' k s'.
Proof. intros H. unfold bind. rewrite H. reflexivity. Qed.

Lemma bind_assoc_run {A B C : Type} (m : M A) (f : A -> M B) (g : B -> M C) (s : state) :
  bind (bind m f) g s = bind m (fun x => bind (f x) g) s.
Proof. unfold bind. destruct (m s); reflexivity. Qed.

Lemma perform_then_grows (c : call) (k : M unit) (s : state) :
  keeps audit_frame k ->
  exists t, trace (final ((perform E c >> k) s)) = trace s ++ c :: t.
Proof.
  intros Hk. unfold bind, perform. destruct (fails E (trace s) c).
  - exists []. reflexivity.
  - destruct (Hk (set_trace (fun t => t ++ [c]) s)) as (_ & _ & _ & _ & t & Ht & _).
    exists t. rewrite Ht. simpl. rewrite <- app_assoc. reflexivity.
Qed.

(** Lines 424-431 when [publog] is true and the throttle is open: the
    notice is sent, after at most a reading of the clock. *)
Lemma notify_sends_notice (s : state) :
  match group_config s !! (cid, "publog") with
  | Some v => truthy v = true
  | None => True
  end ->
  match delete_events s !! (cid, uid) with
  | Some t => t < clock E (ticks s) - HOUR
  | None => True
  end ->
  exists s1,
    trace s1 = trace s /\
    notify E msg s =
      (perform E (SendMessage cid (Str NOTICE)) >> record_notified E (cid, uid)) s1.
Proof.
  intros Hpub Hopen. unfold notify. cbv zeta. fold cid uid.
  unfold bind at 1. rewrite get_setting_valid by key_ok.
  assert (Hp : truthy (match group_config s !! (cid, "publog") with
                       | Some v => v
                       | None => VBool true
                       end) = true).
  { destruct (group_config s !! (cid, "publog")); [exact Hpub | reflexivity]. }
  rewrite Hp. clear Hp Hpub.
  destruct (delete_events s !! (cid, uid)) as [t |] eqn:Hd.
  - exists (set_ticks S s). split; [reflexivity |].
    apply bind_run_eq. unfold bind at 1. unfold should_notify.
    unfold bind at 1. unfold gets. rewrite Hd.
    unfold bind at 1. unfold utcnow at 1. unfold ret at 1.
    apply Z.ltb_lt in Hopen. rewrite Hopen. reflexivity.
  - exists s. split; [reflexivity |].
    apply bind_run_eq. unfold bind at 1. unfold should_notify.
    unfold bind at 1. unfold gets. rewrite Hd. reflexivity.
Qed.

(** C10. For a flagged message from a non-administrator whose event was
    written, in a chat where [publog] is true and the throttle is open, the
    call that follows the event write is the public notice, and its text
    is the literal [NOTICE], the two [%s] still in it: the same string
    for every sender and every reason. *)
Theorem notice_is_fixed_literal (s s1 : state) (reason : string) :
  classify E msg s = Ok (true, Some reason) s1 ->
  fails E (trace s1) (GetChatAdministrators cid) = false ->
  ~ In uid (chat_administrators E cid) ->
  let ev := mkEvent msg (clock E (ticks s1)) "delete_msg" reason in
  let before := trace s1 ++ [GetChatAdministrators cid] in
  fails E before (EventSave ev) = false ->
  match group_config s1 !! (cid, "publog") with
  | Some v => truthy v = true
  | None => True
  end ->
  match delete_events s1 !! (cid, uid) with
  | Some t => t < clock E (S (ticks s1)) - HOUR
  | None => True
  end ->
  exists rest,
    trace (final (handle_any_msg E msg s)) =
      before ++ [EventSave ev; SendMessage cid (Str NOTICE)] ++ rest.
Proof.
  intros Hc Hf Hin. cbv zeta. intros Hs Hpub Hopen.
  rewrite (handle_flagged_final s s1 reason) by assumption.
  rewrite moderate_save_ok by exact Hs.
  match goal with
  | |- context [final (_ ?st)] =>
      destruct (notify_sends_notice st Hpub Hopen) as (st1 & Ht1 & Hn)
  end.
  rewrite (bind_run_eq _ _ _ _ _ Hn). rewrite bind_assoc_run.
  match goal with
  | |- context [final (bind (perform E ?c) ?k st1)] =>
      destruct (perform_then_grows c (k tt) st1) as [t Ht]
  end.
  { apply keeps_bind; [typeclasses eauto | apply keeps_record_notified |]. intros _.
    apply keeps_bind; [typeclasses eauto | apply keeps_log_channel_ids |]. intros ids.
    apply keeps_dispatch. }
  exists (t ++ [DeleteMessage cid (message_id msg)]).
  cbn [trace set_trace]. rewrite Ht, Ht1. simpl. rewrite <- !app_assoc. reflexivity.
Qed.

Lemma dispatch_channel_returns (reason : string) (chid : Z) (s : state) :
  exists s', dispatch_channel E msg reason chid s = Ok tt s'.
Proof.
  unfold dispatch_channel. unfold bind. rewrite get_setting_valid by key_ok.
  unfold try_except. destruct (send_formats E msg reason chid _ s) as [[] s' | e s'].
  - exists s'. reflexivity.
  - eexists. reflexivity.
Qed.

(** C4 (amended). Audit failures are isolated per channel, not per format.
    Whatever fails inside a channel's block, the block returns, so the loop
    goes on to the remaining channels; a failing forward is logged and the
    other formats of that channel are skipped; and the handler's last call
    is the delete of the original message. *)
Theorem dispatch_isolated_per_channel (reason : string) :
  (forall chid rest s,
     exists s', dispatch_channel E msg reason chid s = Ok tt s' /\
                dispatch E msg reason (chid :: rest) s = dispatch E msg reason rest s') /\
  (forall chid formats s,
     group_config s !! (chid, "logformat") = Some (VList formats) ->
     In "forward" formats ->
     fails E (trace s) (ForwardMessage chid cid (message_id msg)) = true ->
     dispatch_channel E msg reason chid s =
       Ok tt (set_trace (fun t => t ++ [LoggingError chid])
                (set_trace (fun t => t ++ [ForwardMessage chid cid (message_id msg)]) s))) /\
  (forall s s1,
     classify E msg s = Ok (true, Some reason) s1 ->
     fails E (trace s1) (GetChatAdministrators cid) = false ->
     ~ In uid (chat_administrators E cid) ->
     exists t, trace (final (handle_any_msg E msg s)) =
               t ++ [DeleteMessage cid (message_id msg)]).
Proof.
  split; [| split].
  - intros chid rest s. destruct (dispatch_channel_returns reason chid s) as [s' Hs'].
    exists s'. split; [exact Hs' |]. simpl. unfold bind. rewrite Hs'. reflexivity.
  - intros chid formats s Hfm Hin Hf. apply str_in_In in Hin.
    unfold dispatch_channel. unfold bind at 1. rewrite get_setting_valid by key_ok.
    rewrite Hfm. unfold try_except, send_formats. cbv zeta. fold cid.
    unfold bind at 1. unfold bind at 1. unfold contains at 1. unfold ret at 1.
    rewrite Hin. unfold perform at 1. rewrite Hf. reflexivity.
  - intros s s1 Hc Hf Hin.
    rewrite (handle_flagged_final s s1 reason) by assumption.
    eexists. reflexivity.
Qed.

End Handler.

(** *** Where the first match does and does not stand *)

Section FirstMatch.

Variable E : env.
Variable msg : Message.

(** A reason set by the entity loop is the classifier's answer. *)
Lemma entity_match_stands (reason : option string) (s s1 : state) :
  entity_loop E msg (match entities msg with Some l => l | None => [] end) s
    = Ok (true, reason) s1 ->
  classify E msg s = Ok (true, reason) s1.
Proof. intros H. unfold classify. unfold bind at 1. rewrite H. reflexivity. Qed.

(** The forward rule answers "forwarded" whatever verdict it is given,
    so a reason set by the free-text rule just before it is lost. *)
Lemma forward_check_overrides (v : verdict) (s : state) :
  not_none (forward_from msg) || not_none (forward_from_chat msg) = true ->
  match group_config s !! (chat_id (chat msg), "forwarded") with
  | Some x => truthy x = true
  | None => True
  end ->
  forward_check msg v s = Ok (true, Some "forwarded") s.
Proof.
  intros Hf Hs. unfold forward_check. unfold bind.
  rewrite setting_and_valid by key_ok. rewrite Hf.
  destruct (group_config s !! (chat_id (chat msg), "forwarded")) as [x |].
  - rewrite Hs. reflexivity.
  - reflexivity.
Qed.

(** The caption link rule flags as soon as [find_external_links] finds
    something and [links] is true; no exception list is consulted. *)
Lemma caption_link_flags (reason : option string) (s : state) :
  find_external_links E (caption_or_empty msg) <> [] ->
  match group_config s !! (chat_id (chat msg), "links") with
  | Some x => truthy x = true
  | None => True
  end ->
  caption_link_block E msg (false, reason) s = Ok (true, Some "caption external link") s.
Proof.
  intros Hl Hs. unfold caption_link_block. cbn [fst]. cbv zeta. unfold bind.
  rewrite setting_and_valid by key_ok.
  destruct (find_external_links E (caption_or_empty msg)); [congruence |].
  destruct (group_config s !! (chat_id (chat msg), "links")) as [x |].
  - rewrite Hs. reflexivity.
  - reflexivity.
Qed.

(** Whatever the state, [notify] makes no call at all or exactly one: the
    notice with the literal text. *)
Lemma notify_sends_only_notice (s : state) :
  trace (final (notify E msg s)) = trace s \/
  trace (final (notify E msg s)) =
    trace s ++ [SendMessage (chat_id (chat msg)) (Str NOTICE)].
Proof.
  cbv beta iota zeta delta
    [notify bind should_notify gets utcnow record_notified modify perform ret].
  rewrite get_setting_valid by key_ok.
  destruct (truthy _); [| left; reflexivity].
  destruct (delete_events s !! (chat_id (chat msg), user_id (from_user msg))) as [t |].
  - destruct (t <? clock E (ticks s) - HOUR); [| left; reflexivity].
    cbn [trace set_ticks].
    destruct (fails E (trace s) (SendMessage (chat_id (chat msg)) (Str NOTICE)));
      right; reflexivity.
  - destruct (fails E (trace s) (SendMessage (chat_id (chat msg)) (Str NOTICE)));
      right; reflexivity.
Qed.

End FirstMatch.

(** ** Concrete runs *)

(** C1, at the boundary: a deletion recorded at time 0 and a clock that
    reads exactly 3600 seconds; the check answers false. *)
Lemma should_notify_at_one_hour :
  delete_events throttled_state !! (-1001, 7) = Some 0 /\
  clock (sample_env never) (ticks throttled_state) - 0 = 3600 * 1000000 /\
  should_notify (sample_env never) (-1001, 7) throttled_state
    = Ok false (set_ticks S throttled_state).
Proof. repeat split; vm_compute; reflexivity. Qed.

Lemma should_notify_window_witness :
  (delete_events throttled_state !! (-1001, 7) = Some 0 /\
   clock (sample_env never) (ticks throttled_state) - 0 <= HOUR) /\
  should_notify (sample_env never) (-1001, 7) throttled_state
    = Ok false (set_ticks S throttled_state).
Proof.
  assert (H1 : delete_events throttled_state !! (-1001, 7) = Some 0)
    by (vm_compute; reflexivity).
  assert (H2 : clock (sample_env never) (ticks throttled_state) - 0 <= HOUR)
    by (vm_compute; discriminate).
  split; [split; assumption |].
  exact (proj1 (proj2 (should_notify_window (sample_env never) (-1001, 7) throttled_state))
               0 H1 H2).
Defined.

(** C2, the code at the failing input: the text of the forwarded message
    matches the free-text rule, which sets the reason "@-link to group";
    the forward rule then runs all the same and the classifier answers
    "forwarded". *)
Theorem forwarded_overrides_mention_reason :
  exists s1,
    free_text_mention (sample_env never) forwarded_mention_msg (false, None) empty_state
      = Ok (true, Some "@-link to group") s1 /\
    classify (sample_env never) forwarded_mention_msg empty_state
      = Ok (true, Some "forwarded") s1.
Proof. eexists. split; vm_compute; reflexivity. Qed.

(** C3, when the event write fails: the handler raises the write's
    failure, the event collection is empty, and the delete was issued. *)
Lemma delete_without_event :
  let r := handle_any_msg (sample_env save_fails) evil_link_msg empty_state in
  (exists ev s', r = Raise (CallFailed (EventSave ev)) s') /\
  db_event (final r) = [] /\
  deleted (trace (final r)) = true.
Proof.
  cbv zeta. split; [| split].
  - eexists. eexists. vm_compute. reflexivity.
  - vm_compute. reflexivity.
  - vm_compute. reflexivity.
Qed.

Lemma event_write_then_delete_witness :
  let E := sample_env never in
  let s1 := final (classify E evil_link_msg audit_state) in
  let s' := final (handle_any_msg E evil_link_msg audit_state) in
  let ev := mkEvent evil_link_msg (clock E (ticks s1)) "delete_msg" "external link" in
  let before := trace s1 ++ [GetChatAdministrators (-1001)] in
  exists mid,
    trace s' = before ++ [EventSave ev] ++ mid ++ [DeleteMessage (-1001) 42] /\
    Forall (fun c => audit_call c = true) mid /\
    (fails E before (EventSave ev) = false -> db_event s' = db_event s1 ++ [ev]) /\
    (fails E before (EventSave ev) = true -> db_event s' = db_event s1 /\ mid = []).
Proof.
  intros E s1.
  apply (event_write_then_delete E evil_link_msg audit_state s1 "external link").
  - vm_compute. reflexivity.
  - reflexivity.
  - vm_compute. intros [H | []]. discriminate H.
Defined.

(** C4, when the forward fails: the channel asked for "forward" and
    "simple"; the forward is attempted, nothing is sent to the channel,
    and without the failure the simple record is sent. *)
Lemma forward_failure_skips_simple :
  let s' := final (handle_any_msg (sample_env forward_fails) evil_link_msg audit_state) in
  let s'' := final (handle_any_msg (sample_env never) evil_link_msg audit_state) in
  group_config audit_state !! (-2002, "logformat") = Some (VList ["forward"; "simple"]) /\
  In (ForwardMessage (-2002) (-1001) 42) (trace s') /\
  sent_to (-2002) (trace s') = false /\
  sent_to (-2002) (trace s'') = true.
Proof.
  cbv zeta. split; [| split; [| split]]; vm_compute; try reflexivity.
  do 3 right. left. reflexivity.
Qed.

Lemma dispatch_isolated_per_channel_witness :
  let E := sample_env forward_fails in
  (group_config audit_state !! (-2002, "logformat") = Some (VList ["forward"; "simple"]) /\
   In "forward" ["forward"; "simple"] /\
   fails E (trace audit_state) (ForwardMessage (-2002) (-1001) 42) = true) /\
  dispatch_channel E evil_link_msg "external link" (-2002) audit_state =
    Ok tt (set_trace (fun t => t ++ [LoggingError (-2002)])
             (set_trace (fun t => t ++ [ForwardMessage (-2002) (-1001) 42]) audit_state)).
Proof.
  intros E.
  assert (H1 : group_config audit_state !! (-2002, "logformat")
               = Some (VList ["forward"; "simple"])) by (vm_compute; reflexivity).
  assert (H2 : In "forward" ["forward"; "simple"]) by (left; reflexivity).
  assert (H3 : fails E (trace audit_state) (ForwardMessage (-2002) (-1001) 42) = true)
    by reflexivity.
  split; [repeat split; assumption |].
  exact (proj1 (proj2 (dispatch_isolated_per_channel E evil_link_msg "external link"))
               (-2002) ["forward"; "simple"] audit_state H1 H2 H3).
Defined.

Lemma links_false_never_link_reason_witness :
  let E := sample_env never in
  (group_config links_off_state !! (chat_id (chat evil_link_msg), "links")
     = Some (VBool false) /\
   truthy (VBool false) = false /\
   classify E evil_link_msg links_off_state = Ok (false, None) links_off_state) /\
  (None <> Some "external link" /\ None <> Some "caption external link").
Proof.
  intros E.
  assert (H1 : group_config links_off_state !! (chat_id (chat evil_link_msg), "links")
               = Some (VBool false)) by (vm_compute; reflexivity).
  assert (H2 : truthy (VBool false) = false) by reflexivity.
  assert (H3 : classify E evil_link_msg links_off_state = Ok (false, None) links_off_state)
    by (vm_compute; reflexivity).
  split; [repeat split; assumption |].
  exact (links_false_never_link_reason E evil_link_msg links_off_state links_off_state
           (VBool false) false None H1 H2 H3).
Defined.

(** C6, a link to an excepted host written with its port: the netloc is
    [steemit.com:80], the host [steemit.com] is on the list, and the
    message is flagged for the link. *)
Lemma excepted_host_with_port_flagged :
  urlparse_netloc (sample_env never)
    (entity_url "see http://steemit.com:80/faq" (mkEntity "url" 4 25))
    = Some "steemit.com:80" /\
  spec_host "steemit.com:80" = "steemit.com" /\
  In "steemit.com" (LINKS_EXCEPTIONS (sample_env never)) /\
  exists s', classify (sample_env never) port_link_msg empty_state
             = Ok (true, Some "external link") s'.
Proof.
  split; [vm_compute; reflexivity |]. split; [vm_compute; reflexivity |].
  split; [left; reflexivity |]. eexists. vm_compute. reflexivity.
Qed.

Lemma excepted_link_entity_skipped_witness :
  let E := sample_env never in
  let ent := mkEntity "url" 5 21 in
  (In (ent_type ent) ["url"; "text_link"] /\
   text excepted_link_msg = Some "read https://golos.io/post" /\
   urlparse_netloc E (entity_url "read https://golos.io/post" ent) = Some "golos.io" /\
   In (Py.lower "golos.io") (LINKS_EXCEPTIONS E)) /\
  entity_loop E excepted_link_msg [ent] empty_state
    = entity_loop E excepted_link_msg [] empty_state.
Proof.
  intros E ent.
  assert (H1 : In (ent_type ent) ["url"; "text_link"]) by (left; reflexivity).
  assert (H2 : text excepted_link_msg = Some "read https://golos.io/post") by reflexivity.
  assert (H3 : urlparse_netloc E (entity_url "read https://golos.io/post" ent)
               = Some "golos.io") by (vm_compute; reflexivity).
  assert (H4 : In (Py.lower "golos.io") (LINKS_EXCEPTIONS E)) by (right; left; reflexivity).
  split; [repeat split; assumption |].
  exact (excepted_link_entity_skipped E excepted_link_msg ent []
           "read https://golos.io/post" "golos.io" empty_state H1 H2 H3 H4).
Defined.

Lemma user_mention_never_flags_witness :
  let E := sample_env never in
  let ent := mkEntity "mention" 7 6 in
  let s' := final (process_user_type E "alice" empty_state) in
  (process_user_type E "alice" empty_state = Ok (Some "user") s' /\
   ent_type ent = "mention" /\
   text user_mention_msg = Some "thanks @alice" /\
   Py.lstrip "@" (Py.slice "thanks @alice" (ent_offset ent) (ent_offset ent + ent_length ent))
     = "alice" /\
   ~ In (Py.lower "alice") USERNAME_EXCEPTIONS) /\
  entity_loop E user_mention_msg [ent] empty_state = entity_loop E user_mention_msg [] s'.
Proof.
  intros E ent s'.
  assert (H0 : process_user_type E "alice" empty_state = Ok (Some "user") s')
    by (vm_compute; reflexivity).
  assert (H1 : ent_type ent = "mention") by reflexivity.
  assert (H2 : text user_mention_msg = Some "thanks @alice") by reflexivity.
  assert (H3 : Py.lstrip "@" (Py.slice "thanks @alice" (ent_offset ent)
                                (ent_offset ent + ent_length ent)) = "alice")
    by (vm_compute; reflexivity).
  assert (H4 : ~ In (Py.lower "alice") USERNAME_EXCEPTIONS).
  { vm_compute. intros [H | [H | [H | []]]]; discriminate H. }
  split; [repeat split; assumption |].
  exact (proj1 (user_mention_never_flags E user_mention_msg "alice" empty_state s' H0)
               ent [] "thanks @alice" H1 H2 H3 H4).
Defined.

Lemma set_setting_atomic_witness :
  let E := sample_env never in
  (In "links" GROUP_SETTING_KEYS /\
   fails E (trace empty_state) (ConfigUpsert (-1001) "links" (VBool false)) = false) /\
  exists s',
    set_setting E (-1001) "links" (VBool false) empty_state = Ok tt s' /\
    group_config s' = <[(-1001, "links") := VBool false]> (group_config empty_state) /\
    forall default, get_setting (-1001) "links" default s' = Ok (VBool false) s'.
Proof.
  intros E.
  assert (H1 : In "links" GROUP_SETTING_KEYS) by (simpl; tauto).
  assert (H2 : fails E (trace empty_state) (ConfigUpsert (-1001) "links" (VBool false))
               = false) by reflexivity.
  split; [split; assumption |].
  exact (proj2 (proj2 (set_setting_atomic E (-1001) "links" (VBool false) empty_state))
               H1 H2).
Defined.

Lemma admin_exempt_witness :
  let E := sample_env never in
  let s' := final (handle_any_msg E admin_link_msg audit_state) in
  (classify E admin_link_msg audit_state = Ok (true, Some "external link") audit_state /\
   In (user_id (from_user admin_link_msg))
      (chat_administrators E (chat_id (chat admin_link_msg)))) /\
  (fails E (trace audit_state) (GetChatAdministrators (-1001)) = false ->
     handle_any_msg E admin_link_msg audit_state = Ok tt s') /\
  delete_events s' = delete_events audit_state /\
  db_event s' = db_event audit_state /\
  exists t, trace s' = trace audit_state ++ t ++ [GetChatAdministrators (-1001)]
            /\ Forall (fun c => resolver_call c = true) t.
Proof.
  intros E s'.
  assert (H1 : classify E admin_link_msg audit_state
               = Ok (true, Some "external link") audit_state) by (vm_compute; reflexivity).
  assert (H2 : In (user_id (from_user admin_link_msg))
                  (chat_administrators E (chat_id (chat admin_link_msg))))
    by (left; reflexivity).
  split; [split; assumption |].
  exact (admin_exempt E admin_link_msg audit_state audit_state (Some "external link") H1 H2).
Defined.

Lemma notice_is_fixed_literal_witness :
  let E := sample_env never in
  let s1 := empty_state in
  let ev := mkEvent evil_link_msg (clock E (ticks s1)) "delete_msg" "external link" in
  let before := trace s1 ++ [GetChatAdministrators (-1001)] in
  (classify E evil_link_msg empty_state = Ok (true, Some "external link") s1 /\
   fails E (trace s1) (GetChatAdministrators (-1001)) = false /\
   ~ In 7 (chat_administrators E (-1001)) /\
   fails E before (EventSave ev) = false) /\
  exists rest,
    trace (final (handle_any_msg E evil_link_msg empty_state)) =
      before ++ [EventSave ev; SendMessage (-1001) (Str NOTICE)] ++ rest.
Proof.
  intros E s1 ev before.
  assert (H1 : classify E evil_link_msg empty_state = Ok (true, Some "external link") s1)
    by (vm_compute; reflexivity).
  assert (H2 : fails E (trace s1) (GetChatAdministrators (-1001)) = false) by reflexivity.
  assert (H3 : ~ In 7 (chat_administrators E (-1001))).
  { vm_compute. intros [H | []]. discriminate H. }
  assert (H4 : fails E before (EventSave ev) = false) by reflexivity.
  split; [repeat split; assumption |].
  exact (notice_is_fixed_literal E evil_link_msg empty_state s1 "external link"
           H1 H2 H3 H4 I I).
Defined.

(** An entry of the exception list that is not lowercase matches no
    link: the netloc is lowercased, the entry is not. *)
Remark uppercase_entry_never_matches :
  let E := with_exceptions (sample_env never) ["Golos.io"] in
  exists s', classify E excepted_link_msg empty_state = Ok (true, Some "external link") s'.
Proof. eexists. vm_compute. reflexivity. Qed.

(** ** Further properties of the settings store *)

Section SettingsStore.

Variable E : env.

Lemma set_setting_final_cases (group_id : Z) (key : string) (val : value) (s : state) :
  let s' := final (set_setting E group_id key val s) in
  s' = s \/
  (s' = set_trace (fun t => t ++ [ConfigUpsert group_id key val]) s
   /\ In key GROUP_SETTING_KEYS) \/
  (s' = set_group_config (fun c => <[(group_id, key) := val]> c)
          (set_db_config (fun c => <[(group_id, key) := val]> c)
             (set_trace (fun t => t ++ [ConfigUpsert group_id key val]) s))
   /\ In key GROUP_SETTING_KEYS).
Proof.
  cbv zeta. unfold set_setting.
  destruct (Py.str_in key GROUP_SETTING_KEYS) eqn:Hk; cbn [negb]; [| left; reflexivity].
  apply str_in_In in Hk. right.
  unfold bind, perform, modify.
  destruct (fails E (trace s) (ConfigUpsert group_id key val)); simpl;
    [left | right]; split; auto.
Qed.

Lemma set_setting_ok (group_id : Z) (key : string) (val : value) (s : state) :
  In key GROUP_SETTING_KEYS ->
  fails E (trace s) (ConfigUpsert group_id key val) = false ->
  set_setting E group_id key val s =
    Ok tt (set_group_config (fun c => <[(group_id, key) := val]> c)
             (set_db_config (fun c => <[(group_id, key) := val]> c)
                (set_trace (fun t => t ++ [ConfigUpsert group_id key val]) s))).
Proof.
  intros Hk Hf. apply str_in_In in Hk. unfold set_setting. rewrite Hk. cbn [negb].
  unfold bind, perform, modify. rewrite Hf. reflexivity.
Qed.

Lemma set_setting_cases (group_id : Z) (key : string) (val : value) (s : state) :
  let called := set_trace (fun t => t ++ [ConfigUpsert group_id key val]) s in
  set_setting E group_id key val s = Raise AssertionError s \/
  set_setting E group_id key val s = Raise (CallFailed (ConfigUpsert group_id key val)) called \/
  set_setting E group_id key val s =
    Ok tt (set_group_config (fun c => <[(group_id, key) := val]> c)
             (set_db_config (fun c => <[(group_id, key) := val]> c) called)).
Proof.
  cbv zeta. unfold set_setting.
  destruct (Py.str_in key GROUP_SETTING_KEYS); cbn [negb]; [| left; reflexivity].
  right. unfold bind, perform, modify.
  destruct (fails E (trace s) (ConfigUpsert group_id key val)); [left | right]; reflexivity.
Qed.

(** X1. Writing one setting changes nothing else: every other (chat, key)
    pair reads as before, whatever the outcome of the write, and the
    throttle map, the username cache and the event collection are left
    alone. *)
Theorem set_setting_leaves_the_rest
    (group_id : Z) (key : string) (val : value) (s : state)
    (other_id : Z) (other_key : string) (default : value) :
  (other_id, other_key) <> (group_id, key) ->
  let s' := final (set_setting E group_id key val s) in
  value_of (get_setting other_id other_key default s')
    = value_of (get_setting other_id other_key default s) /\
  delete_events s' = delete_events s /\
  db_user s' = db_user s /\
  db_event s' = db_event s.
Proof.
  intros Hne. cbv zeta.
  assert (Hg : group_config (final (set_setting E group_id key val s)) !! (other_id, other_key)
               = group_config s !! (other_id, other_key)).
  { destruct (set_setting_final_cases group_id key val s) as [-> | [[-> _] | [-> _]]];
      simpl; try reflexivity.
    apply lookup_insert_ne. congruence. }
  split.
  - unfold get_setting. destruct (negb _); [reflexivity |]. rewrite Hg.
    destruct (group_config s !! (other_id, other_key)); reflexivity.
  - destruct (set_setting_final_cases group_id key val s) as [-> | [[-> _] | [-> _]]];
      repeat split.
Qed.

(** X2. Setting the same value twice leaves the cache and the collection
    as one write does, and the collection is written twice. *)
Theorem set_setting_twice (group_id : Z) (key : string) (val : value) (s : state) :
  In key GROUP_SETTING_KEYS ->
  (forall h, fails E h (ConfigUpsert group_id key val) = false) ->
  let once := final (set_setting E group_id key val s) in
  let twice := final ((set_setting E group_id key val >> set_setting E group_id key val) s) in
  group_config twice = group_config once /\
  db_config twice = db_config once /\
  trace twice = trace s ++ [ConfigUpsert group_id key val; ConfigUpsert group_id key val].
Proof.
  intros Hk Hf. cbv zeta. unfold bind.
  rewrite (set_setting_ok group_id key val s) by auto.
  rewrite set_setting_ok by auto. simpl.
  rewrite !insert_insert_eq. rewrite <- app_assoc. repeat split.
Qed.


End SettingsStore.

(** ** Start-up *)

Lemma load_fold_lookup (items : list config_item) (acc : gmap (Z * string) value)
    (k : Z * string) :
  fold_left (fun ret item => <[item_key_pair item := item_value item]> ret) items acc !! k
  = match last (filter (fun item => item_key_pair item = k) items) with
    | Some item => Some (item_value item)
    | None => acc !! k
    end.
Proof.
  revert acc. induction items as [| item rest IH]; intros acc; simpl; [reflexivity |].
  rewrite IH. rewrite filter_cons. destruct (decide _) as [Hd | Hd].
  - rewrite last_cons. destruct (last _); [reflexivity |].
    rewrite Hd. apply lookup_insert_eq.
  - destruct (last _); [reflexivity |].
    apply lookup_insert_ne. exact Hd.
Qed.

(** X4. After [load_group_config] a key holds the value of the last
    document that carries it, and no value when no document does. *)
Theorem load_group_config_last_wins (items : list config_item) (k : Z * string) :
  load_group_config items !! k
  = item_value <$> last (filter (fun item => item_key_pair item = k) items).
Proof.
  etransitivity; [exact (load_fold_lookup items ∅ k) |].
  rewrite lookup_empty. destruct (last _); reflexivity.
Qed.

(** X5. Loading the documents of a collection that holds one document per
    key gives back exactly that collection: the cache built at start-up is
    the stored configuration. *)
Theorem load_group_config_items_of (c : gmap (Z * string) value) :
  load_group_config (items_of c) = c.
Proof.
  apply map_eq. intros k.
  etransitivity; [exact (load_fold_lookup (items_of c) ∅ k) |].
  rewrite lookup_empty.
  destruct (last _) as [item |] eqn:Hl.
  - apply last_Some in Hl. destruct Hl as [l' Hl'].
    assert (Hin : item ∈ filter (fun item => item_key_pair item = k) (items_of c)).
    { rewrite Hl'. apply elem_of_app. right. apply list_elem_of_singleton. reflexivity. }
    apply list_elem_of_filter in Hin. destruct Hin as [Hk Hin].
    apply list_elem_of_In in Hin. unfold items_of in Hin. apply in_map_iff in Hin.
    destruct Hin as [[k' v] [<- Hin]]. apply list_elem_of_In in Hin.
    apply elem_of_map_to_list in Hin. simpl in *.
    unfold item_key_pair in Hk. simpl in Hk. destruct k' as [g key]. simpl in Hk.
    subst k. symmetry. exact Hin.
  - apply last_None in Hl.
    destruct (c !! k) as [v |] eqn:Hc; [| reflexivity].
    exfalso.
    assert (Hin : mkItem (fst k) (snd k) v
                  ∈ filter (fun item => item_key_pair item = k) (items_of c)).
    { apply list_elem_of_filter. split; [destruct k; reflexivity |].
      apply list_elem_of_In. unfold items_of. apply in_map_iff.
      exists (k, v). split; [reflexivity |].
      apply list_elem_of_In. apply elem_of_map_to_list. exact Hc. }
    rewrite Hl in Hin. apply elem_of_nil in Hin. exact Hin.
Qed.

(** ** Further properties of the username type resolver *)

Lemma lower_char_idempotent (c : ascii) : Py.lower_char (Py.lower_char c) = Py.lower_char c.
Proof. destruct c as [[] [] [] [] [] [] [] []]; reflexivity. Qed.

Lemma lower_idempotent (s : string) : Py.lower (Py.lower s) = Py.lower s.
Proof.
  induction s as [| c r IH]; simpl; [reflexivity |].
  rewrite lower_char_idempotent, IH. reflexivity.
Qed.

Section Resolver.

Variable E : env.

Lemma process_user_type_cached (name ty : string) (s : state) :
  db_user s !! Py.lower name = Some ty ->
  fails E (trace s) (UserFind (Py.lower name)) = false ->
  process_user_type E name s
    = Ok (Some ty) (set_trace (fun t => t ++ [UserFind (Py.lower name)]) s).
Proof.
  intros Hd Hf. unfold process_user_type. cbv zeta.
  unfold bind, perform, gets. rewrite Hf. simpl. rewrite Hd. reflexivity.
Qed.

Lemma process_user_type_stores (name ty : string) (s s1 : state) :
  process_user_type E name s = Ok (Some ty) s1 ->
  ty <> EmptyString ->
  db_user s1 !! Py.lower name = Some ty.
Proof.
  intros Hp Hty. revert Hp. unfold process_user_type. cbv zeta.
  unfold bind, perform, gets, utcnow, modify, ret.
  destruct (fails E (trace s) (UserFind (Py.lower name))); [discriminate |]. simpl.
  destruct (db_user s !! Py.lower name) as [ty0 |] eqn:Hd.
  - intros H. inversion H. subst. exact Hd.
  - destruct (fails E _ (FetchUserType (Py.lower name))); [discriminate |]. simpl.
    destruct (fetch_user_type E (Py.lower name)) as [[| c r] |]; simpl.
    + intros H. inversion H. subst. congruence.
    + destruct (fails E _ (UserUpsert _ _ _)); [discriminate |].
      intros H. inversion H. subst. simpl. apply lookup_insert_eq.
    + discriminate.
Qed.

(** X6. Once a name has resolved to a non-empty type, looking it up again
    in any casing is answered from the [user] collection: the same type
    comes back and the only call made is the [find_one], no network
    request. *)
Theorem resolved_name_is_cached (name name' ty : string) (s s1 : state) :
  process_user_type E name s = Ok (Some ty) s1 ->
  ty <> EmptyString ->
  Py.lower name' = Py.lower name ->
  fails E (trace s1) (UserFind (Py.lower name)) = false ->
  process_user_type E name' s1
    = Ok (Some ty) (set_trace (fun t => t ++ [UserFind (Py.lower name)]) s1).
Proof.
  intros Hp Hty Hn Hf.
  pose proof (process_user_type_stores name ty s s1 Hp Hty) as Hd.
  rewrite <- Hn in Hd, Hf |- *. apply process_user_type_cached; assumption.
Qed.

(** X7. A lookup that finds nothing (the name is not in the collection
    and [fetch_user_type] answers [None] or the empty string) writes
    nothing to the collection, so the next lookup asks the network again;
    when its two calls succeed it returns the answer of
    [fetch_user_type]. *)
Theorem unresolved_name_not_cached (name : string) (s : state) :
  let n := Py.lower name in
  let r := process_user_type E name s in
  db_user s !! n = None ->
  Py.truthy_str (fetch_user_type E n) = false ->
  db_user (final r) = db_user s /\
  (fails E (trace s) (UserFind n) = false ->
   fails E (trace s ++ [UserFind n]) (FetchUserType n) = false ->
   r = Ok (fetch_user_type E n)
          (set_trace (fun t => t ++ [FetchUserType n])
             (set_trace (fun t => t ++ [UserFind n]) s))).
Proof.
  cbv zeta. intros Hd Ht. split.
  - unfold process_user_type. cbv zeta.
    unfold bind, perform, gets, utcnow, modify, ret.
    destruct (fails E (trace s) (UserFind (Py.lower name))); simpl; [reflexivity |].
    rewrite Hd. simpl.
    destruct (fails E _ (FetchUserType (Py.lower name))); simpl; [reflexivity |].
    destruct (fetch_user_type E (Py.lower name)) as [[| c r] |]; simpl in *;
      try discriminate; reflexivity.
  - intros Hf1 Hf2. unfold process_user_type. cbv zeta.
    unfold bind, perform, gets, utcnow, modify, ret.
    rewrite Hf1. simpl. rewrite Hd. simpl. rewrite Hf2. simpl.
    destruct (fetch_user_type E (Py.lower name)) as [[| c r] |]; simpl in *;
      try discriminate; reflexivity.
Qed.

End Resolver.

(** ** Further properties of the classifier *)

Section ClassifierCases.

Variable E : env.
Variable msg : Message.

Let cid : Z := chat_id (chat msg).

Lemma setting_on (cond : bool) (key : string) (s : state) :
  In key GROUP_SETTING_KEYS ->
  match group_config s !! (cid, key) with
  | Some v => truthy v = true
  | None => True
  end ->
  setting_and cond cid key s = Ok cond s.
Proof.
  intros Hk Hs. rewrite setting_and_valid by assumption.
  destruct (group_config s !! (cid, key)) as [v |].
  - rewrite Hs. rewrite andb_true_r. reflexivity.
  - simpl. rewrite andb_true_r. reflexivity.
Qed.

(** X8. A message without text and without entities (a photo with a
    caption, say) makes the handler raise [TypeError] at the free-text
    search, before any call and with the state untouched: its caption is
    never examined. *)
Theorem textless_message_raises (s : state) :
  text msg = None ->
  entities msg = None \/ entities msg = Some [] ->
  handle_any_msg E msg s = Raise TypeError s.
Proof.
  intros Ht He. unfold handle_any_msg, classify. cbv zeta.
  assert (Hl : match entities msg with Some l => l | None => [] end = []).
  { destruct He as [-> | ->]; reflexivity. }
  rewrite Hl. simpl. unfold bind at 1. unfold bind at 1. unfold bind at 1.
  unfold bind at 1. unfold ret at 1. unfold free_text_block. cbn [fst].
  unfold bind at 1. unfold free_text_mention. cbv zeta.
  unfold bind at 1. unfold text_of. rewrite Ht. reflexivity.
Qed.

(** X9. A message with text but no entities, no spaced [@ name] in the
    text, no forward origin, and a caption in which the two [util]
    scanners find nothing is left alone under every setting: the handler
    returns without a single call and without changing the state. *)
Theorem clean_message_untouched (t : string) (s : state) :
  text msg = Some t ->
  entities msg = None \/ entities msg = Some [] ->
  re_search_mention t = None ->
  forward_from msg = None ->
  forward_from_chat msg = None ->
  find_username_links E (caption_or_empty msg) = [] ->
  find_external_links E (caption_or_empty msg) = [] ->
  handle_any_msg E msg s = Ok tt s.
Proof.
  intros Ht He Hm Hf1 Hf2 Hu Hx. unfold handle_any_msg, classify. cbv zeta.
  assert (Hl : match entities msg with Some l => l | None => [] end = []).
  { destruct He as [-> | ->]; reflexivity. }
  rewrite Hl. simpl.
  assert (H1 : free_text_block E msg (false, None) s = Ok (false, None) s).
  { unfold free_text_block. cbn [fst]. unfold bind at 1. unfold free_text_mention.
    cbv zeta. unfold bind at 1. unfold text_of. rewrite Ht. unfold ret at 1.
    rewrite Hm. unfold ret at 1. unfold forward_check. rewrite Hf1, Hf2. reflexivity. }
  assert (H2 : caption_mention_block E msg (false, None) s = Ok (false, None) s).
  { unfold caption_mention_block. cbn [fst]. rewrite Hu. reflexivity. }
  assert (H3 : caption_link_block E msg (false, None) s = Ok (false, None) s).
  { unfold caption_link_block. cbn [fst]. cbv zeta. rewrite Hx. reflexivity. }
  unfold bind at 1. unfold bind at 1. unfold ret at 1.
  unfold bind at 1. rewrite H1. unfold bind at 1. rewrite H2. rewrite H3. reflexivity.
Qed.

(** X10. When the first entity of a message is a url or text_link span,
    the [links] setting is true or unset, and the lowercased netloc of
    the span text is not on the exception list, the classifier answers
    (delete, "external link") without any call and without reading the
    rest of the message. *)
Theorem unexcepted_link_flagged
    (ent : MessageEntity) (rest : list MessageEntity) (t netloc : string) (s : state) :
  entities msg = Some (ent :: rest) ->
  In (ent_type ent) ["url"; "text_link"] ->
  text msg = Some t ->
  match group_config s !! (cid, "links") with
  | Some v => truthy v = true
  | None => True
  end ->
  urlparse_netloc E (entity_url t ent) = Some netloc ->
  ~ In (Py.lower netloc) (LINKS_EXCEPTIONS E) ->
  classify E msg s = Ok (true, Some "external link") s.
Proof.
  intros He Hty Ht Hs Hn Hex. apply str_in_In in Hty. apply str_in_not_In in Hex.
  apply entity_match_stands. rewrite He. simpl.
  unfold bind at 1. unfold entity_body. cbv zeta. fold cid.
  unfold bind at 1. rewrite setting_on by (assumption || key_ok). rewrite Hty.
  unfold bind at 1. unfold text_of. rewrite Ht. unfold ret at 1.
  rewrite Hn, Hex. reflexivity.
Qed.

(** X11. When the first entity of a message is an email span and the
    [emails] setting is true or unset, the classifier answers (delete,
    "email") without any call; the text is not read, so this holds for a
    message without text too. *)
Theorem email_entity_flagged
    (ent : MessageEntity) (rest : list MessageEntity) (s : state) :
  entities msg = Some (ent :: rest) ->
  ent_type ent = "email" ->
  match group_config s !! (cid, "emails") with
  | Some v => truthy v = true
  | None => True
  end ->
  classify E msg s = Ok (true, Some "email") s.
Proof.
  intros He Hty Hs.
  apply entity_match_stands. rewrite He. simpl.
  unfold bind at 1. unfold entity_body. cbv zeta. fold cid. rewrite Hty.
  change (Py.str_in "email" ["url"; "text_link"]) with false.
  change (Py.str_in "email" ["email"]) with true.
  unfold bind at 1. unfold setting_and at 1. unfold ret at 1.
  unfold bind at 1. rewrite setting_on by (assumption || key_ok). reflexivity.
Qed.

(** X12. A mention of a name on the username exception list is passed
    over without asking the resolver, under a mention span (the entity
    loop goes on to the next entity in the same state) and in the
    free-text rule (the verdict and the state stay as they were). *)
Theorem excepted_mention_skipped (t : string) (s : state) :
  text msg = Some t ->
  (forall ent rest,
     ent_type ent = "mention" ->
     In (Py.lower (Py.lstrip "@" (Py.slice t (ent_offset ent)
                                    (ent_offset ent + ent_length ent))))
        USERNAME_EXCEPTIONS ->
     entity_loop E msg (ent :: rest) s = entity_loop E msg rest s) /\
  (forall name v,
     re_search_mention t = Some name ->
     In (Py.lower name) USERNAME_EXCEPTIONS ->
     free_text_mention E msg v s = Ok v s).
Proof.
  intros Ht. split.
  - intros ent rest Hty Hex. apply str_in_In in Hex.
    simpl. unfold bind at 1. unfold entity_body. cbv zeta. rewrite Hty.
    change (Py.str_in "mention" ["url"; "text_link"]) with false.
    change (Py.str_in "mention" ["email"]) with false.
    change ("mention" =? "mention")%string with true.
    unfold setting_and at 1 2. unfold bind at 1. unfold ret at 1.
    unfold bind at 1. unfold ret at 1. cbv iota.
    unfold bind at 1. unfold text_of. rewrite Ht. unfold ret at 1.
    rewrite Hex. reflexivity.
  - intros name v Hm Hex. apply str_in_In in Hex.
    unfold free_text_mention. cbv zeta.
    unfold bind at 1. unfold text_of. rewrite Ht. unfold ret at 1.
    rewrite Hm, Hex. reflexivity.
Qed.

(** X13. Classification only ever calls the resolver: whatever the
    message and whatever the outcome, it leaves the settings cache, the
    throttle map, the [config] collection and the event collection as
    they were, and every call it makes is a [user] lookup, a type fetch
    or a [user] upsert. *)
Theorem classify_only_resolves (s : state) :
  let s' := final (classify E msg s) in
  group_config s' = group_config s /\
  delete_events s' = delete_events s /\
  db_config s' = db_config s /\
  db_event s' = db_event s /\
  exists t, trace s' = trace s ++ t /\ Forall (fun c => resolver_call c = true) t.
Proof. exact (keeps_classify E msg s). Qed.

End ClassifierCases.

(** ** The free-text mention pattern *)

Lemma append_snoc (p : string) (c : ascii) (r : string) :
  (p +:+ String c EmptyString) +:+ r = p +:+ String c r.
Proof.
  induction p as [| a p IH]; [reflexivity |].
  change (String a ((p +:+ String c EmptyString) +:+ r) = String a (p +:+ String c r)).
  f_equal. exact IH.
Qed.





(** ** Further properties of the notice, the dispatcher and the handler *)

Section Moderation.

Variable E : env.
Variable msg : Message.

Let cid : Z := chat_id (chat msg).
Let uid : Z := user_id (from_user msg).

Lemma record_notified_run (s : state) :
  record_notified E (cid, uid) s
    = Ok tt (set_delete_events (fun d => <[(cid, uid) := clock E (ticks s)]> d)
               (set_ticks S s)).
Proof. reflexivity. Qed.

Lemma notify_ok_inv (s s1 : state) :
  notify E msg s = Ok tt s1 ->
  exists s0,
    s1 = set_delete_events (fun d => <[(cid, uid) := clock E (ticks s0)]> d)
           (set_ticks S s0).
Proof.
  unfold notify. cbv zeta. fold cid uid. unfold bind at 1.
  destruct (get_setting cid "publog" (VBool true) s) as [v s0 | e s0]; [| discriminate].
  unfold bind at 1.
  destruct (truthy v).
  - unfold bind at 1.
    destruct (should_notify E (cid, uid) s0) as [b s2 | e s2]; [| discriminate].
    destruct b.
    + destruct (perform E (SendMessage cid (Str NOTICE)) s2) as [[] s3 | e s3];
        [| discriminate].
      rewrite record_notified_run. intros H. inversion H. exists s3. reflexivity.
    + unfold ret. rewrite record_notified_run. intros H. inversion H.
      exists s2. reflexivity.
  - unfold ret. rewrite record_notified_run. intros H. inversion H.
    exists s0. reflexivity.
Qed.

(** X15. After [notify] has returned, with or without a notice sent, the
    throttle map holds the time of this deletion for the (chat, user)
    pair; and a further deletion by the same user in the same chat, for
    which the clock reads at most 3600 seconds more, sends no notice: the
    second [notify] makes no call at all. *)
Theorem notify_then_silent (s s1 : state) :
  notify E msg s = Ok tt s1 ->
  let recorded := clock E (Nat.pred (ticks s1)) in
  delete_events s1 !! (cid, uid) = Some recorded /\
  (clock E (ticks s1) - recorded <= HOUR ->
   trace (final (notify E msg s1)) = trace s1).
Proof.
  intros Hn. cbv zeta. destruct (notify_ok_inv s s1 Hn) as [s0 ->].
  cbn [ticks set_delete_events set_ticks Nat.pred].
  split; [apply lookup_insert_eq |].
  intros Hle.
  cbv beta iota zeta delta
    [notify bind should_notify gets utcnow record_notified modify perform ret].
  rewrite get_setting_valid by key_ok.
  destruct (truthy _); [| reflexivity].
  cbn [delete_events set_delete_events set_ticks ticks]. fold cid uid.
  rewrite lookup_insert_eq.
  assert (Hlt : (clock E (ticks s0) <? clock E (S (ticks s0)) - HOUR) = false)
    by (apply Z.ltb_ge; lia).
  cbn [ticks set_delete_events set_ticks]. rewrite Hlt. reflexivity.
Qed.

Lemma notify_open_run (s : state) :
  match group_config s !! (cid, "publog") with
  | Some v => truthy v = true
  | None => True
  end ->
  match delete_events s !! (cid, uid) with
  | Some t => t < clock E (ticks s) - HOUR
  | None => True
  end ->
  exists s1,
    (s1 = s \/ s1 = set_ticks S s) /\
    notify E msg s =
      (perform E (SendMessage cid (Str NOTICE)) >> record_notified E (cid, uid)) s1.
Proof.
  intros Hpub Hopen. unfold notify. cbv zeta. fold cid uid.
  unfold bind at 1. rewrite get_setting_valid by key_ok.
  assert (Hp : truthy (match group_config s !! (cid, "publog") with
                       | Some v => v
                       | None => VBool true
                       end) = true).
  { destruct (group_config s !! (cid, "publog")); [exact Hpub | reflexivity]. }
  rewrite Hp. clear Hp Hpub.
  destruct (delete_events s !! (cid, uid)) as [t |] eqn:Hd.
  - exists (set_ticks S s). split; [right; reflexivity |].
    apply bind_run_eq. unfold bind at 1. unfold should_notify.
    unfold bind at 1. unfold gets. rewrite Hd.
    unfold bind at 1. unfold utcnow at 1. unfold ret at 1.
    apply Z.ltb_lt in Hopen. rewrite Hopen. reflexivity.
  - exists s. split; [left; reflexivity |].
    apply bind_run_eq. unfold bind at 1. unfold should_notify.
    unfold bind at 1. unfold gets. rewrite Hd. reflexivity.
Qed.

(** X16. When the public notice cannot be sent, the rest of the outer
    [try] is abandoned: for a flagged message from a non-administrator
    whose event was written, in a chat where [publog] is true and the
    throttle is open, a failing notice send is followed at once by the
    delete; the throttle map is not updated and no audit channel is
    served. *)
Theorem notice_failure_skips_audit (s s1 : state) (reason : string) :
  classify E msg s = Ok (true, Some reason) s1 ->
  fails E (trace s1) (GetChatAdministrators cid) = false ->
  ~ In uid (chat_administrators E cid) ->
  let ev := mkEvent msg (clock E (ticks s1)) "delete_msg" reason in
  let before := trace s1 ++ [GetChatAdministrators cid] in
  fails E before (EventSave ev) = false ->
  match group_config s1 !! (cid, "publog") with
  | Some v => truthy v = true
  | None => True
  end ->
  match delete_events s1 !! (cid, uid) with
  | Some t => t < clock E (S (ticks s1)) - HOUR
  | None => True
  end ->
  fails E (before ++ [EventSave ev]) (SendMessage cid (Str NOTICE)) = true ->
  let s' := final (handle_any_msg E msg s) in
  trace s' = before ++ [EventSave ev; SendMessage cid (Str NOTICE);
                        DeleteMessage cid (message_id msg)] /\
  delete_events s' = delete_events s1.
Proof.
  intros Hc Hf Hin. cbv zeta. intros Hs Hpub Hopen Hsend.
  rewrite (handle_flagged_final E msg s s1 reason) by assumption.
  assert (Hrun : exists st1,
             trace st1 = (trace s1 ++ [GetChatAdministrators cid])
                         ++ [EventSave (mkEvent msg (clock E (ticks s1))
                                          "delete_msg" reason)] /\
             delete_events st1 = delete_events s1 /\
             moderate E msg reason (after_admins msg s1)
               = Raise (CallFailed (SendMessage cid (Str NOTICE)))
                       (set_trace (fun t => t ++ [SendMessage cid (Str NOTICE)]) st1)).
  { rewrite moderate_save_ok by exact Hs.
    match goal with
    | |- context [bind (notify E msg) _ ?st] =>
        destruct (notify_open_run st Hpub Hopen) as (st1 & Hst1 & Hn)
    end.
    exists st1.
    assert (Htr : trace st1 = (trace s1 ++ [GetChatAdministrators cid])
                              ++ [EventSave (mkEvent msg (clock E (ticks s1))
                                               "delete_msg" reason)])
      by (destruct Hst1 as [-> | ->]; reflexivity).
    split; [exact Htr |].
    split; [destruct Hst1 as [-> | ->]; reflexivity |].
    rewrite (bind_run_eq _ _ _ _ _ Hn). rewrite bind_assoc_run.
    unfold bind at 1. unfold perform at 1. rewrite Htr, Hsend. reflexivity. }
  destruct Hrun as (st1 & Htr & Hde & ->).
  cbn [final trace delete_events set_trace]. rewrite Htr, Hde.
  rewrite <- !app_assoc. split; reflexivity.
Qed.

(** X17. A channel is served in the fixed order forward, json, simple,
    each at most once, whatever the order and the repetitions of the
    names in its [logformat] list: when no call fails, the dump
    serialises and the message has a text or a caption, the calls made
    for the channel are exactly those of the formats named in the list,
    in that order. *)
Theorem dispatch_channel_order
    (reason : string) (chid : Z) (formats : list string) (dump t : string) (s : state) :
  (forall h c, fails E h c = false) ->
  group_config s !! (chid, "logformat") = Some (VList formats) ->
  jsondate_dumps E msg reason (clock E (ticks s)) = Some dump ->
  text_or_caption msg = Some t ->
  exists s',
    dispatch_channel E msg reason chid s = Ok tt s' /\
    trace s' =
      trace s
      ++ (if Py.str_in "forward" formats
          then [ForwardMessage chid cid (message_id msg)] else [])
      ++ (if Py.str_in "json" formats
          then [SendMessage chid (json_record msg dump)] else [])
      ++ (if Py.str_in "simple" formats
          then [SendMessage chid (simple_record msg reason t)] else []).
Proof.
  intros Hf Hfm Hd Ht.
  unfold dispatch_channel. unfold bind at 1. rewrite get_setting_valid by key_ok.
  rewrite Hfm. unfold try_except, send_formats. cbv zeta. fold cid.
  cbv beta iota delta [bind contains ret perform utcnow].
  rewrite Ht.
  destruct (Py.str_in "forward" formats); destruct (Py.str_in "json" formats);
    destruct (Py.str_in "simple" formats);
    cbn [trace ticks set_trace set_ticks]; rewrite ?Hf; cbn [trace ticks set_trace set_ticks];
    rewrite ?Hd; rewrite ?Hf;
    eexists; (split; [reflexivity |]); cbn [trace set_trace set_ticks];
    unfold json_record, simple_record; rewrite <- ?app_assoc; rewrite ?app_nil_r;
    reflexivity.
Qed.

(** X18. In a chat whose [log_channel_id] is unset or holds a false value
    ([None] after [/unsetlog], 0), the audit step does nothing: no call
    and no change of state. *)
Theorem no_log_channel_no_dispatch (reason : string) (s : state) :
  match group_config s !! (cid, "log_channel_id") with
  | Some v => truthy v = false
  | None => True
  end ->
  (let! ids := log_channel_ids msg in dispatch E msg reason ids) s = Ok tt s.
Proof.
  intros Hs. unfold bind at 1. unfold log_channel_ids. fold cid.
  unfold bind at 1. rewrite get_setting_valid by key_ok.
  destruct (group_config s !! (cid, "log_channel_id")) as [v |].
  - rewrite Hs. reflexivity.
  - reflexivity.
Qed.

(** X19. When the administrator query fails for a flagged message, the
    handler raises that failure and does nothing else: the message is not
    deleted and no event is written. *)
Theorem admin_query_failure_keeps_message (s s1 : state) (reason : option string) :
  classify E msg s = Ok (true, reason) s1 ->
  fails E (trace s1) (GetChatAdministrators cid) = true ->
  handle_any_msg E msg s
    = Raise (CallFailed (GetChatAdministrators cid)) (after_admins msg s1).
Proof.
  intros Hc Hf. unfold handle_any_msg. cbv zeta. fold cid.
  unfold bind at 1. rewrite Hc. cbn [fst].
  unfold bind at 1. unfold bind at 1. unfold perform. rewrite Hf. reflexivity.
Qed.

End Moderation.

(** ** Properties of the command handlers *)

Lemma strip_prefix_spec (p s r : string) : strip_prefix p s = Some r -> s = p +:+ r.
Proof.
  revert s. induction p as [| a p IH]; intros s; simpl.
  - intros H. inversion H. reflexivity.
  - destruct s as [| b s']; [discriminate |].
    destruct (Ascii.eqb a b) eqn:Hab; [| discriminate].
    apply Ascii.eqb_eq in Hab. subst b. intros H.
    change (String a s' = String a (p +:+ r)). f_equal. apply IH. exact H.
Qed.

Lemma match_keys_in (keys : list string) (tail : string -> option string)
    (s key val : string) :
  match_keys keys tail s = Some (key, val) ->
  In key keys /\ exists r, strip_prefix key s = Some r /\ tail r = Some val.
Proof.
  induction keys as [| k rest IH]; simpl; [discriminate |].
  destruct (strip_prefix k s) as [r |] eqn:Hp.
  - destruct (tail r) as [v |] eqn:Ht.
    + intros H. inversion H. subst. split; [left; reflexivity |]. exists r. split; assumption.
    + intros H. destruct (IH H) as [Hin Hr]. split; [right; exact Hin | exact Hr].
  - intros H. destruct (IH H) as [Hin Hr]. split; [right; exact Hin | exact Hr].
Qed.

Lemma command_key_valid (key : string) : In key COMMAND_KEYS -> In key GROUP_SETTING_KEYS.
Proof. simpl. intuition. Qed.

Lemma re_cmd_set_inv (t key val : string) :
  re_cmd_set t = Some (key, val) ->
  In key COMMAND_KEYS /\ Py.startswith t "/graphene_set" = true.
Proof.
  unfold re_cmd_set. destruct (strip_prefix "/graphene_set " t) as [r |] eqn:Hp;
    [| discriminate].
  intros H. apply match_keys_in in H. destruct H as [Hin _]. split; [exact Hin |].
  apply strip_prefix_spec in Hp. subst t. reflexivity.
Qed.

Lemma re_cmd_get_inv (t key val : string) :
  re_cmd_get t = Some (key, val) ->
  In key COMMAND_KEYS /\ val = EmptyString /\ Py.startswith t "/graphene_set" = false.
Proof.
  unfold re_cmd_get. destruct (strip_prefix "/graphene_get " t) as [r |] eqn:Hp;
    [| discriminate].
  intros H. apply match_keys_in in H. destruct H as [Hin (r' & _ & Ht)].
  split; [exact Hin |]. split.
  - unfold get_tail in Ht. destruct (at_end r'); inversion Ht. reflexivity.
  - apply strip_prefix_spec in Hp. subst t. reflexivity.
Qed.

#[local] Instance settings_untouched_preorder : PreOrder settings_untouched.
Proof.
  split.
  - intros s. repeat split. apply trace_grows_refl.
  - intros s1 s2 s3 (A1 & B1 & T1) (A2 & B2 & T2).
    repeat split; try congruence. eapply trace_grows_trans; eassumption.
Qed.

Section CommandProps.

Variable E : env.
Variable str_of_list : list string -> string.

Lemma reply_to_final (cid : Z) (body : string) (s : state) :
  final (reply_to E cid body s) = set_trace (fun t => t ++ [SendMessage cid (Str body)]) s.
Proof. unfold reply_to. apply perform_final. Qed.

Lemma reply_untouched (cid : Z) (body : string) (s0 s : state) :
  settings_untouched s0 s -> settings_untouched s0 (final (reply_to E cid body s)).
Proof.
  intros H. etransitivity; [exact H |]. rewrite reply_to_final.
  repeat split. eapply trace_grows_one; reflexivity.
Qed.

Lemma admin_ids_cases (cid : Z) (s : state) :
  let s' := set_trace (fun t => t ++ [GetChatAdministrators cid]) s in
  admin_ids E cid s = Ok (chat_administrators E cid) s' \/
  admin_ids E cid s = Raise (CallFailed (GetChatAdministrators cid)) s'.
Proof.
  cbv zeta. unfold admin_ids, bind, perform.
  destruct (fails E (trace s) (GetChatAdministrators cid)); [right | left]; reflexivity.
Qed.

Lemma after_admin_query_untouched (cid : Z) (s : state) :
  settings_untouched s (set_trace (fun t => t ++ [GetChatAdministrators cid]) s).
Proof. repeat split. eapply trace_grows_one; reflexivity. Qed.

(** X20. Only administrators change settings through commands.  When
    the sender of [/graphene_set], [/graphene_get] or [/unsetlog] is not
    among the chat's administrators, and when the sender of
    [/setlogformat] is absent or not among the channel's administrators,
    the handler leaves the settings cache and the [config] collection as
    they were and attempts no write, whatever the text of the command. *)
Theorem commands_require_admin :
  (forall msg s,
     ~ In (user_id (from_user msg)) (chat_administrators E (chat_id (chat msg))) ->
     settings_untouched s (final (handle_set_get E str_of_list msg s)) /\
     settings_untouched s (final (handle_unsetlog E msg s))) /\
  (forall post s,
     (forall sender, post_from_user post = Some sender ->
        ~ In (user_id sender) (chat_administrators E (chat_id (post_chat post)))) ->
     settings_untouched s (final (handle_setlogformat E post s))).
Proof.
  split.
  - intros msg s Hin. apply int_in_not_In in Hin. split.
    + unfold handle_set_get. cbv zeta.
      destruct (negb (Py.str_in (chat_type (chat msg)) _));
        [apply reply_untouched; reflexivity |].
      unfold bind at 1. unfold text_attr.
      destruct (text msg) as [t |]; [| reflexivity].
      unfold ret at 1.
      destruct (if Py.startswith t "/graphene_set" then re_cmd_set t else re_cmd_get t)
        as [[key val] |]; [| apply reply_untouched; reflexivity].
      unfold bind at 1.
      destruct (admin_ids_cases (chat_id (chat msg)) s) as [-> | ->];
        [| apply after_admin_query_untouched].
      rewrite Hin. cbn [negb].
      apply reply_untouched. apply after_admin_query_untouched.
    + unfold handle_unsetlog. cbv zeta.
      destruct (negb (Py.str_in (chat_type (chat msg)) _));
        [apply reply_untouched; reflexivity |].
      unfold bind at 1.
      destruct (admin_ids_cases (chat_id (chat msg)) s) as [-> | ->];
        [| apply after_admin_query_untouched].
      rewrite Hin. cbn [negb].
      apply reply_untouched. apply after_admin_query_untouched.
  - intros post s Hin. unfold handle_setlogformat. cbv zeta.
    destruct (negb (String.eqb (chat_type (post_chat post)) "channel"));
      [apply reply_untouched; reflexivity |].
    unfold bind at 1.
    destruct (admin_ids_cases (chat_id (post_chat post)) s) as [-> | ->];
      [| apply after_admin_query_untouched].
    destruct (post_from_user post) as [sender |]; [| apply after_admin_query_untouched].
    specialize (Hin sender eq_refl). apply int_in_not_In in Hin. rewrite Hin. cbn [negb].
    apply reply_untouched. apply after_admin_query_untouched.
Qed.

End CommandProps.

Section CommandEffects.

Variable E : env.
Variable str_of_list : list string -> string.

Lemma classify_links_off (msg : Message) (s s' : state) (v : verdict) :
  links_off (chat_id (chat msg)) s ->
  classify E msg s = Ok v s' ->
  no_link_reason v.
Proof.
  intros Hs. unfold classify. unfold bind at 1.
  pose proof (entity_loop_links_off E msg
                (match entities msg with Some l => l | None => [] end) s Hs) as H1.
  destruct (entity_loop E msg _ s) as [v1 s1 | e s1]; [| discriminate].
  destruct H1 as [Hv1 Hs1].
  unfold bind at 1.
  pose proof (keeps_free_text_block E msg v1 s1) as K2.
  destruct (free_text_block E msg v1 s1) as [v2 s2 | e s2] eqn:H2; [| discriminate].
  simpl in K2.
  unfold bind at 1.
  pose proof (keeps_caption_mention_block E msg v2 s2) as K3.
  destruct (caption_mention_block E msg v2 s2) as [v3 s3 | e s3] eqn:H3; [| discriminate].
  simpl in K3.
  apply caption_link_block_reason.
  - eapply links_off_frame; [| exact K3]. eapply links_off_frame; [| exact K2]. exact Hs1.
  - eapply caption_mention_block_reason; [| exact H3].
    eapply free_text_block_reason; [| exact H2]. exact Hv1.
Qed.

Lemma reply_to_ok (cid : Z) (body : string) (s : state) :
  (forall h c, fails E h c = false) ->
  reply_to E cid body s = Ok tt (set_trace (fun t => t ++ [SendMessage cid (Str body)]) s).
Proof. intros Hf. unfold reply_to, perform. rewrite Hf. reflexivity. Qed.

Lemma admin_ids_ok (cid : Z) (s : state) :
  (forall h c, fails E h c = false) ->
  admin_ids E cid s
    = Ok (chat_administrators E cid)
         (set_trace (fun t => t ++ [GetChatAdministrators cid]) s).
Proof. intros Hf. unfold admin_ids, bind, perform. rewrite Hf. reflexivity. Qed.

(** What an accepted [/graphene_set] does when no call fails *)
Lemma handle_set_run (msg : Message) (t key val : string) (s : state) :
  (forall h c, fails E h c = false) ->
  In (chat_type (chat msg)) ["group"; "supergroup"] ->
  text msg = Some t ->
  re_cmd_set t = Some (key, val) ->
  In val ["yes"; "no"] ->
  In (user_id (from_user msg)) (chat_administrators E (chat_id (chat msg))) ->
  let cid := chat_id (chat msg) in
  let b := String.eqb val "yes" in
  handle_set_get E str_of_list msg s =
    Ok tt (set_trace
             (fun tr => tr ++ [SendMessage cid
                                 (Str ("Set " +:+ key +:+ " to " +:+ py_str str_of_list (VBool b)
                                       +:+ " for group " +:+ from_chatname msg))])
             (set_group_config (fun c => <[(cid, key) := VBool b]> c)
                (set_db_config (fun c => <[(cid, key) := VBool b]> c)
                   (set_trace (fun tr => tr ++ [ConfigUpsert cid key (VBool b)])
                      (set_trace (fun tr => tr ++ [GetChatAdministrators cid]) s))))).
Proof.
  intros Hf Hty Ht Hre Hval Hadm. cbv zeta.
  apply str_in_In in Hty. apply str_in_In in Hval. apply int_in_In in Hadm.
  destruct (re_cmd_set_inv t key val Hre) as [Hkey Hst].
  unfold handle_set_get. cbv zeta. rewrite Hty. cbn [negb].
  unfold bind at 1. unfold text_attr. rewrite Ht. unfold ret at 1.
  rewrite Hst, Hre. unfold bind at 1. rewrite admin_ids_ok by exact Hf.
  rewrite Hadm. cbn [negb]. rewrite Hval.
  unfold bind at 1. rewrite set_setting_ok by (auto using command_key_valid).
  rewrite reply_to_ok by exact Hf. reflexivity.
Qed.

(** X21. What [/graphene_set key=yes|no] stored is what [/graphene_get
    key] reports: when an administrator's set command is accepted in a
    group and another administrator asks for the same key there, with no
    call failing, the answer sent to the chat is ["True"] for [yes] and
    ["False"] for [no]. *)
Theorem set_then_get (set_msg get_msg : Message) (t_set t_get key val : string) (s : state) :
  (forall h c, fails E h c = false) ->
  In (chat_type (chat set_msg)) ["group"; "supergroup"] ->
  chat get_msg = chat set_msg ->
  text set_msg = Some t_set ->
  re_cmd_set t_set = Some (key, val) ->
  In val ["yes"; "no"] ->
  text get_msg = Some t_get ->
  re_cmd_get t_get = Some (key, EmptyString) ->
  In (user_id (from_user set_msg)) (chat_administrators E (chat_id (chat set_msg))) ->
  In (user_id (from_user get_msg)) (chat_administrators E (chat_id (chat set_msg))) ->
  let cid := chat_id (chat set_msg) in
  exists s1 s2,
    handle_set_get E str_of_list set_msg s = Ok tt s1 /\
    handle_set_get E str_of_list get_msg s1 = Ok tt s2 /\
    trace s2 = trace s1 ++ [GetChatAdministrators cid;
                            SendMessage cid (Str (if String.eqb val "yes"
                                                  then "True" else "False"))].
Proof.
  intros Hf Hty Hchat Hts Hres Hval Htg Hreg Ha1 Ha2. cbv zeta.
  eexists. eexists. split; [apply (handle_set_run set_msg t_set key val s); assumption |].
  destruct (re_cmd_get_inv t_get key EmptyString Hreg) as (Hkey & _ & Hst).
  pose proof Hty as Hty'. apply str_in_In in Hty'. apply int_in_In in Ha2.
  unfold handle_set_get at 1. cbv zeta. rewrite Hchat, Hty'. cbn [negb].
  unfold bind at 1. unfold text_attr. rewrite Htg. unfold ret at 1.
  rewrite Hst, Hreg. unfold bind at 1. rewrite admin_ids_ok by exact Hf.
  rewrite Ha2. cbn [negb].
  unfold bind at 1. rewrite get_setting_valid by (auto using command_key_valid).
  cbn [group_config set_trace set_group_config set_db_config].
  rewrite lookup_insert_eq. rewrite reply_to_ok by exact Hf.
  split; [reflexivity |].
  cbn [trace set_trace set_group_config set_db_config]. rewrite <- !app_assoc.
  destruct (String.eqb val "yes"); reflexivity.
Qed.

(** X22. [/graphene_set] and [/graphene_get] can write nothing but a
    boolean under one of the seven command keys of the chat they are sent
    in: after the handler, whatever its outcome, the cache is as before or
    differs by exactly such an entry; [log_channel_id] and [logformat] are
    out of its reach. *)
Theorem handle_set_get_writes_booleans (msg : Message) (s : state) :
  let s' := final (handle_set_get E str_of_list msg s) in
  group_config s' = group_config s \/
  exists key b,
    In key COMMAND_KEYS /\
    group_config s' = <[(chat_id (chat msg), key) := VBool b]> (group_config s).
Proof.
  cbv zeta. remember (final (handle_set_get E str_of_list msg s)) as s' eqn:Hs'.
  revert Hs'. unfold handle_set_get. cbv zeta.
  assert (Hreply : forall cid body s0,
             group_config s0 = group_config s ->
             s' = final (reply_to E cid body s0) -> group_config s' = group_config s).
  { intros cid body s0 H0 ->. rewrite reply_to_final. exact H0. }
  destruct (negb (Py.str_in (chat_type (chat msg)) _));
    [intros H; left; eapply Hreply; [reflexivity | exact H] |].
  unfold bind at 1. unfold text_attr.
  destruct (text msg) as [t |]; [| intros ->; left; reflexivity].
  unfold ret at 1.
  destruct (Py.startswith t "/graphene_set") eqn:Hst.
  - destruct (re_cmd_set t) as [[key val] |] eqn:Hre;
      [| intros H; left; eapply Hreply; [reflexivity | exact H]].
    destruct (re_cmd_set_inv t key val Hre) as [Hkey _].
    unfold bind at 1.
    destruct (admin_ids_cases E (chat_id (chat msg)) s) as [-> | ->];
      [| intros ->; left; reflexivity].
    destruct (negb (Py.int_in _ _));
      [intros H; left; eapply Hreply; [| exact H]; reflexivity |].
    cbn [negb].
    destruct (Py.str_in val ["yes"; "no"]);
      [| intros H; left; eapply Hreply; [| exact H]; reflexivity].
    unfold bind at 1.
    match goal with
    | |- context [set_setting E ?g ?k ?v ?st] =>
        destruct (set_setting_cases E g k v st) as [-> | [-> | ->]]
    end; [intros ->; left; reflexivity | intros ->; left; reflexivity |].
    intros ->. right. exists key, (String.eqb val "yes"). split; [exact Hkey |].
    rewrite reply_to_final. reflexivity.
  - destruct (re_cmd_get t) as [[key val] |] eqn:Hre;
      [| intros H; left; eapply Hreply; [reflexivity | exact H]].
    unfold bind at 1.
    destruct (admin_ids_cases E (chat_id (chat msg)) s) as [-> | ->];
      [| intros ->; left; reflexivity].
    destruct (negb (Py.int_in _ _));
      [intros H; left; eapply Hreply; [| exact H]; reflexivity |].
    cbn [negb]. unfold bind at 1.
    match goal with
    | |- context [get_setting ?g ?k ?d ?st] =>
        pose proof (get_setting_final g k d st) as Hg;
        destruct (get_setting g k d st) as [v s1 | e s1]; simpl in Hg; subst s1
    end; [intros H; left; eapply Hreply; [| exact H]; reflexivity
         | intros ->; left; reflexivity].
Qed.

(** X23. Switching links off takes effect on the messages that follow:
    once an administrator's [/graphene_set links=no] has been handled in a
    group without error, no message of that chat is classified with the
    reason "external link" or "caption external link". *)
Theorem links_off_after_set_command
    (msg : Message) (t : string) (s s1 : state) :
  In (chat_type (chat msg)) ["group"; "supergroup"] ->
  text msg = Some t ->
  re_cmd_set t = Some ("links", "no") ->
  In (user_id (from_user msg)) (chat_administrators E (chat_id (chat msg))) ->
  handle_set_get E str_of_list msg s = Ok tt s1 ->
  forall later s2 to_delete reason,
    chat_id (chat later) = chat_id (chat msg) ->
    classify E later s1 = Ok (to_delete, reason) s2 ->
    reason <> Some "external link" /\ reason <> Some "caption external link".
Proof.
  intros Hty Ht Hre Hadm Hrun later s2 to_delete reason Hchat Hcl.
  apply str_in_In in Hty. apply int_in_In in Hadm.
  destruct (re_cmd_set_inv t "links" "no" Hre) as [_ Hst].
  assert (Hoff : links_off (chat_id (chat later)) s1).
  { rewrite Hchat. revert Hrun. unfold handle_set_get. cbv zeta. rewrite Hty. cbn [negb].
    unfold bind at 1. unfold text_attr. rewrite Ht. unfold ret at 1.
    rewrite Hst, Hre. unfold bind at 1.
    destruct (admin_ids_cases E (chat_id (chat msg)) s) as [-> | ->]; [| discriminate].
    rewrite Hadm. cbn [negb]. change (Py.str_in "no" ["yes"; "no"]) with true. cbv iota.
    unfold bind at 1.
    match goal with
    | |- context [set_setting E ?g ?k ?v ?st] =>
        destruct (set_setting_cases E g k v st) as [-> | [-> | ->]]
    end; [discriminate | discriminate |].
    intros Hr. unfold reply_to, perform in Hr.
    destruct (fails E _ _); [discriminate |]. inversion Hr. subst s1.
    exists (VBool false). split; [apply lookup_insert_eq | reflexivity]. }
  change (no_link_reason (to_delete, reason)).
  eapply classify_links_off; eassumption.
Qed.

End CommandEffects.

Section LogCommands.

Variable E : env.

(** X24. [/unsetlog] switches the audit off: once an administrator's
    command has been handled in a group without error, the setting holds
    [None] (not the absent default), and for every later flagged message
    of that chat the audit step makes no call. *)
Theorem unsetlog_stops_audit (msg : Message) (s s1 : state) :
  In (chat_type (chat msg)) ["group"; "supergroup"] ->
  In (user_id (from_user msg)) (chat_administrators E (chat_id (chat msg))) ->
  handle_unsetlog E msg s = Ok tt s1 ->
  group_config s1 !! (chat_id (chat msg), "log_channel_id") = Some VNone /\
  forall later reason,
    chat_id (chat later) = chat_id (chat msg) ->
    (let! ids := log_channel_ids later in dispatch E later reason ids) s1 = Ok tt s1.
Proof.
  intros Hty Hadm Hrun. apply str_in_In in Hty. apply int_in_In in Hadm.
  assert (Hset : group_config s1 !! (chat_id (chat msg), "log_channel_id") = Some VNone).
  { revert Hrun. unfold handle_unsetlog. cbv zeta. rewrite Hty. cbn [negb].
    unfold bind at 1.
    destruct (admin_ids_cases E (chat_id (chat msg)) s) as [-> | ->]; [| discriminate].
    rewrite Hadm. cbn [negb]. unfold bind at 1.
    match goal with
    | |- context [set_setting E ?g ?k ?v ?st] =>
        destruct (set_setting_cases E g k v st) as [-> | [-> | ->]]
    end; [discriminate | discriminate |].
    intros Hr. unfold reply_to, perform in Hr.
    destruct (fails E _ _); [discriminate |]. inversion Hr. subst s1.
    apply lookup_insert_eq. }
  split; [exact Hset |].
  intros later reason Hchat. unfold bind at 1. unfold log_channel_ids.
  unfold bind at 1. rewrite get_setting_valid by key_ok. rewrite Hchat, Hset. reflexivity.
Qed.

Lemma split_on_no_sep (sep : ascii) (s : string) :
  has_char sep s = false -> split_on sep s = [s].
Proof.
  induction s as [| c r IH]; simpl; [reflexivity |].
  rewrite Ascii.eqb_sym. destruct (Ascii.eqb c sep); simpl; [discriminate |].
  intros H. rewrite (IH H). reflexivity.
Qed.

Lemma split_on_nonempty (sep : ascii) (s : string) : split_on sep s <> [].
Proof.
  destruct s as [| c r]; simpl; [discriminate |].
  destruct (Ascii.eqb c sep); [discriminate |].
  destruct (split_on sep r); discriminate.
Qed.

Lemma last_split_on_app (sep : ascii) (pre tok : string) :
  List.last (split_on sep (pre +:+ String sep tok)) EmptyString
  = List.last (split_on sep tok) EmptyString.
Proof.
  induction pre as [| c r IH].
  - change (EmptyString +:+ String sep tok) with (String sep tok). simpl.
    rewrite Ascii.eqb_refl.
    destruct (split_on sep tok) eqn:Hs; [exfalso; eapply split_on_nonempty; eassumption |].
    reflexivity.
  - change (String c r +:+ String sep tok) with (String c (r +:+ String sep tok)).
    cbn [split_on]. destruct (Ascii.eqb c sep).
    + destruct (split_on sep (r +:+ String sep tok)) eqn:Hs;
        [exfalso; eapply split_on_nonempty; eassumption |].
      exact IH.
    + destruct (split_on sep (r +:+ String sep tok)) as [| h [| h' t]] eqn:Hs;
        [exfalso; eapply split_on_nonempty; eassumption | |].
      * simpl in IH. rewrite <- IH.
        (* a single piece cannot hold the separator that the text holds *)
        exfalso. clear IH.
        assert (Hlen : forall p, (1 < length (split_on sep (p +:+ String sep tok)))%nat).
        { clear. intros p. induction p as [| a p IHp].
          - change (EmptyString +:+ String sep tok) with (String sep tok). simpl.
            rewrite Ascii.eqb_refl. simpl.
            destruct (split_on sep tok) eqn:Hs;
              [exfalso; eapply split_on_nonempty; eassumption | simpl; lia].
          - change (String a p +:+ String sep tok) with (String a (p +:+ String sep tok)).
            cbn [split_on]. destruct (Ascii.eqb a sep); [simpl; lia |].
            destruct (split_on sep (p +:+ String sep tok)); simpl in *; lia. }
        specialize (Hlen r). rewrite Hs in Hlen. simpl in Hlen. lia.
      * exact IH.
Qed.

(** X25. Only the text after the last space of a [/setlogformat] command
    is read as the format list: for a last word without spaces the parsed
    list is that word split at its commas, whatever precedes it (so
    [json forward] names the single format [forward]); a text without any
    space is split as a whole. *)
Theorem parse_formats_last_word (pre word : string) :
  has_char " " word = false ->
  parse_formats (pre +:+ String " " word) = split_on "," word /\
  parse_formats word = split_on "," word.
Proof.
  intros Hw. unfold parse_formats. rewrite last_split_on_app.
  rewrite (split_on_no_sep " " word Hw). split; reflexivity.
Qed.

(** X26. [/setlogformat] can write nothing but a list of valid format
    names under the [logformat] key of the channel it is posted in:
    after the handler, whatever its outcome, the cache is as before or
    holds there a non-empty list whose members are all among json,
    forward and simple. *)
Theorem handle_setlogformat_writes_valid (post : ChannelPost) (s : state) :
  let s' := final (handle_setlogformat E post s) in
  group_config s' = group_config s \/
  exists formats,
    formats <> [] /\
    Forall (fun f => In f VALID_FORMATS) formats /\
    group_config s' = <[(chat_id (post_chat post), "logformat") := VList formats]>
                        (group_config s).
Proof.
  cbv zeta. remember (final (handle_setlogformat E post s)) as s' eqn:Hs'.
  revert Hs'. unfold handle_setlogformat. cbv zeta.
  assert (Hreply : forall cid body s0,
             group_config s0 = group_config s ->
             s' = final (reply_to E cid body s0) -> group_config s' = group_config s).
  { intros cid body s0 H0 ->. rewrite reply_to_final. exact H0. }
  destruct (negb (String.eqb (chat_type (post_chat post)) "channel"));
    [intros H; left; eapply Hreply; [reflexivity | exact H] |].
  unfold bind at 1.
  destruct (admin_ids_cases E (chat_id (post_chat post)) s) as [-> | ->];
    [| intros ->; left; reflexivity].
  destruct (post_from_user post) as [sender |]; [| intros ->; left; reflexivity].
  destruct (negb (Py.int_in _ _));
    [intros H; left; eapply Hreply; [| exact H]; reflexivity |].
  unfold bind at 1. unfold text_attr.
  destruct (post_text post) as [t |]; [| intros ->; left; reflexivity].
  unfold ret at 1.
  destruct (any_invalid (parse_formats t)) eqn:Hinv;
    [intros H; left; eapply Hreply; [| exact H]; reflexivity |].
  unfold bind at 1.
  match goal with
  | |- context [set_setting E ?g ?k ?v ?st] =>
      destruct (set_setting_cases E g k v st) as [-> | [-> | ->]]
  end; [intros ->; left; reflexivity | intros ->; left; reflexivity |].
  intros ->. right. exists (parse_formats t).
  split; [apply split_on_nonempty |].
  split; [| rewrite reply_to_final; reflexivity].
  apply Forall_forall. intros f Hf. unfold any_invalid in Hinv.
  destruct (Py.str_in f VALID_FORMATS) eqn:Hv; [apply str_in_In; exact Hv |].
  exfalso. apply list_elem_of_In in Hf.
  assert (He : existsb (fun x => negb (Py.str_in x VALID_FORMATS)) (parse_formats t) = true).
  { apply existsb_exists. exists f. split; [exact Hf | rewrite Hv; reflexivity]. }
  congruence.
Qed.

(** X27. A channel post that carries no sender cannot set the log format:
    in a channel, once the administrator query has returned, the handler
    raises [AttributeError] on [msg.from_user.id]; nothing is stored and
    nothing is answered. *)
Theorem unsigned_post_raises (post : ChannelPost) (s : state) :
  chat_type (post_chat post) = "channel" ->
  post_from_user post = None ->
  fails E (trace s) (GetChatAdministrators (chat_id (post_chat post))) = false ->
  handle_setlogformat E post s
    = Raise AttributeError
            (set_trace (fun t => t ++ [GetChatAdministrators (chat_id (post_chat post))]) s).
Proof.
  intros Hty Hfrom Hf. unfold handle_setlogformat. cbv zeta. rewrite Hty.
  change (negb ("channel" =? "channel")%string) with false. cbv iota.
  unfold bind at 1. unfold admin_ids, bind at 1. unfold perform. rewrite Hf.
  unfold ret at 1. rewrite Hfrom. reflexivity.
Qed.

End LogCommands.

(** ** Concrete runs of the further properties *)

Lemma set_setting_leaves_the_rest_witness :
  let E := sample_env never in
  let s' := final (set_setting E (-1001) "links" (VBool false) empty_state) in
  ((-1001, "emails") <> (-1001, "links")) /\
  (value_of (get_setting (-1001) "emails" (VBool true) s')
     = value_of (get_setting (-1001) "emails" (VBool true) empty_state) /\
   delete_events s' = delete_events empty_state /\
   db_user s' = db_user empty_state /\
   db_event s' = db_event empty_state).
Proof.
  intros E s'.
  assert (H : (-1001, "emails") <> (-1001, "links")) by (intros H; inversion H).
  split; [exact H |].
  exact (set_setting_leaves_the_rest E (-1001) "links" (VBool false) empty_state
           (-1001) "emails" (VBool true) H).
Defined.

Lemma set_setting_twice_witness :
  let E := sample_env never in
  let once := final (set_setting E (-1001) "links" (VBool false) empty_state) in
  let twice := final ((set_setting E (-1001) "links" (VBool false)
                       >> set_setting E (-1001) "links" (VBool false)) empty_state) in
  (In "links" GROUP_SETTING_KEYS /\
   forall h, fails E h (ConfigUpsert (-1001) "links" (VBool false)) = false) /\
  (group_config twice = group_config once /\
   db_config twice = db_config once /\
   trace twice = trace empty_state ++ [ConfigUpsert (-1001) "links" (VBool false);
                                       ConfigUpsert (-1001) "links" (VBool false)]).
Proof.
  intros E once twice.
  assert (H1 : In "links" GROUP_SETTING_KEYS) by (simpl; tauto).
  assert (H2 : forall h, fails E h (ConfigUpsert (-1001) "links" (VBool false)) = false)
    by (intros h; reflexivity).
  split; [split; assumption |].
  exact (set_setting_twice E (-1001) "links" (VBool false) empty_state H1 H2).
Defined.


Lemma resolved_name_is_cached_witness :
  let E := sample_env never in
  let s1 := final (process_user_type E "SpamGroup" empty_state) in
  (process_user_type E "SpamGroup" empty_state = Ok (Some "group") s1 /\
   "group" <> EmptyString /\
   Py.lower "spamgroup" = Py.lower "SpamGroup" /\
   fails E (trace s1) (UserFind (Py.lower "SpamGroup")) = false) /\
  process_user_type E "spamgroup" s1
    = Ok (Some "group") (set_trace (fun t => t ++ [UserFind (Py.lower "SpamGroup")]) s1).
Proof.
  intros E s1.
  assert (H1 : process_user_type E "SpamGroup" empty_state = Ok (Some "group") s1)
    by (vm_compute; reflexivity).
  assert (H2 : "group" <> EmptyString) by discriminate.
  assert (H3 : Py.lower "spamgroup" = Py.lower "SpamGroup") by reflexivity.
  assert (H4 : fails E (trace s1) (UserFind (Py.lower "SpamGroup")) = false) by reflexivity.
  split; [repeat split; assumption |].
  exact (resolved_name_is_cached E "SpamGroup" "spamgroup" "group" empty_state s1
           H1 H2 H3 H4).
Defined.

Lemma unresolved_name_not_cached_witness :
  let E := unresolving_env in
  let r := process_user_type E "Nobody" empty_state in
  (db_user empty_state !! Py.lower "Nobody" = None /\
   Py.truthy_str (fetch_user_type E (Py.lower "Nobody")) = false) /\
  (db_user (final r) = db_user empty_state /\
   (fails E (trace empty_state) (UserFind (Py.lower "Nobody")) = false ->
    fails E (trace empty_state ++ [UserFind (Py.lower "Nobody")])
      (FetchUserType (Py.lower "Nobody")) = false ->
    r = Ok (fetch_user_type E (Py.lower "Nobody"))
           (set_trace (fun t => t ++ [FetchUserType (Py.lower "Nobody")])
              (set_trace (fun t => t ++ [UserFind (Py.lower "Nobody")]) empty_state)))).
Proof.
  intros E r.
  assert (H1 : db_user empty_state !! Py.lower "Nobody" = None) by reflexivity.
  assert (H2 : Py.truthy_str (fetch_user_type E (Py.lower "Nobody")) = false)
    by reflexivity.
  split; [split; assumption |].
  exact (unresolved_name_not_cached E "Nobody" empty_state H1 H2).
Defined.

Lemma textless_message_raises_witness :
  let E := sample_env never in
  (text photo_msg = None /\
   (entities photo_msg = None \/ entities photo_msg = Some [])) /\
  handle_any_msg E photo_msg empty_state = Raise TypeError empty_state.
Proof.
  intros E.
  assert (H1 : text photo_msg = None) by reflexivity.
  assert (H2 : entities photo_msg = None \/ entities photo_msg = Some [])
    by (left; reflexivity).
  split; [split; assumption |].
  exact (textless_message_raises E photo_msg empty_state H1 H2).
Defined.

Lemma clean_message_untouched_witness :
  let E := sample_env never in
  (text clean_msg = Some "hello there" /\
   (entities clean_msg = None \/ entities clean_msg = Some []) /\
   re_search_mention "hello there" = None /\
   forward_from clean_msg = None /\
   forward_from_chat clean_msg = None /\
   find_username_links E (caption_or_empty clean_msg) = [] /\
   find_external_links E (caption_or_empty clean_msg) = []) /\
  handle_any_msg E clean_msg audit_state = Ok tt audit_state.
Proof.
  intros E.
  assert (H1 : text clean_msg = Some "hello there") by reflexivity.
  assert (H2 : entities clean_msg = None \/ entities clean_msg = Some [])
    by (left; reflexivity).
  assert (H3 : re_search_mention "hello there" = None) by (vm_compute; reflexivity).
  assert (H4 : forward_from clean_msg = None) by reflexivity.
  assert (H5 : forward_from_chat clean_msg = None) by reflexivity.
  assert (H6 : find_username_links E (caption_or_empty clean_msg) = []) by reflexivity.
  assert (H7 : find_external_links E (caption_or_empty clean_msg) = []) by reflexivity.
  split; [repeat split; assumption |].
  exact (clean_message_untouched E clean_msg "hello there" audit_state
           H1 H2 H3 H4 H5 H6 H7).
Defined.

Lemma unexcepted_link_flagged_witness :
  let E := sample_env never in
  let ent := mkEntity "url" 10 21 in
  let t := "check out http://evil.example/x" in
  (entities evil_link_msg = Some [ent] /\
   In (ent_type ent) ["url"; "text_link"] /\
   text evil_link_msg = Some t /\
   urlparse_netloc E (entity_url t ent) = Some "evil.example" /\
   ~ In (Py.lower "evil.example") (LINKS_EXCEPTIONS E)) /\
  classify E evil_link_msg empty_state = Ok (true, Some "external link") empty_state.
Proof.
  intros E ent t.
  assert (H1 : entities evil_link_msg = Some [ent]) by reflexivity.
  assert (H2 : In (ent_type ent) ["url"; "text_link"]) by (left; reflexivity).
  assert (H3 : text evil_link_msg = Some t) by reflexivity.
  assert (H4 : urlparse_netloc E (entity_url t ent) = Some "evil.example")
    by (vm_compute; reflexivity).
  assert (H5 : ~ In (Py.lower "evil.example") (LINKS_EXCEPTIONS E)).
  { vm_compute. intros [H | [H | [H | []]]]; discriminate H. }
  split; [repeat split; assumption |].
  exact (unexcepted_link_flagged E evil_link_msg ent [] t "evil.example" empty_state
           H1 H2 H3 I H4 H5).
Defined.

Lemma email_entity_flagged_witness :
  let E := sample_env never in
  let ent := mkEntity "email" 9 15 in
  (entities email_msg = Some [ent] /\ ent_type ent = "email") /\
  classify E email_msg empty_state = Ok (true, Some "email") empty_state.
Proof.
  intros E ent.
  assert (H1 : entities email_msg = Some [ent]) by reflexivity.
  assert (H2 : ent_type ent = "email") by reflexivity.
  split; [split; assumption |].
  exact (email_entity_flagged E email_msg ent [] empty_state H1 H2 I).
Defined.

Lemma excepted_mention_skipped_witness :
  let E := sample_env never in
  let ent := mkEntity "mention" 4 7 in
  (text excepted_mention_msg = Some "ask @preico" /\
   ent_type ent = "mention" /\
   In (Py.lower (Py.lstrip "@" (Py.slice "ask @preico" (ent_offset ent)
                                  (ent_offset ent + ent_length ent))))
      USERNAME_EXCEPTIONS) /\
  entity_loop E excepted_mention_msg [ent] empty_state
    = entity_loop E excepted_mention_msg [] empty_state.
Proof.
  intros E ent.
  assert (H1 : text excepted_mention_msg = Some "ask @preico") by reflexivity.
  assert (H2 : ent_type ent = "mention") by reflexivity.
  assert (H3 : In (Py.lower (Py.lstrip "@" (Py.slice "ask @preico" (ent_offset ent)
                                              (ent_offset ent + ent_length ent))))
                  USERNAME_EXCEPTIONS).
  { vm_compute. right. left. reflexivity. }
  split; [repeat split; assumption |].
  exact (proj1 (excepted_mention_skipped E excepted_mention_msg "ask @preico"
                  empty_state H1) ent [] H2 H3).
Defined.


Lemma notify_then_silent_witness :
  let E := sample_env never in
  let s1 := final (notify E evil_link_msg empty_state) in
  let recorded := clock E (Nat.pred (ticks s1)) in
  notify E evil_link_msg empty_state = Ok tt s1 /\
  (delete_events s1 !! (-1001, 7) = Some recorded /\
   (clock E (ticks s1) - recorded <= HOUR ->
    trace (final (notify E evil_link_msg s1)) = trace s1)).
Proof.
  intros E s1.
  assert (H : notify E evil_link_msg empty_state = Ok tt s1) by (vm_compute; reflexivity).
  split; [exact H |].
  exact (notify_then_silent E evil_link_msg empty_state s1 H).
Defined.

Lemma notice_failure_skips_audit_witness :
  let E := sample_env notice_fails in
  let s1 := audit_state in
  let ev := mkEvent evil_link_msg (clock E (ticks s1)) "delete_msg" "external link" in
  let before := trace s1 ++ [GetChatAdministrators (-1001)] in
  let s' := final (handle_any_msg E evil_link_msg audit_state) in
  (classify E evil_link_msg audit_state = Ok (true, Some "external link") s1 /\
   fails E (trace s1) (GetChatAdministrators (-1001)) = false /\
   ~ In 7 (chat_administrators E (-1001)) /\
   fails E before (EventSave ev) = false /\
   fails E (before ++ [EventSave ev]) (SendMessage (-1001) (Str NOTICE)) = true) /\
  (trace s' = before ++ [EventSave ev; SendMessage (-1001) (Str NOTICE);
                         DeleteMessage (-1001) 42] /\
   delete_events s' = delete_events s1).
Proof.
  intros E s1 ev before s'.
  assert (H1 : classify E evil_link_msg audit_state = Ok (true, Some "external link") s1)
    by (vm_compute; reflexivity).
  assert (H2 : fails E (trace s1) (GetChatAdministrators (-1001)) = false) by reflexivity.
  assert (H3 : ~ In 7 (chat_administrators E (-1001))).
  { vm_compute. intros [H | []]. discriminate H. }
  assert (H4 : fails E before (EventSave ev) = false) by reflexivity.
  assert (H5 : fails E (before ++ [EventSave ev]) (SendMessage (-1001) (Str NOTICE)) = true)
    by reflexivity.
  split; [repeat split; assumption |].
  exact (notice_failure_skips_audit E evil_link_msg audit_state s1 "external link"
           H1 H2 H3 H4 I I H5).
Defined.

Lemma dispatch_channel_order_witness :
  let E := sample_env never in
  let t := "check out http://evil.example/x" in
  ((forall h c, fails E h c = false) /\
   group_config audit_state !! (-2002, "logformat") = Some (VList ["forward"; "simple"]) /\
   jsondate_dumps E evil_link_msg "external link" (clock E (ticks audit_state)) = Some "{}" /\
   text_or_caption evil_link_msg = Some t) /\
  exists s',
    dispatch_channel E evil_link_msg "external link" (-2002) audit_state = Ok tt s' /\
    trace s' =
      trace audit_state
      ++ (if Py.str_in "forward" ["forward"; "simple"]
          then [ForwardMessage (-2002) (-1001) 42] else [])
      ++ (if Py.str_in "json" ["forward"; "simple"]
          then [SendMessage (-2002) (json_record evil_link_msg "{}")] else [])
      ++ (if Py.str_in "simple" ["forward"; "simple"]
          then [SendMessage (-2002) (simple_record evil_link_msg "external link" t)]
          else []).
Proof.
  intros E t.
  assert (H1 : forall h c, fails E h c = false) by (intros h c; reflexivity).
  assert (H2 : group_config audit_state !! (-2002, "logformat")
               = Some (VList ["forward"; "simple"])) by (vm_compute; reflexivity).
  assert (H3 : jsondate_dumps E evil_link_msg "external link" (clock E (ticks audit_state))
               = Some "{}") by reflexivity.
  assert (H4 : text_or_caption evil_link_msg = Some t) by reflexivity.
  split; [repeat split; assumption |].
  exact (dispatch_channel_order E evil_link_msg "external link" (-2002)
           ["forward"; "simple"] "{}" t audit_state H1 H2 H3 H4).
Defined.

Lemma no_log_channel_no_dispatch_witness :
  let E := sample_env never in
  group_config empty_state !! (-1001, "log_channel_id") = None /\
  (let! ids := log_channel_ids evil_link_msg
   in dispatch E evil_link_msg "external link" ids) empty_state = Ok tt empty_state.
Proof.
  intros E.
  split; [reflexivity |].
  exact (no_log_channel_no_dispatch E evil_link_msg "external link" empty_state I).
Defined.

Lemma admin_query_failure_keeps_message_witness :
  let E := sample_env admins_fail in
  (classify E evil_link_msg empty_state = Ok (true, Some "external link") empty_state /\
   fails E (trace empty_state) (GetChatAdministrators (-1001)) = true) /\
  handle_any_msg E evil_link_msg empty_state
    = Raise (CallFailed (GetChatAdministrators (-1001)))
            (after_admins evil_link_msg empty_state).
Proof.
  intros E.
  assert (H1 : classify E evil_link_msg empty_state
               = Ok (true, Some "external link") empty_state) by (vm_compute; reflexivity).
  assert (H2 : fails E (trace empty_state) (GetChatAdministrators (-1001)) = true)
    by reflexivity.
  split; [split; assumption |].
  exact (admin_query_failure_keeps_message E evil_link_msg empty_state empty_state
           (Some "external link") H1 H2).
Defined.

Lemma commands_require_admin_witness :
  let E := sample_env never in
  ~ In (user_id (from_user bob_set_msg)) (chat_administrators E (chat_id (chat bob_set_msg))) /\
  settings_untouched empty_state
    (final (handle_set_get E sample_str_of_list bob_set_msg empty_state)).
Proof.
  intros E.
  assert (H : ~ In (user_id (from_user bob_set_msg))
                   (chat_administrators E (chat_id (chat bob_set_msg)))).
  { vm_compute. intros [H | []]. discriminate H. }
  split; [exact H |].
  exact (proj1 (proj1 (commands_require_admin E sample_str_of_list)
                      bob_set_msg empty_state H)).
Defined.

Lemma set_then_get_witness :
  let E := sample_env never in
  ((forall h c, fails E h c = false) /\
   In (chat_type (chat set_links_no_msg)) ["group"; "supergroup"] /\
   chat get_links_msg = chat set_links_no_msg /\
   text set_links_no_msg = Some "/graphene_set links=no" /\
   re_cmd_set "/graphene_set links=no" = Some ("links", "no") /\
   In "no" ["yes"; "no"] /\
   text get_links_msg = Some "/graphene_get links" /\
   re_cmd_get "/graphene_get links" = Some ("links", EmptyString) /\
   In (user_id (from_user set_links_no_msg)) (chat_administrators E (-1001)) /\
   In (user_id (from_user get_links_msg)) (chat_administrators E (-1001))) /\
  exists s1 s2,
    handle_set_get E sample_str_of_list set_links_no_msg empty_state = Ok tt s1 /\
    handle_set_get E sample_str_of_list get_links_msg s1 = Ok tt s2 /\
    trace s2 = trace s1 ++ [GetChatAdministrators (-1001);
                            SendMessage (-1001)
                              (Str (if String.eqb "no" "yes" then "True" else "False"))].
Proof.
  intros E.
  assert (H1 : forall h c, fails E h c = false) by (intros h c; reflexivity).
  assert (H2 : In (chat_type (chat set_links_no_msg)) ["group"; "supergroup"])
    by (right; left; reflexivity).
  assert (H3 : chat get_links_msg = chat set_links_no_msg) by reflexivity.
  assert (H4 : text set_links_no_msg = Some "/graphene_set links=no") by reflexivity.
  assert (H5 : re_cmd_set "/graphene_set links=no" = Some ("links", "no"))
    by (vm_compute; reflexivity).
  assert (H6 : In "no" ["yes"; "no"]) by (right; left; reflexivity).
  assert (H7 : text get_links_msg = Some "/graphene_get links") by reflexivity.
  assert (H8 : re_cmd_get "/graphene_get links" = Some ("links", EmptyString))
    by (vm_compute; reflexivity).
  assert (H9 : In (user_id (from_user set_links_no_msg)) (chat_administrators E (-1001)))
    by (left; reflexivity).
  assert (H10 : In (user_id (from_user get_links_msg)) (chat_administrators E (-1001)))
    by (left; reflexivity).
  split; [repeat split; assumption |].
  exact (set_then_get E sample_str_of_list set_links_no_msg get_links_msg
           "/graphene_set links=no" "/graphene_get links" "links" "no" empty_state
           H1 H2 H3 H4 H5 H6 H7 H8 H9 H10).
Defined.

Lemma links_off_after_set_command_witness :
  let E := sample_env never in
  let s1 := final (handle_set_get E sample_str_of_list set_links_no_msg empty_state) in
  (In (chat_type (chat set_links_no_msg)) ["group"; "supergroup"] /\
   text set_links_no_msg = Some "/graphene_set links=no" /\
   re_cmd_set "/graphene_set links=no" = Some ("links", "no") /\
   In (user_id (from_user set_links_no_msg))
      (chat_administrators E (chat_id (chat set_links_no_msg))) /\
   handle_set_get E sample_str_of_list set_links_no_msg empty_state = Ok tt s1 /\
   chat_id (chat evil_link_msg) = chat_id (chat set_links_no_msg) /\
   classify E evil_link_msg s1 = Ok (false, None) s1) /\
  (None <> Some "external link" /\ None <> Some "caption external link").
Proof.
  intros E s1.
  assert (H1 : In (chat_type (chat set_links_no_msg)) ["group"; "supergroup"])
    by (right; left; reflexivity).
  assert (H2 : text set_links_no_msg = Some "/graphene_set links=no") by reflexivity.
  assert (H3 : re_cmd_set "/graphene_set links=no" = Some ("links", "no"))
    by (vm_compute; reflexivity).
  assert (H4 : In (user_id (from_user set_links_no_msg))
                  (chat_administrators E (chat_id (chat set_links_no_msg))))
    by (left; reflexivity).
  assert (H5 : handle_set_get E sample_str_of_list set_links_no_msg empty_state = Ok tt s1)
    by (vm_compute; reflexivity).
  assert (H6 : chat_id (chat evil_link_msg) = chat_id (chat set_links_no_msg))
    by reflexivity.
  assert (H7 : classify E evil_link_msg s1 = Ok (false, None) s1)
    by (vm_compute; reflexivity).
  split; [repeat split; assumption |].
  exact (links_off_after_set_command E sample_str_of_list set_links_no_msg
           "/graphene_set links=no" empty_state s1 H1 H2 H3 H4 H5
           evil_link_msg s1 false None H6 H7).
Defined.

Lemma unsetlog_stops_audit_witness :
  let E := sample_env never in
  let s1 := final (handle_unsetlog E unsetlog_msg audit_state) in
  (In (chat_type (chat unsetlog_msg)) ["group"; "supergroup"] /\
   In (user_id (from_user unsetlog_msg))
      (chat_administrators E (chat_id (chat unsetlog_msg))) /\
   handle_unsetlog E unsetlog_msg audit_state = Ok tt s1) /\
  (group_config s1 !! (chat_id (chat unsetlog_msg), "log_channel_id") = Some VNone /\
   forall later reason,
     chat_id (chat later) = chat_id (chat unsetlog_msg) ->
     (let! ids := log_channel_ids later in dispatch E later reason ids) s1 = Ok tt s1).
Proof.
  intros E s1.
  assert (H1 : In (chat_type (chat unsetlog_msg)) ["group"; "supergroup"])
    by (right; left; reflexivity).
  assert (H2 : In (user_id (from_user unsetlog_msg))
                  (chat_administrators E (chat_id (chat unsetlog_msg))))
    by (left; reflexivity).
  assert (H3 : handle_unsetlog E unsetlog_msg audit_state = Ok tt s1)
    by (vm_compute; reflexivity).
  split; [repeat split; assumption |].
  exact (unsetlog_stops_audit E unsetlog_msg audit_state s1 H1 H2 H3).
Defined.

Lemma parse_formats_last_word_witness :
  has_char " " "forward" = false /\
  (parse_formats ("/setlogformat json" +:+ String " " "forward") = split_on "," "forward" /\
   parse_formats "forward" = split_on "," "forward").
Proof.
  assert (H : has_char " " "forward" = false) by reflexivity.
  split; [exact H |].
  exact (parse_formats_last_word "/setlogformat json" "forward" H).
Defined.

Lemma unsigned_post_raises_witness :
  let E := sample_env never in
  (chat_type (post_chat unsigned_post) = "channel" /\
   post_from_user unsigned_post = None /\
   fails E (trace audit_state) (GetChatAdministrators (chat_id (post_chat unsigned_post)))
     = false) /\
  handle_setlogformat E unsigned_post audit_state
    = Raise AttributeError
        (set_trace
           (fun t => t ++ [GetChatAdministrators (chat_id (post_chat unsigned_post))])
           audit_state).
Proof.
  intros E.
  assert (H1 : chat_type (post_chat unsigned_post) = "channel") by reflexivity.
  assert (H2 : post_from_user unsigned_post = None) by reflexivity.
  assert (H3 : fails E (trace audit_state)
                 (GetChatAdministrators (chat_id (post_chat unsigned_post))) = false)
    by reflexivity.
  split; [repeat split; assumption |].
  exact (unsigned_post_raises E unsigned_post audit_state H1 H2 H3).
Defined.

(** ** Properties of the join rule and of [/setlog] *)

Section JoinRule.

Variable E : env.
Variable kick_chat_member : Z -> Z -> M unit.

Lemma kick_bots_filter (cid : Z) (members : list Member) (s : state) :
  kick_bots kick_chat_member cid members s
  = kick_each kick_chat_member cid (map member_id (List.filter unwelcome members)) s.
Proof.
  revert s. induction members as [| user rest IH]; intros s; simpl; [reflexivity |].
  destruct (unwelcome user); simpl.
  - unfold bind. destruct (kick_chat_member cid (member_id user) s); [apply IH | reflexivity].
  - unfold bind at 1. unfold ret at 1. apply IH.
Qed.

(** X28. The join rule: when the member who added the newcomers is an
    administrator of the chat, the handler makes the administrator query
    and nothing else; otherwise it kicks, in joining order and until a
    kick fails, exactly the newcomers that are bots with a username other
    than graphenebot; people and the moderation bot itself are never
    kicked. *)
Theorem new_member_rule (msg : JoinMessage) (s : state) :
  let cid := chat_id (join_chat msg) in
  let sender := user_id (join_from_user msg) in
  (In sender (chat_administrators E cid) ->
   handle_new_chat_member E kick_chat_member msg s = (admin_ids E cid >> ret tt) s) /\
  (~ In sender (chat_administrators E cid) ->
   handle_new_chat_member E kick_chat_member msg s
   = (admin_ids E cid >>
      kick_each kick_chat_member cid
        (map member_id (List.filter unwelcome (new_chat_members msg)))) s).
Proof.
  cbv zeta. split.
  - intros Hin. apply int_in_In in Hin. unfold handle_new_chat_member. cbv zeta.
    unfold bind.
    destruct (admin_ids_cases E (chat_id (join_chat msg)) s) as [-> | ->];
      [rewrite Hin |]; reflexivity.
  - intros Hin. apply int_in_not_In in Hin. unfold handle_new_chat_member. cbv zeta.
    unfold bind.
    destruct (admin_ids_cases E (chat_id (join_chat msg)) s) as [-> | ->];
      [rewrite Hin; apply kick_bots_filter | reflexivity].
Qed.

End JoinRule.

Section SetLog.

Variable E : env.
Variable get_me_id : M Z.

(** X29. [/setlog] routes the audit: when the command is sent in a group
    by one of its administrators, forwarded from a channel in which the
    bot is an administrator, and no call fails, the handler stores the
    channel's id under [log_channel_id] of the group, and for every later
    message of the group the audit step is given exactly that channel. *)
Theorem setlog_routes_audit (msg : Message) (channel : Chat) (me : Z) (s s0 : state) :
  let cid := chat_id (chat msg) in
  (forall h c, fails E h c = false) ->
  In (chat_type (chat msg)) ["group"; "supergroup"] ->
  forward_from_chat msg = Some channel ->
  chat_type channel = "channel" ->
  get_me_id (set_trace (fun t => t ++ [GetChatAdministrators (chat_id channel)]) s)
    = Ok me s0 ->
  In me (chat_administrators E (chat_id channel)) ->
  In (user_id (from_user msg)) (chat_administrators E cid) ->
  chat_id channel <> 0 ->
  exists s1,
    handle_setlog E get_me_id msg s = Ok tt s1 /\
    group_config s1 = <[(cid, "log_channel_id") := VInt (chat_id channel)]> (group_config s0) /\
    forall later,
      chat_id (chat later) = cid ->
      log_channel_ids later s1 = Ok [chat_id channel] s1.
Proof.
  cbv zeta. intros Hf Hty Hfw Hch Hme Hbot Hadm Hnz.
  apply str_in_In in Hty. apply int_in_In in Hbot. apply int_in_In in Hadm.
  unfold handle_setlog. cbv zeta. rewrite Hty. cbn [negb]. rewrite Hfw, Hch.
  change (negb ("channel" =? "channel")%string) with false. cbv iota.
  unfold bind at 1. rewrite admin_ids_ok by exact Hf.
  unfold bind at 1. rewrite Hme. rewrite Hbot. cbn [negb].
  unfold bind at 1. rewrite admin_ids_ok by exact Hf. rewrite Hadm. cbn [negb].
  unfold bind at 1. rewrite set_setting_ok by (auto; key_ok).
  rewrite reply_to_ok by exact Hf.
  eexists. split; [reflexivity |]. split; [reflexivity |].
  intros later Hchat. unfold log_channel_ids. unfold bind.
  rewrite get_setting_valid by key_ok. rewrite Hchat.
  cbn [group_config set_trace set_group_config set_db_config].
  rewrite lookup_insert_eq. cbn [truthy].
  apply Z.eqb_neq in Hnz. rewrite Hnz. reflexivity.
Qed.

End SetLog.

Lemma new_member_rule_witness :
  let E := sample_env never in
  ~ In (user_id (join_from_user join_msg)) (chat_administrators E (chat_id (join_chat join_msg)))
  /\
  handle_new_chat_member E sample_kick join_msg empty_state
  = (admin_ids E (chat_id (join_chat join_msg)) >>
     kick_each sample_kick (chat_id (join_chat join_msg))
       (map member_id (List.filter unwelcome (new_chat_members join_msg)))) empty_state.
Proof.
  intros E.
  assert (H : ~ In (user_id (join_from_user join_msg))
                   (chat_administrators E (chat_id (join_chat join_msg)))).
  { vm_compute. intros [H | []]. discriminate H. }
  split; [exact H |].
  exact (proj2 (new_member_rule E sample_kick join_msg empty_state) H).
Defined.

Lemma setlog_routes_audit_witness :
  let E := sample_env never in
  let s0 := set_trace (fun t => t ++ [GetChatAdministrators (-2002)]) empty_state in
  ((forall h c, fails E h c = false) /\
   In (chat_type (chat setlog_msg)) ["group"; "supergroup"] /\
   forward_from_chat setlog_msg = Some log_channel /\
   chat_type log_channel = "channel" /\
   sample_get_me s0 = Ok 100 s0 /\
   In 100 (chat_administrators E (chat_id log_channel)) /\
   In (user_id (from_user setlog_msg)) (chat_administrators E (chat_id (chat setlog_msg))) /\
   chat_id log_channel <> 0) /\
  exists s1,
    handle_setlog E sample_get_me setlog_msg empty_state = Ok tt s1 /\
    group_config s1
      = <[(chat_id (chat setlog_msg), "log_channel_id") := VInt (chat_id log_channel)]>
          (group_config s0) /\
    forall later,
      chat_id (chat later) = chat_id (chat setlog_msg) ->
      log_channel_ids later s1 = Ok [chat_id log_channel] s1.
Proof.
  intros E s0.
  assert (H1 : forall h c, fails E h c = false) by (intros h c; reflexivity).
  assert (H2 : In (chat_type (chat setlog_msg)) ["group"; "supergroup"])
    by (right; left; reflexivity).
  assert (H3 : forward_from_chat setlog_msg = Some log_channel) by reflexivity.
  assert (H4 : chat_type log_channel = "channel") by reflexivity.
  assert (H5 : sample_get_me s0 = Ok 100 s0) by reflexivity.
  assert (H6 : In 100 (chat_administrators E (chat_id log_channel))) by (left; reflexivity).
  assert (H7 : In (user_id (from_user setlog_msg))
                  (chat_administrators E (chat_id (chat setlog_msg))))
    by (left; reflexivity).
  assert (H8 : chat_id log_channel <> 0) by discriminate.
  split; [repeat split; assumption |].
  exact (setlog_routes_audit E sample_get_me setlog_msg log_channel 100 empty_state s0
           H1 H2 H3 H4 H5 H6 H7 H8).
Defined.
